(** * Echony data storage: the ETL scripts [update_data.py] and [collect_data.py]

    A shallow embedding of the two scheduled jobs under [.github/scripts]:
    the timezone normalizer, the four transformers, the JSON writer and the
    two [main] procedures, followed by the properties of the specification
    that were checked against them.

    Conventions of the embedding.
    - A pandas [DataFrame] is column oriented: an ordered list of named
      [Series], all of the same length.
    - Numeric cells (int64 / float64 columns without NULLs) are exact
      rationals [Q]; what [float(..)] and the mean make of them is rounded
      to binary64 ([float64], [fl]).
    - A datetime is a number of seconds ([Z]); the strftime pattern used by
      the scripts has a resolution of one second.
    - Python exceptions are values of [exn]; fallible pure code returns a
      [result], code with effects runs in the state-and-exception monad [M]
      over an explicit [World].
    - The functions of update_data.py are given twice: on table values
      ([UpdateData]) and on references to tables in a store of objects
      ([UpdateDataRef]), where assigning to a column changes the table of
      every holder of the reference. *)

From stdpp Require Import base list strings gmap.
From Stdlib Require Import ZArith QArith Qminmax Qround Qpower Lia Lqa Ascii Sorted.
From Stdlib Require PrimFloat FloatOps SpecFloat.

Local Open Scope string_scope.
Local Open Scope Z_scope.

(** ** Exceptions and fallible results *)

Inductive exn : Type :=
| KeyError | IndexError | TypeError | AttributeError | ValueError
| FileNotFoundError | OSError | DatabaseError | NameError
| Exception.

Inductive result (A : Type) : Type :=
| Ok (a : A)
| Raise (e : exn).
Arguments Ok {A} a.
Arguments Raise {A} e.

Definition rbind {A B} (r : result A) (k : A -> result B) : result B :=
  match r with
  | Ok a => k a
  | Raise e => Raise e
  end.

Notation "'let?' x := r 'in' k" := (rbind r (fun x => k))
  (at level 10, x pattern, r at level 100, k at level 200).

(** ** Calendar time

    [pytz] and [datetime] are external; what the scripts need of them is the
    proleptic Gregorian calendar and the offset of the two zones they name. *)

Inductive tzinfo : Type := UTC | Asia_Shanghai.

(** Modelled from the spec: the zone database entry behind
    [pytz.timezone('Asia/Shanghai')] is not part of the repository; the
    specification fixes it as UTC+8 with no daylight-saving adjustment. *)
Definition utcoffset (tz : tzinfo) : Z :=
  match tz with
  | UTC => 0
  | Asia_Shanghai => 8 * 3600
  end.

(** A pandas [Timestamp].  For a timezone-aware stamp [value] is the UTC
    instant; for a naive one it is the wall clock itself. *)
Record Timestamp : Type := mkTimestamp { value : Z; tz : option tzinfo }.

Definition wall_clock (t : Timestamp) : Z :=
  match tz t with
  | Some z => value t + utcoffset z
  | None => value t
  end.

(** [now - timedelta(seconds = delta)] *)
Definition sub_timedelta (t : Timestamp) (delta : Z) : Timestamp :=
  mkTimestamp (value t - delta) (tz t).

(** [timedelta(hours=n)] and [timedelta(days=n)], in seconds. *)
Definition hours (n : Z) : Z := n * 3600.
Definition days (n : Z) : Z := n * 86400.

(** Days since 1970-01-01 to (year, month, day) and back. *)
Definition civil_from_days (n : Z) : Z * Z * Z :=
  let z := n + 719468 in
  let era := z / 146097 in
  let doe := z - era * 146097 in
  let yoe := (doe - doe / 1460 + doe / 36524 - doe / 146096) / 365 in
  let doy := doe - (365 * yoe + yoe / 4 - yoe / 100) in
  let mp := (5 * doy + 2) / 153 in
  let d := doy - (153 * mp + 2) / 5 + 1 in
  let m := if mp <? 10 then mp + 3 else mp - 9 in
  let y := yoe + era * 400 in
  (if m <=? 2 then y + 1 else y, m, d).

Definition days_from_civil (y m d : Z) : Z :=
  let y' := if m <=? 2 then y - 1 else y in
  let era := y' / 400 in
  let yoe := y' - era * 400 in
  let doy := (153 * (if 2 <? m then m - 3 else m + 9) + 2) / 5 + d - 1 in
  let doe := yoe * 365 + yoe / 4 - yoe / 100 + doy in
  era * 146097 + doe - 719468.

(** Seconds since the epoch of a civil date and time of day. *)
Definition datetime (y m d hh mm ss : Z) : Z :=
  days_from_civil y m d * 86400 + hh * 3600 + mm * 60 + ss.

Definition digit (n : Z) : ascii :=
  ascii_of_nat (48 + Z.to_nat (n mod 10)).

Definition pad2 (n : Z) : string :=
  String (digit (n / 10)) (String (digit n) EmptyString).

Definition pad4 (n : Z) : string :=
  String (digit (n / 1000)) (String (digit (n / 100)) (pad2 n)).

(** [t.strftime('%Y-%m-%d %H:%M:%S')]: the wall clock of [t], years of four
    digits (a pandas Timestamp lies between 1677 and 2262). *)
Definition strftime (t : Timestamp) : string :=
  let w := wall_clock t in
  let '(y, m, d) := civil_from_days (w / 86400) in
  let sod := w mod 86400 in
  pad4 y +:+ "-" +:+ pad2 m +:+ "-" +:+ pad2 d +:+ " " +:+
  pad2 (sod / 3600) +:+ ":" +:+ pad2 (sod mod 3600 / 60) +:+ ":" +:+ pad2 (sod mod 60).

(** ** Python dictionaries

    Insertion ordered: assigning to a key that is present replaces its value
    and keeps its position, a new key goes to the end. *)

Definition dict (V : Type) : Type := list (string * V).

Fixpoint dict_get {V} (k : string) (d : dict V) : option V :=
  match d with
  | [] => None
  | (k', v) :: d' => if String.eqb k' k then Some v else dict_get k d'
  end.

Fixpoint dict_set {V} (k : string) (v : V) (d : dict V) : dict V :=
  match d with
  | [] => [(k, v)]
  | (k', v') :: d' =>
      if String.eqb k' k then (k', v) :: d' else (k', v') :: dict_set k v d'
  end.

Definition keys {V} (d : dict V) : list string := map fst d.

(** ** The pandas data model *)

(** A Python value as it occurs in a cell or in an output document. *)
Inductive pyval : Type :=
| PyNum (q : Q)
| PyTimestamp (t : Timestamp)
| PyStr (s : string).

(** A column.  [Numeric] is an int64 or float64 column; [Datetime None] is
    dtype datetime64[ns], [Datetime (Some z)] is datetime64[ns, z], whose
    stored values are UTC instants. *)
Inductive Series : Type :=
| Numeric (vals : list Q)
| Datetime (zone : option tzinfo) (vals : list Z).

Record DataFrame : Type := mkDataFrame { cols : list (string * Series) }.

(** [df.columns] *)
Definition columns (df : DataFrame) : list string := map fst (cols df).

Definition series_len (s : Series) : nat :=
  match s with
  | Numeric vals => length vals
  | Datetime _ vals => length vals
  end.

(** [len(df)]: the length of the index, shared by all columns. *)
Definition len (df : DataFrame) : nat :=
  match cols df with
  | [] => O
  | (_, s) :: _ => series_len s
  end.

(** All columns have [n] cells. *)
Definition aligned (n : nat) (df : DataFrame) : Prop :=
  Forall (fun cs => series_len (snd cs) = n) (cols df).

(** [df[c]] for a column label; a label that is absent raises KeyError.
    Labels are unique in the result of [SELECT *] on one table. *)
Definition getitem (df : DataFrame) (c : string) : result Series :=
  match dict_get c (cols df) with
  | Some s => Ok s
  | None => Raise KeyError
  end.

(** [df[c] = s]: replaces the column in place, or appends a new one. *)
Definition setitem (df : DataFrame) (c : string) (s : Series) : DataFrame :=
  mkDataFrame (dict_set c s (cols df)).

(** [s.tolist()] *)
Definition tolist (s : Series) : list pyval :=
  match s with
  | Numeric vals => map PyNum vals
  | Datetime zone vals => map (fun v => PyTimestamp (mkTimestamp v zone)) vals
  end.

(** Boolean indexing: the cells of [xs] whose mask bit is set. *)
Fixpoint select {A} (mask : list bool) (xs : list A) : list A :=
  match mask, xs with
  | b :: mask', x :: xs' => if b then x :: select mask' xs' else select mask' xs'
  | _, _ => []
  end.

Definition series_select (mask : list bool) (s : Series) : Series :=
  match s with
  | Numeric vals => Numeric (select mask vals)
  | Datetime zone vals => Datetime zone (select mask vals)
  end.

(** [df[mask]]: the rows whose mask bit is set, every column keeping its
    label and dtype. *)
Definition df_select (mask : list bool) (df : DataFrame) : DataFrame :=
  mkDataFrame (map (fun cs => (fst cs, series_select mask (snd cs))) (cols df)).

(** [s >= t] for a datetime column and a Timestamp.  pandas refuses to
    compare timezone-naive with timezone-aware data, and numbers with
    Timestamps; aware data is compared by instant. *)
Definition series_ge (s : Series) (t : Timestamp) : result (list bool) :=
  match s, tz t with
  | Datetime (Some _) vals, Some _ => Ok (map (fun v => value t <=? v) vals)
  | Datetime None vals, None => Ok (map (fun v => value t <=? v) vals)
  | _, _ => Raise TypeError
  end.

(** The first cell of a column, as [df.iloc[0]] sees it. *)
Definition first_cell (s : Series) : option pyval := head (tolist s).

(** [df.iloc[0].to_dict()]: IndexError on a frame without rows. *)
Fixpoint first_row (cs : list (string * Series)) : result (dict pyval) :=
  match cs with
  | [] => Ok []
  | (c, s) :: cs' =>
      match first_cell s with
      | Some v => let? d := first_row cs' in Ok ((c, v) :: d)
      | None => Raise IndexError
      end
  end.

Definition iloc0 (df : DataFrame) : result (dict pyval) :=
  match len df with
  | O => Raise IndexError
  | S _ => first_row (cols df)
  end.

(** [s.dt.strftime(fmt).tolist()]; the [.dt] accessor exists on datetime
    columns only. *)
Definition dt_strftime (s : Series) : result (list pyval) :=
  match s with
  | Datetime zone vals =>
      Ok (map (fun v => PyStr (strftime (mkTimestamp v zone))) vals)
  | Numeric _ => Raise AttributeError
  end.

(** [pd.to_datetime(s)]: a datetime column is returned as it is; numbers are
    read as nanoseconds since the epoch. *)
Definition to_datetime (s : Series) : result Series :=
  match s with
  | Datetime zone vals => Ok (Datetime zone vals)
  | Numeric vals => Ok (Datetime None (map (fun q => Qfloor q / 1000000000) vals))
  end.

(** [s.dt.tz_localize(z)]: gives naive wall clocks the zone [z]; raises
    TypeError ("Already tz-aware, use tz_convert to convert") on a column
    that has a zone. *)
Definition tz_localize (z : tzinfo) (s : Series) : result Series :=
  match s with
  | Datetime None vals => Ok (Datetime (Some z) (map (fun w => w - utcoffset z) vals))
  | Datetime (Some _) _ => Raise TypeError
  | Numeric _ => Raise AttributeError
  end.

(** [s.dt.tz_convert(z)]: the same instants shown in zone [z]; raises
    TypeError on a naive column. *)
Definition tz_convert (z : tzinfo) (s : Series) : result Series :=
  match s with
  | Datetime (Some _) vals => Ok (Datetime (Some z) vals)
  | Datetime None _ => Raise TypeError
  | Numeric _ => Raise AttributeError
  end.

(** [s.max()] of a datetime column; [None] stands for NaT. *)
Definition dt_max (zone : option tzinfo) (vals : list Z) : option Timestamp :=
  match vals with
  | [] => None
  | v :: vs => Some (mkTimestamp (fold_left Z.max vs v) zone)
  end.

(** [s.max()] and [s.min()] of a numeric column with at least one cell:
    one of its cells, in the dtype of the column. *)
Definition num_max (v : Q) (vs : list Q) : Q := fold_left Qmax vs v.
Definition num_min (v : Q) (vs : list Q) : Q := fold_left Qmin vs v.

(** ** Binary floating point

    A Python [float] is an IEEE 754 binary64 number: a finite value, which
    is a rational, an infinity or NaN (the sign of zero is not kept). *)
Inductive float64 : Type :=
| Finite (q : Q)
| PosInf
| NegInf
| NaN.

Definition pow2 (k : Z) : Q := Qpower 2 k.

(** The binade of a positive rational: the [k] with 2^k <= q < 2^(k+1). *)
Definition ilog2 (q : Q) : Z :=
  let k := Z.log2 (Qnum q) - Z.log2 (Zpos (Qden q)) in
  if Qle_bool (pow2 k) q then k else k - 1.

(** Rounding to the nearest integer, ties to the even one. *)
Definition rne (x : Q) : Z :=
  let f := Qfloor x in
  match Qcompare (x - inject_Z f) (1 # 2) with
  | Lt => f
  | Gt => f + 1
  | Eq => if Z.even f then f else f + 1
  end.

(** Rounding of a positive rational to binary64: a significand of 53 bits,
    the least exponent that of the subnormal numbers, overflow to
    infinity. *)
Definition expo (q : Q) : Z := Z.max (ilog2 q) (-1022).
Definition ulp (q : Q) : Q := pow2 (expo q - 52).
Definition rounded (q : Q) : Q := (inject_Z (rne (q / ulp q)) * ulp q)%Q.

Definition round_pos (q : Q) : float64 :=
  let r := Qred (rounded q) in
  if Qle_bool (pow2 1024) r then PosInf else Finite r.

Definition fneg (x : float64) : float64 :=
  match x with
  | Finite q => Finite (Qred (- q))
  | PosInf => NegInf
  | NegInf => PosInf
  | NaN => NaN
  end.

(** [float(q)] for an int64 or float64 cell [q], and the rounding of every
    exact result: round to nearest, ties to even. *)
Definition fl (q : Q) : float64 :=
  match Qcompare q 0 with
  | Eq => Finite 0
  | Gt => round_pos q
  | Lt => fneg (round_pos (- q))
  end.

(** [x + y] *)
Definition fadd (x y : float64) : float64 :=
  match x, y with
  | Finite a, Finite b => fl (a + b)
  | NaN, _ | _, NaN => NaN
  | PosInf, NegInf | NegInf, PosInf => NaN
  | PosInf, _ | _, PosInf => PosInf
  | NegInf, _ | _, NegInf => NegInf
  end.

(** [x / n] for a count [n] of at least one. *)
Definition fdiv_count (x : float64) (n : nat) : float64 :=
  match x with
  | Finite a => fl (a / inject_Z (Z.of_nat n))
  | other => other
  end.


(** The sum of a float64 array as numpy computes it ([np.add.reduce],
    pairwise summation).  Fewer than eight cells are added one after the
    other, starting from zero.  Up to 128 cells are added into eight
    interleaved partial sums, which are then combined two by two; the
    cells after the last full group of eight are added at the end.  A
    longer array is cut in two, the first part a multiple of eight, and
    the sums of the parts are added. *)
Definition fsum_from (init : float64) (xs : list float64) : float64 :=
  fold_left fadd xs init.

(** [k] more groups of eight cells added to the eight partial sums [r]. *)
Fixpoint block_loop (k : nat) (r xs : list float64)
    : list float64 * list float64 :=
  match k with
  | O => (r, xs)
  | S k' => block_loop k' (zip_with fadd r (take 8 xs)) (drop 8 xs)
  end.

(** An array of eight cells or more, added in one block. *)
Definition block_sum (xs : list float64) : float64 :=
  match block_loop (length xs / 8 - 1) (take 8 xs) (drop 8 xs) with
  | ([r0; r1; r2; r3; r4; r5; r6; r7], rest) =>
      fsum_from (fadd (fadd (fadd r0 r1) (fadd r2 r3))
                      (fadd (fadd r4 r5) (fadd r6 r7))) rest
  | _ => NaN
  end.

(** The recursion halves the array, so that [length xs] levels of it are
    more than it takes ([pairwise_sum_fuel]); NaN marks exhausted fuel. *)
Fixpoint pairwise_sum (fuel : nat) (xs : list float64) : float64 :=
  let n := length xs in
  if (n <? 8)%nat then fsum_from (Finite 0) xs
  else if (n <=? 128)%nat then block_sum xs
  else
    match fuel with
    | O => NaN
    | S fuel' =>
        let n2 := (n / 2 - (n / 2) mod 8)%nat in
        fadd (pairwise_sum fuel' (take n2 xs)) (pairwise_sum fuel' (drop n2 xs))
    end.

(** [s.mean()] of a numeric column: the cells are converted to binary64,
    numpy adds them to its initial value, zero, and the sum is divided by
    the count.  (When the optional package bottleneck is installed, pandas
    lets it add the cells one after the other instead, and an int64 column
    of more than 8192 cells is converted and added buffer by buffer; the
    results can differ from this one in their last bits.) *)
Definition num_sum (vs : list Q) : float64 :=
  fadd (Finite 0) (pairwise_sum (length vs) (map fl vs)).

Definition num_mean (v : Q) (vs : list Q) : float64 :=
  fdiv_count (num_sum (v :: vs)) (length (v :: vs)).

(** The binary64 numbers of the kernel, read as [float64], to compare [fl]
    with. *)
Definition of_spec_float (x : SpecFloat.spec_float) : float64 :=
  match x with
  | SpecFloat.S754_zero _ => Finite 0
  | SpecFloat.S754_infinity s => if s then NegInf else PosInf
  | SpecFloat.S754_nan => NaN
  | SpecFloat.S754_finite s m e =>
      Finite (Qred ((if s then -1 else 1) * inject_Z (Zpos m) * pow2 e))
  end.

Definition of_prim_float (x : PrimFloat.float) : float64 :=
  of_spec_float (FloatOps.Prim2SF x).

(** Modelled from the spec: the descending re-sort of the end-to-end
    scenario, [df.sort_values('record_date', ascending=False)].  The scripts
    themselves leave the ordering to [ORDER BY record_date DESC] in the
    query.  The sort is stable, and only datetime keys are covered. *)
Fixpoint insert_desc (x : Z * nat) (l : list (Z * nat)) : list (Z * nat) :=
  match l with
  | [] => [x]
  | y :: l' => if fst y <=? fst x then x :: y :: l' else y :: insert_desc x l'
  end.

Definition argsort_desc (vals : list Z) : list nat :=
  map snd (foldr insert_desc [] (zip vals (seq 0 (length vals)))).

Definition take_rows {A} (idx : list nat) (xs : list A) : list A :=
  omap (fun i => xs !! i) idx.

Definition series_take (idx : list nat) (s : Series) : Series :=
  match s with
  | Numeric vals => Numeric (take_rows idx vals)
  | Datetime zone vals => Datetime zone (take_rows idx vals)
  end.

Definition sort_values_desc (df : DataFrame) : result DataFrame :=
  let? d := getitem df "record_date" in
  match d with
  | Datetime _ vals =>
      let idx := argsort_desc vals in
      Ok (mkDataFrame (map (fun cs => (fst cs, series_take idx (snd cs))) (cols df)))
  | Numeric _ => Raise TypeError
  end.

(** ** Output documents *)

(** One entry of [summary['metrics_summary']]: the keys 'max', 'min', 'avg'
    and 'current'. *)
Record ColumnStats : Type := mkColumnStats {
  stat_max : float64;
  stat_min : float64;
  stat_avg : float64;
  stat_current : float64
}.

Record Summary : Type := mkSummary {
  last_update : string;
  total_records : nat;
  metrics_summary : dict ColumnStats
}.

(** The structures handed to [json.dump]. *)
Inductive document : Type :=
| DocRecord (d : dict pyval)
| DocMetrics (d : dict (list pyval))
| DocSummary (s : Summary)
| DocMetadata (last_updated : Z) (record_count : Z).

(** The text [json.dump(body, f, ensure_ascii=.., indent=.., default=..)]
    leaves in a file opened with [encoding='utf-8'].  The [json] module is
    external: a file is identified by the document and the options it was
    dumped with ([default_str] records [default=str]). *)
Record JsonText : Type := mkJsonText {
  ensure_ascii : bool;
  indent : nat;
  default_str : bool;
  body : document
}.

(** What [json.dump] can write.  Without [default=] it raises TypeError on
    a Timestamp; numbers, strings, lists and dictionaries of them are
    written, and with [default=str] everything is. *)
Definition val_dumpable (v : pyval) : bool :=
  match v with
  | PyTimestamp _ => false
  | _ => true
  end.

(** Every value that a key of the dictionary leads to passes [f]. *)
Definition dict_all {V} (f : V -> bool) (d : dict V) : bool :=
  forallb (fun k => match dict_get k d with Some v => f v | None => true end)
          (keys d).

Definition dumpable (d : document) : bool :=
  match d with
  | DocRecord r => dict_all val_dumpable r
  | DocMetrics m => dict_all (forallb val_dumpable) m
  | DocSummary _ => true
  | DocMetadata _ _ => true
  end.

Definition serializable (t : JsonText) : bool :=
  default_str t || dumpable (body t).

(** What a file holds: a complete text, or what is left of one when the
    dump stopped halfway (the file was truncated by [open(.., 'w')] and
    holds a prefix of the text, possibly nothing). *)
Inductive content : Type :=
| Text (t : JsonText)
| Partial.

(** ** The world of a run *)

(** A relative path, one component per element; [[]] is the working
    directory. *)
Definition path : Type := list string.

Inductive conn_state : Type := ConnOpen | ConnClosed.

Inductive query : Type := SelectAll | SelectLatest.

Inductive message : Type := MsgSuccess | MsgError (e : exn).

(** A reference to a table object. *)
Definition ref : Type := nat.

Record World : Type := mkWorld {
  clock : Z;                       (* the current instant, seconds, UTC *)
  db_env : bool;                   (* are DB_HOST, DB_USER, DB_PASSWORD and
                                      DB_NAME set *)
  db_reachable : bool;             (* does pymysql.connect succeed *)
  db_table : option DataFrame;     (* material_data by record_date DESC *)
  io_fault : path -> bool;         (* an I/O failure on this path *)
  fault_late : path -> bool;       (* it strikes while the text is written
                                      (disk space), not at open (permission) *)
  connection : option conn_state;  (* None: never acquired *)
  dirs : gset path;
  files : gmap path content;
  stdout : list message;
  heap : gmap ref DataFrame        (* the table objects of the process *)
}.

Definition set_connection (c : option conn_state) (w : World) : World :=
  mkWorld (clock w) (db_env w) (db_reachable w) (db_table w) (io_fault w) (fault_late w) c
          (dirs w) (files w) (stdout w) (heap w).

Definition set_dirs (d : gset path) (w : World) : World :=
  mkWorld (clock w) (db_env w) (db_reachable w) (db_table w) (io_fault w) (fault_late w)
          (connection w) d (files w) (stdout w) (heap w).

Definition set_files (f : gmap path content) (w : World) : World :=
  mkWorld (clock w) (db_env w) (db_reachable w) (db_table w) (io_fault w) (fault_late w)
          (connection w) (dirs w) f (stdout w) (heap w).

Definition set_stdout (o : list message) (w : World) : World :=
  mkWorld (clock w) (db_env w) (db_reachable w) (db_table w) (io_fault w) (fault_late w)
          (connection w) (dirs w) (files w) o (heap w).

Definition set_heap (h : gmap ref DataFrame) (w : World) : World :=
  mkWorld (clock w) (db_env w) (db_reachable w) (db_table w) (io_fault w) (fault_late w)
          (connection w) (dirs w) (files w) (stdout w) h.

(** State and exceptions: a computation maps a world to a result and the
    world it leaves behind, also when it raises. *)
Definition M (A : Type) : Type := World -> result A * World.

Definition ret {A} (a : A) : M A := fun w => (Ok a, w).

Definition raise {A} (e : exn) : M A := fun w => (Raise e, w).

Definition bind {A B} (m : M A) (k : A -> M B) : M B :=
  fun w =>
    match m w with
    | (Ok a, w') => k a w'
    | (Raise e, w') => (Raise e, w')
    end.

Notation "'let*' x := m 'in' k" := (bind m (fun x => k))
  (at level 10, x pattern, m at level 100, k at level 200).

Definition lift {A} (r : result A) : M A := fun w => (r, w).

(** [try: body finally: fin] *)
Definition try_finally {A} (body : M A) (fin : M unit) : M A :=
  fun w =>
    match body w with
    | (r, w1) =>
        match fin w1 with
        | (Ok _, w2) => (r, w2)
        | (Raise e, w2) => (Raise e, w2)
        end
    end.

(** [try: body except Exception as e: handler(e)] *)
Definition try_except {A} (body : M A) (handler : exn -> M A) : M A :=
  fun w =>
    match body w with
    | (Ok a, w1) => (Ok a, w1)
    | (Raise e, w1) => handler e w1
    end.

Definition print (m : message) : M unit :=
  fun w => (Ok tt, set_stdout (stdout w ++ [m]) w).

(** [pd.Timestamp.now(z)] *)
Definition Timestamp_now (z : tzinfo) : M Timestamp :=
  fun w => (Ok (mkTimestamp (clock w) (Some z)), w).

(** [pd.read_sql(query, connection)]: the table as the server orders it,
    cut to its first row under [LIMIT 1].  Both queries end in
    [ORDER BY record_date DESC]: the server refuses them when the table is
    missing or has no such column. *)
Definition limit1 (df : DataFrame) : DataFrame :=
  mkDataFrame (map (fun cs => (fst cs, series_select [true] (snd cs))) (cols df)).

Definition read_sql (q : query) : M DataFrame :=
  fun w =>
    match connection w, db_table w with
    | Some ConnOpen, Some df =>
        match dict_get "record_date" (cols df) with
        | Some _ =>
            (Ok (match q with SelectAll => df | SelectLatest => limit1 df end), w)
        | None => (Raise DatabaseError, w)
        end
    | _, _ => (Raise DatabaseError, w)
    end.

(** [connection.close()] *)
Definition connection_close : M unit :=
  fun w => (Ok tt, set_connection (Some ConnClosed) w).

Definition parent (p : path) : path := removelast p.

Definition dir_exists (w : World) (p : path) : bool :=
  bool_decide (p = [] \/ p ∈ dirs w).

(** [os.makedirs(p, exist_ok=True)]: [p] and every directory above it. *)
Fixpoint ancestors (p : path) (n : nat) : gset path :=
  match n with
  | O => ∅
  | S n' => {[ firstn (S n') p ]} ∪ ancestors p n'
  end.

Definition makedirs (p : path) : M unit :=
  fun w =>
    if io_fault w p then (Raise OSError, w)
    else (Ok tt, set_dirs (dirs w ∪ ancestors p (length p)) w).

(** [with open(p, 'w', encoding='utf-8') as f: json.dump(.., f, ..)].
    Opening fails, and leaves everything as it was, when the directory of
    [p] does not exist, when [p] is a directory, or on a fault that strikes
    at open.  Otherwise the file is created or truncated; it is left
    incomplete when [json.dump] raises TypeError on a value it cannot
    write (taken to come first) or when a fault strikes during the write,
    and holds the whole text in the end when neither happens. *)
Definition open_dump (p : path) (text : JsonText) : M unit :=
  fun w =>
    if negb (dir_exists w (parent p)) then (Raise FileNotFoundError, w)
    else if bool_decide (p ∈ dirs w) then (Raise OSError, w)
    else if io_fault w p && negb (fault_late w p) then (Raise OSError, w)
    else if negb (serializable text) then
      (Raise TypeError, set_files (<[p := Partial]> (files w)) w)
    else if io_fault w p then
      (Raise OSError, set_files (<[p := Partial]> (files w)) w)
    else (Ok tt, set_files (<[p := Text text]> (files w)) w).

(** Table objects.  A name bound to no object does not occur in Python;
    reading one raises here. *)
Definition frame_read (r : ref) : M DataFrame :=
  fun w =>
    match heap w !! r with
    | Some df => (Ok df, w)
    | None => (Raise NameError, w)
    end.

(** A new table object, as boolean indexing creates one. *)
Definition frame_new (df : DataFrame) : M ref :=
  fun w =>
    let r := fresh (dom (heap w)) in
    (Ok r, set_heap (<[r := df]> (heap w)) w).

(** [df[c]], [df.columns], [len(df)], [df.iloc[0].to_dict()] through a
    reference. *)
Definition frame_getitem (r : ref) (c : string) : M Series :=
  let* df := frame_read r in lift (getitem df c).

Definition frame_columns (r : ref) : M (list string) :=
  let* df := frame_read r in ret (columns df).

Definition frame_len (r : ref) : M nat :=
  let* df := frame_read r in ret (len df).

Definition frame_iloc0 (r : ref) : M (dict pyval) :=
  let* df := frame_read r in lift (iloc0 df).

(** [df[c] = s]: the object itself is changed. *)
Definition frame_setitem (r : ref) (c : string) (s : Series) : M unit :=
  fun w =>
    match heap w !! r with
    | Some df => (Ok tt, set_heap (<[r := setitem df c s]> (heap w)) w)
    | None => (Raise NameError, w)
    end.

(** [df[mask]]: a new object. *)
Definition frame_filter (r : ref) (mask : list bool) : M ref :=
  let* df := frame_read r in frame_new (df_select mask df).

(** ** update_data.py *)

Module UpdateData.

(** [connect_to_database]: any failure of [pymysql.connect] is caught and
    raised again as a plain [Exception]. *)
Definition connect_to_database : M unit :=
  fun w =>
    if db_reachable w then (Ok tt, set_connection (Some ConnOpen) w)
    else (Raise Exception, w).

(** [convert_to_china_timezone(df)]: the frame with its [record_date]
    column replaced. *)
Definition convert_to_china_timezone (df : DataFrame) : result DataFrame :=
  let china_tz := Asia_Shanghai in
  let? s := getitem df "record_date" in
  let? s := to_datetime s in
  let? s := tz_localize UTC s in
  let? s := tz_convert china_tz s in
  Ok (setitem df "record_date" s).

Definition fetch_data : M DataFrame :=
  let* _ := connect_to_database in
  try_finally
    (let* df := read_sql SelectAll in
     lift (convert_to_china_timezone df))
    connection_close.

Definition process_latest_data (df : DataFrame) : result (dict pyval) :=
  let? latest_data := iloc0 df in
  match dict_get "record_date" latest_data with
  | Some (PyTimestamp t) =>
      Ok (dict_set "record_date" (PyStr (strftime t)) latest_data)
  | Some _ => Raise AttributeError
  | None => Raise KeyError
  end.

(** [column not in ['ID', 'record_date']] *)
Definition is_metric (column : string) : bool :=
  negb (String.eqb column "ID" || String.eqb column "record_date").

Fixpoint metrics_loop (df : DataFrame) (cs : list string)
    (metrics : dict (list pyval)) : result (dict (list pyval)) :=
  match cs with
  | [] => Ok metrics
  | column :: cs' =>
      if is_metric column then
        let? s := getitem df column in
        metrics_loop df cs' (dict_set column (tolist s) metrics)
      else metrics_loop df cs' metrics
  end.

Definition process_historical_metrics (df : DataFrame)
    : result (dict (list pyval)) :=
  let? metrics := metrics_loop df (columns df) [] in
  let? d := getitem df "record_date" in
  let? ts := dt_strftime d in
  Ok (dict_set "timestamps" ts metrics).

(** The four floats of one column: [float] of the greatest cell, of the
    least cell, of the mean and of the cell in the first row.  [float] of a
    Timestamp raises TypeError.  On a column without cells the three
    aggregates are NaN and [df.iloc[0]] raises IndexError. *)
Definition column_stats (df : DataFrame) (column : string) : result ColumnStats :=
  let? s := getitem df column in
  match s with
  | Datetime _ _ => Raise TypeError
  | Numeric [] => Raise IndexError
  | Numeric (v :: vs) =>
      let? row := iloc0 df in
      match dict_get column row with
      | Some (PyNum current) =>
          Ok (mkColumnStats (fl (num_max v vs)) (fl (num_min v vs))
                            (num_mean v vs) (fl current))
      | Some _ => Raise TypeError
      | None => Raise KeyError
      end
  end.

Fixpoint summary_loop (df : DataFrame) (cs : list string)
    (acc : dict ColumnStats) : result (dict ColumnStats) :=
  match cs with
  | [] => Ok acc
  | column :: cs' =>
      if is_metric column then
        let? st := column_stats df column in
        summary_loop df cs' (dict_set column st acc)
      else summary_loop df cs' acc
  end.

(** [NaT.strftime] raises ValueError; a float has no [strftime]. *)
Definition process_summary (df : DataFrame) : result Summary :=
  let? d := getitem df "record_date" in
  let? last :=
    match d with
    | Datetime zone vals =>
        match dt_max zone vals with
        | Some t => Ok (strftime t)
        | None => Raise ValueError
        end
    | Numeric _ => Raise AttributeError
    end in
  let? ms := summary_loop df (columns df) [] in
  Ok (mkSummary last (len df) ms).

(** [process_historical_metrics(df[df['record_date'] >= now - delta])],
    the expression used for both windows. *)
Definition window (now : Timestamp) (delta : Z) (df : DataFrame)
    : result (dict (list pyval)) :=
  let? d := getitem df "record_date" in
  let? mask := series_ge d (sub_timedelta now delta) in
  process_historical_metrics (df_select mask df).

Definition process_cached_data (df : DataFrame)
    : M (dict (list pyval) * dict (list pyval)) :=
  let* now := Timestamp_now Asia_Shanghai in
  let* hour_24_data := lift (window now (hours 24) df) in
  let* day_30_data := lift (window now (days 30) df) in
  ret (hour_24_data, day_30_data).

Definition save_json (data : document) (filename : path) : M unit :=
  open_dump filename (mkJsonText false 2 false data).

Definition main : M unit :=
  try_except
    (let* df := fetch_data in
     let* _ := makedirs ["data"; "historical"; "archived"] in
     let* _ := makedirs ["data"; "cache"] in
     let* latest_data := lift (process_latest_data df) in
     let* _ := save_json (DocRecord latest_data) ["data"; "latest.json"] in
     let* metrics_data := lift (process_historical_metrics df) in
     let* _ := save_json (DocMetrics metrics_data) ["data"; "historical"; "metrics.json"] in
     let* summary_data := lift (process_summary df) in
     let* _ := save_json (DocSummary summary_data) ["data"; "historical"; "summary.json"] in
     let* (hour_24_data, day_30_data) := process_cached_data df in
     let* _ := save_json (DocMetrics hour_24_data) ["data"; "cache"; "hour-24.json"] in
     let* _ := save_json (DocMetrics day_30_data) ["data"; "cache"; "day-30.json"] in
     print MsgSuccess)
    (fun e => let* _ := print (MsgError e) in raise e).

End UpdateData.

(** ** update_data.py on table objects

    The normalizer and the four transformers again, on a reference to the
    table they are handed, statement by statement. *)

Module UpdateDataRef.

(** [df['record_date'] = ..; return df]: the argument itself is changed
    and handed back. *)
Definition convert_to_china_timezone (df : ref) : M ref :=
  let china_tz := Asia_Shanghai in
  let* s := frame_getitem df "record_date" in
  let* s := lift (to_datetime s) in
  let* s := lift (tz_localize UTC s) in
  let* s := lift (tz_convert china_tz s) in
  let* _ := frame_setitem df "record_date" s in
  ret df.

(** [latest_data] is the new dictionary of [to_dict()]; the assignment to
    its key changes no table. *)
Definition process_latest_data (df : ref) : M (dict pyval) :=
  let* latest_data := frame_iloc0 df in
  match dict_get "record_date" latest_data with
  | Some (PyTimestamp t) =>
      ret (dict_set "record_date" (PyStr (strftime t)) latest_data)
  | Some _ => raise AttributeError
  | None => raise KeyError
  end.

Fixpoint metrics_loop (df : ref) (cs : list string)
    (metrics : dict (list pyval)) : M (dict (list pyval)) :=
  match cs with
  | [] => ret metrics
  | column :: cs' =>
      if UpdateData.is_metric column then
        let* s := frame_getitem df column in
        metrics_loop df cs' (dict_set column (tolist s) metrics)
      else metrics_loop df cs' metrics
  end.

Definition process_historical_metrics (df : ref) : M (dict (list pyval)) :=
  let* cs := frame_columns df in
  let* metrics := metrics_loop df cs [] in
  let* d := frame_getitem df "record_date" in
  let* ts := lift (dt_strftime d) in
  ret (dict_set "timestamps" ts metrics).

Definition column_stats (df : ref) (column : string) : M ColumnStats :=
  let* s := frame_getitem df column in
  match s with
  | Datetime _ _ => raise TypeError
  | Numeric [] => raise IndexError
  | Numeric (v :: vs) =>
      let* row := frame_iloc0 df in
      match dict_get column row with
      | Some (PyNum current) =>
          ret (mkColumnStats (fl (num_max v vs)) (fl (num_min v vs))
                             (num_mean v vs) (fl current))
      | Some _ => raise TypeError
      | None => raise KeyError
      end
  end.

Fixpoint summary_loop (df : ref) (cs : list string)
    (acc : dict ColumnStats) : M (dict ColumnStats) :=
  match cs with
  | [] => ret acc
  | column :: cs' =>
      if UpdateData.is_metric column then
        let* st := column_stats df column in
        summary_loop df cs' (dict_set column st acc)
      else summary_loop df cs' acc
  end.

Definition process_summary (df : ref) : M Summary :=
  let* d := frame_getitem df "record_date" in
  let* last :=
    match d with
    | Datetime zone vals =>
        match dt_max zone vals with
        | Some t => ret (strftime t)
        | None => raise ValueError
        end
    | Numeric _ => raise AttributeError
    end in
  let* n := frame_len df in
  let* cs := frame_columns df in
  let* ms := summary_loop df cs [] in
  ret (mkSummary last n ms).

(** [process_historical_metrics(df[df['record_date'] >= now - delta])]:
    the filtered table is a new object. *)
Definition window (now : Timestamp) (delta : Z) (df : ref)
    : M (dict (list pyval)) :=
  let* d := frame_getitem df "record_date" in
  let* mask := lift (series_ge d (sub_timedelta now delta)) in
  let* part := frame_filter df mask in
  process_historical_metrics part.

Definition process_cached_data (df : ref)
    : M (dict (list pyval) * dict (list pyval)) :=
  let* now := Timestamp_now Asia_Shanghai in
  let* hour_24_data := window now (hours 24) df in
  let* day_30_data := window now (days 30) df in
  ret (hour_24_data, day_30_data).

End UpdateDataRef.

(** ** collect_data.py *)

Module CollectData.

(** [mysql.connector.connect(host=os.environ['DB_HOST'], ..,
    ssl_mode="REQUIRED")].  A variable that is not set raises KeyError.
    With the four of them set, the connector refuses the keyword
    [ssl_mode], which is not among its arguments, with AttributeError
    while it reads its configuration, before it opens a socket: no
    connection is acquired, whatever the server. *)
Definition get_database_connection : M unit :=
  fun w =>
    if db_env w then (Raise AttributeError, w) else (Raise KeyError, w).

(** [datetime.now()], kept as the clock reading that [isoformat] prints. *)
Definition datetime_now : M Z := fun w => (Ok (clock w), w).

(** No [try] and no [with] around the connection: [conn.close()] is the
    last statement.  The first dump has [default=str], the second has
    not. *)
Definition main : M unit :=
  let* _ := get_database_connection in
  let* df := read_sql SelectLatest in
  let* latest_data := lift (iloc0 df) in
  let* _ := open_dump ["data"; "latest.json"]
              (mkJsonText true 2 true (DocRecord latest_data)) in
  let* now := datetime_now in
  let* _ := open_dump ["data"; "metadata.json"]
              (mkJsonText true 2 false (DocMetadata now 1)) in
  connection_close.

End CollectData.

(** ** Vocabulary of the properties *)

(** The stored values of the [record_date] column. *)
Definition record_dates (df : DataFrame) : option (option tzinfo * list Z) :=
  match dict_get "record_date" (cols df) with
  | Some (Datetime zone vals) => Some (zone, vals)
  | _ => None
  end.

(** A normalized table: [record_date] carries a zone. *)
Definition normalized (df : DataFrame) : Prop :=
  exists z vals, record_dates df = Some (Some z, vals).

(** Rows in descending order of [record_date], as the query returns them. *)
Definition sorted_desc (df : DataFrame) : Prop :=
  forall zone vals, record_dates df = Some (zone, vals) -> Sorted Z.ge vals.

(** The cell of column [c] in row [i]. *)
Definition cell (df : DataFrame) (c : string) (i : nat) : option pyval :=
  match dict_get c (cols df) with
  | Some s => tolist s !! i
  | None => None
  end.










Definition padd (p p' : Z * Z) : Z * Z := (p.1 + p'.1, p.2 + p'.2).








(** The wall clocks shown by the [record_date] column. *)
Definition wall_clocks (df : DataFrame) : option (list Z) :=
  match record_dates df with
  | Some (zone, vals) => Some (map (fun v => wall_clock (mkTimestamp v zone)) vals)
  | None => None
  end.

(** The UTC instants of a table of naive UTC timestamps or of a normalized
    table. *)
Definition instants (df : DataFrame) : option (list Z) :=
  match record_dates df with
  | Some (_, vals) => Some vals
  | None => None
  end.

(** Every wall clock of [df'] is that of [df] plus [h] hours. *)
Definition shifted_by (h : Z) (df df' : DataFrame) : Prop :=
  exists ws, wall_clocks df = Some ws /\
             wall_clocks df' = Some (map (fun w => w + hours h) ws).

(** One application of the normalizer shifts by eight hours and keeps the
    instants and all other columns. *)
Definition normalizes_once (df : DataFrame) : Prop :=
  exists df1,
    UpdateData.convert_to_china_timezone df = Ok df1 /\
    shifted_by 8 df df1 /\ instants df1 = instants df /\ normalized df1 /\
    forall c, c <> "record_date" -> getitem df1 c = getitem df c.

(** Two applications in a row shift by sixteen hours. *)
Definition double_shifts (df : DataFrame) : Prop :=
  exists df1 df2,
    UpdateData.convert_to_china_timezone df = Ok df1 /\
    UpdateData.convert_to_china_timezone df1 = Ok df2 /\
    shifted_by 16 df df2.

(** Every sequence of a reshaped document is empty / has [n] elements. *)
Definition all_empty (out : dict (list pyval)) : Prop :=
  forall k seq, dict_get k out = Some seq -> seq = [].

(** The keys a reshaped document must have: 'timestamps' and every metric
    column. *)
Definition has_metric_keys (df : DataFrame) (out : dict (list pyval)) : Prop :=
  is_Some (dict_get "timestamps" out) /\
  forall c, c ∈ columns df -> UpdateData.is_metric c = true ->
    is_Some (dict_get c out).

(** [df.drop(columns=[c])] *)
Definition drop_column (c : string) (df : DataFrame) : DataFrame :=
  mkDataFrame (List.filter (fun cs => negb (String.eqb (fst cs) c)) (cols df)).

(** The strings the reshaper emits for the stored dates [vals]. *)
Definition formatted (zone : option tzinfo) (vals : list Z) : list pyval :=
  map (fun v => PyStr (strftime (mkTimestamp v zone))) vals.

(** The mask of the rows at or after [t]. *)
Definition since (t : Z) (vals : list Z) : list bool :=
  map (fun v => t <=? v) vals.

(** The four transformers as [main] runs them, with the documents each one
    produces. *)
Inductive transformer : Type :=
| LatestRecord | HistoricalMetrics | SummaryAggregator | WindowedCache.

Definition run_transformer (t : transformer) (df : ref) : M (list document) :=
  match t with
  | LatestRecord =>
      let* d := UpdateDataRef.process_latest_data df in ret [DocRecord d]
  | HistoricalMetrics =>
      let* d := UpdateDataRef.process_historical_metrics df in ret [DocMetrics d]
  | SummaryAggregator =>
      let* s := UpdateDataRef.process_summary df in ret [DocSummary s]
  | WindowedCache =>
      let* (h, d) := UpdateDataRef.process_cached_data df in
      ret [DocMetrics h; DocMetrics d]
  end.

(** The same transformer on a table value. *)
Definition run_on_value (t : transformer) (df : DataFrame) : M (list document) :=
  match t with
  | LatestRecord =>
      let* d := lift (UpdateData.process_latest_data df) in ret [DocRecord d]
  | HistoricalMetrics =>
      let* d := lift (UpdateData.process_historical_metrics df) in ret [DocMetrics d]
  | SummaryAggregator =>
      let* s := lift (UpdateData.process_summary df) in ret [DocSummary s]
  | WindowedCache =>
      let* (h, d) := UpdateData.process_cached_data df in
      ret [DocMetrics h; DocMetrics d]
  end.

(** Every table object of [w] is in [w'] as it was. *)
Definition tables_kept (w w' : World) : Prop :=
  forall r df, heap w !! r = Some df -> heap w' !! r = Some df.

(** [w'] differs from [w] in its table objects at most. *)
Definition same_but_heap (w w' : World) : Prop := w' = set_heap (heap w') w.

(** A computation that leaves the connection as it found it, whether it
    returns or raises. *)
Definition keeps_connection {A} (m : M A) : Prop :=
  forall w, connection (snd (m w)) = connection w.

(** The connection was acquired and is closed at the end of a run. *)
Definition closed_after (w' : World) : Prop := connection w' = Some ConnClosed.


(** The relation [R] holds between the world a computation starts in and
    the world it leaves, whether it returns or raises. *)
Definition respects (R : World -> World -> Prop) {A} (m : M A) : Prop :=
  forall w, R w (snd (m w)).

Definition same_stdout (w w' : World) : Prop := stdout w' = stdout w.

Definition same_fs (w w' : World) : Prop :=
  dirs w' = dirs w /\ files w' = files w.

(** Nothing is removed, and no file outside [targets] is touched. *)
Definition fs_frame (targets : list path) (w w' : World) : Prop :=
  dirs w ⊆ dirs w' /\
  (forall p, p ∉ targets -> files w' !! p = files w !! p) /\
  (forall p, is_Some (files w !! p) -> is_Some (files w' !! p)).

(** The destinations of the two jobs. *)
Definition update_targets : list path :=
  [ ["data"; "latest.json"];
    ["data"; "historical"; "metrics.json"];
    ["data"; "historical"; "summary.json"];
    ["data"; "cache"; "hour-24.json"];
    ["data"; "cache"; "day-30.json"] ].

Definition collect_targets : list path :=
  [ ["data"; "latest.json"]; ["data"; "metadata.json"] ].

(** The message a run leaves on standard output. *)
Definition verdict {A} (r : result A) : message :=
  match r with
  | Ok _ => MsgSuccess
  | Raise e => MsgError e
  end.

(** A table without rows, and a table with a metric column of dates. *)
Definition empty_table : DataFrame :=
  mkDataFrame
    [ ("ID", Numeric []); ("record_date", Datetime None []); ("value", Numeric []) ].

Definition dated_metric : DataFrame :=
  mkDataFrame
    [ ("ID", Numeric [2; 1]%Q);
      ("record_date",
       Datetime (Some Asia_Shanghai)
                [ datetime 2024 1 2 0 0 0; datetime 2024 1 1 0 0 0 ]);
      ("value", Numeric [30; 20]%Q);
      ("checked_at",
       Datetime None [ datetime 2024 1 2 1 0 0; datetime 2024 1 1 1 0 0 ]) ].

(** A table as the server returns it whose second metric column holds
    dates. *)
Definition dated_table : DataFrame :=
  mkDataFrame
    [ ("ID", Numeric [2; 1]%Q);
      ("record_date",
       Datetime None [ datetime 2024 1 2 0 0 0; datetime 2024 1 1 0 0 0 ]);
      ("value", Numeric [30; 20]%Q);
      ("checked_at",
       Datetime None [ datetime 2024 1 2 1 0 0; datetime 2024 1 1 1 0 0 ]) ].

(** A table without a [record_date] column. *)
Definition undated : DataFrame :=
  mkDataFrame [ ("ID", Numeric [2; 1]%Q); ("value", Numeric [30; 20]%Q) ].

(** A computation that prints nothing when it raises and exactly the
    success message when it returns. *)
Definition announces {A} (m : M A) : Prop :=
  forall w,
    match m w with
    | (Ok _, w') => stdout w' = (stdout w ++ [MsgSuccess])%list
    | (Raise _, w') => stdout w' = stdout w
    end.

(** The directories [main] of update_data.py asks for. *)
Definition update_dirs : list path :=
  [ ["data"]; ["data"; "historical"]; ["data"; "historical"; "archived"];
    ["data"; "cache"] ].

(** No directory is created and nothing is printed. *)
Definition quiet (w w' : World) : Prop :=
  dirs w' = dirs w /\ stdout w' = stdout w.

(** ** Concrete tables and worlds *)

(** Three rows in ascending order of time, one metric column. *)
Definition scenario : DataFrame :=
  mkDataFrame
    [ ("ID", Numeric [1; 2; 3]%Q);
      ("record_date",
       Datetime None [ datetime 2024 1 1 0 0 0;
                       datetime 2024 1 1 12 0 0;
                       datetime 2024 1 2 0 0 0 ]);
      ("value", Numeric [10; 20; 30]%Q) ].

(** Normalization, descending re-sort, latest-record extractor. *)
Definition scenario_latest : result (dict pyval) :=
  let? df := UpdateData.convert_to_china_timezone scenario in
  let? df := sort_values_desc df in
  UpdateData.process_latest_data df.

(** The scenario as the job sees it: in the order of the query, normalized. *)
Definition scenario_desc : DataFrame :=
  mkDataFrame
    [ ("ID", Numeric [3; 2; 1]%Q);
      ("record_date",
       Datetime (Some Asia_Shanghai)
                [ datetime 2024 1 2 0 0 0;
                  datetime 2024 1 1 12 0 0;
                  datetime 2024 1 1 0 0 0 ]);
      ("value", Numeric [30; 20; 10]%Q) ].

(** The same rows, normalized but left in ascending order. *)
Definition scenario_asc : DataFrame :=
  mkDataFrame
    [ ("ID", Numeric [1; 2; 3]%Q);
      ("record_date",
       Datetime (Some Asia_Shanghai)
                [ datetime 2024 1 1 0 0 0;
                  datetime 2024 1 1 12 0 0;
                  datetime 2024 1 2 0 0 0 ]);
      ("value", Numeric [10; 20; 30]%Q) ].

(** The binary64 number nearest to 0.1, and a normalized table in the order
    of the query whose metric column holds it three times. *)
Definition tenth : Q := 3602879701896397 # 36028797018963968.


(** A table with a metric column called 'timestamps'. *)
Definition clash : DataFrame :=
  mkDataFrame
    [ ("ID", Numeric [2; 1]%Q);
      ("record_date",
       Datetime (Some Asia_Shanghai)
                [ datetime 2024 1 2 0 0 0; datetime 2024 1 1 0 0 0 ]);
      ("timestamps", Numeric [7; 8]%Q);
      ("value", Numeric [30; 20]%Q) ].

(** The scenario as the server returns it: descending, timezone-naive. *)
Definition scenario_table : DataFrame :=
  mkDataFrame
    [ ("ID", Numeric [3; 2; 1]%Q);
      ("record_date",
       Datetime None [ datetime 2024 1 2 0 0 0;
                       datetime 2024 1 1 12 0 0;
                       datetime 2024 1 1 0 0 0 ]);
      ("value", Numeric [30; 20; 10]%Q) ].

(** The world [w] with the table [df] bound to the reference [r]. *)
Definition with_table (r : ref) (df : DataFrame) (w : World) : World :=
  set_heap (<[r := df]> (heap w)) w.

(** A world before a run: the variables set, nothing connected, an empty
    working directory, no table object yet. *)
Definition fresh_world (now : Z) (reachable : bool) (table : option DataFrame)
    : World :=
  mkWorld now true reachable table (fun _ => false) (fun _ => false) None
          ∅ ∅ [] ∅.

(** * Properties *)

(** ** Dictionaries and column lookup *)

Section DictLemmas.
Context {V : Type}.

Lemma dict_get_set (k k' : string) (v : V) (d : dict V) :
  dict_get k (dict_set k' v d) = if String.eqb k' k then Some v else dict_get k d.
Proof.
  induction d as [|[k0 v0] d IH]; simpl.
  - destruct (String.eqb_spec k' k); reflexivity.
  - destruct (String.eqb_spec k0 k') as [->|Hne]; simpl.
    + destruct (String.eqb_spec k' k); reflexivity.
    + rewrite IH.
      destruct (String.eqb_spec k0 k) as [->|]; [|reflexivity].
      destruct (String.eqb_spec k' k) as [->|]; [congruence|reflexivity].
Qed.

Lemma dict_get_set_eq (k : string) (v : V) (d : dict V) :
  dict_get k (dict_set k v d) = Some v.
Proof. rewrite dict_get_set, String.eqb_refl. reflexivity. Qed.

Lemma dict_get_set_ne (k k' : string) (v : V) (d : dict V) :
  k' <> k -> dict_get k (dict_set k' v d) = dict_get k d.
Proof.
  intros Hne. rewrite dict_get_set.
  destruct (String.eqb_spec k' k); [contradiction|reflexivity].
Qed.

Lemma dict_get_keys (k : string) (d : dict V) :
  k ∈ keys d <-> is_Some (dict_get k d).
Proof.
  induction d as [|[k0 v0] d IH]; simpl.
  - split; [intros H; inversion H|intros [? ?]; discriminate].
  - destruct (String.eqb_spec k0 k) as [->|Hne].
    + split; [eauto|intros _; left].
    + rewrite <- IH. split.
      * intros H. inversion H; subst; [contradiction|assumption].
      * intros H. right. exact H.
Qed.

End DictLemmas.

Lemma dict_get_map {V W} (f : V -> W) (k : string) (d : dict V) :
  dict_get k (map (fun cs => (fst cs, f (snd cs))) d) = f <$> dict_get k d.
Proof.
  induction d as [|[k0 v0] d IH]; simpl; [reflexivity|].
  destruct (String.eqb k0 k); [reflexivity|exact IH].
Qed.

Lemma getitem_columns (df : DataFrame) (c : string) :
  c ∈ columns df -> exists s, getitem df c = Ok s /\ dict_get c (cols df) = Some s.
Proof.
  intros Hc. apply dict_get_keys in Hc as [s Hs].
  exists s. unfold getitem. rewrite Hs. split; reflexivity.
Qed.

Lemma getitem_Ok (df : DataFrame) (c : string) (s : Series) :
  getitem df c = Ok s <-> dict_get c (cols df) = Some s.
Proof.
  unfold getitem. destruct (dict_get c (cols df)); split; intros H;
    try discriminate; congruence.
Qed.

Lemma aligned_lookup (n : nat) (df : DataFrame) (c : string) (s : Series) :
  aligned n df -> dict_get c (cols df) = Some s -> series_len s = n.
Proof.
  unfold aligned. induction (cols df) as [|[k0 s0] d IH]; simpl; [discriminate|].
  intros Hall Hget. inversion Hall as [|? ? Hhd Htl]. simpl in Hhd.
  destruct (String.eqb k0 c); [injection Hget as <-; assumption|auto].
Qed.

Lemma length_tolist (s : Series) : length (tolist s) = series_len s.
Proof. destruct s; simpl; apply length_map. Qed.

Lemma record_dates_lookup (df : DataFrame) (zone : option tzinfo) (vals : list Z) :
  record_dates df = Some (zone, vals) <->
  dict_get "record_date" (cols df) = Some (Datetime zone vals).
Proof.
  unfold record_dates.
  destruct (dict_get "record_date" (cols df)) as [[|z v]|]; split; intros H;
    try discriminate; congruence.
Qed.

Lemma record_dates_length (df : DataFrame) (n : nat)
    (zone : option tzinfo) (vals : list Z) :
  aligned n df -> record_dates df = Some (zone, vals) -> length vals = n.
Proof.
  intros Hal Hd. apply record_dates_lookup in Hd.
  exact (aligned_lookup n df _ _ Hal Hd).
Qed.

(** ** The historical-metrics reshaper *)

Lemma metrics_loop_spec (df : DataFrame) (cs : list string) :
  forall acc, (forall c, c ∈ cs -> c ∈ columns df) ->
  exists out, UpdateData.metrics_loop df cs acc = Ok out /\
    forall k, dict_get k out =
      if bool_decide (k ∈ cs) && UpdateData.is_metric k
      then tolist <$> dict_get k (cols df) else dict_get k acc.
Proof.
  induction cs as [|c cs IH]; intros acc Hsub; cbn [UpdateData.metrics_loop].
  - exists acc. split; [reflexivity|]. intros k.
    rewrite bool_decide_eq_false_2; [reflexivity|]. intros H; inversion H.
  - assert (Hsub' : forall c', c' ∈ cs -> c' ∈ columns df)
      by (intros c' Hc'; apply Hsub; right; exact Hc').
    destruct (UpdateData.is_metric c) eqn:Hm.
    + destruct (getitem_columns df c) as [s [Hg Hd]]; [apply Hsub; left|].
      rewrite Hg; cbn [rbind].
      destruct (IH (dict_set c (tolist s) acc) Hsub') as [out [Hout Hspec]].
      exists out. split; [exact Hout|]. intros k. rewrite Hspec.
      destruct (decide (k = c)) as [->|Hne].
      * rewrite Hm, (bool_decide_eq_true_2 (c ∈ c :: cs)) by left.
        rewrite dict_get_set_eq, Hd. simpl.
        destruct (bool_decide (c ∈ cs)); reflexivity.
      * rewrite dict_get_set_ne by congruence.
        replace (bool_decide (k ∈ c :: cs)) with (bool_decide (k ∈ cs));
          [reflexivity|].
        apply bool_decide_ext. rewrite elem_of_cons. tauto.
    + destruct (IH acc Hsub') as [out [Hout Hspec]].
      exists out. split; [exact Hout|]. intros k. rewrite Hspec.
      destruct (decide (k = c)) as [->|Hne].
      * rewrite Hm, !andb_false_r. reflexivity.
      * replace (bool_decide (k ∈ c :: cs)) with (bool_decide (k ∈ cs));
          [reflexivity|].
        apply bool_decide_ext. rewrite elem_of_cons. tauto.
Qed.

(** What the reshaper returns, key by key. *)
Lemma historical_metrics_spec (df : DataFrame) (zone : option tzinfo) (vals : list Z) :
  record_dates df = Some (zone, vals) ->
  exists out, UpdateData.process_historical_metrics df = Ok out /\
    forall k, dict_get k out =
      if String.eqb "timestamps" k
      then Some (formatted zone vals)
      else if UpdateData.is_metric k then tolist <$> dict_get k (cols df)
      else None.
Proof.
  intros Hd. unfold UpdateData.process_historical_metrics.
  destruct (metrics_loop_spec df (columns df) []) as [m [Hm Hspec]]; [auto|].
  rewrite Hm; cbn [rbind].
  apply record_dates_lookup in Hd. unfold getitem. rewrite Hd.
  cbn [rbind dt_strftime].
  eexists. split; [reflexivity|]. intros k.
  rewrite dict_get_set. destruct (String.eqb "timestamps" k); [reflexivity|].
  rewrite Hspec. destruct (UpdateData.is_metric k);
    [rewrite andb_true_r|rewrite andb_false_r; reflexivity].
  case_bool_decide as Hin; [reflexivity|]. cbn [dict_get].
  destruct (dict_get k (cols df)) eqn:Hk; [|reflexivity].
  exfalso. apply Hin. apply dict_get_keys. eauto.
Qed.

Lemma dict_get_drop (c k : string) (df : DataFrame) :
  dict_get k (cols (drop_column c df)) =
  if String.eqb c k then None else dict_get k (cols df).
Proof.
  unfold drop_column; cbn [cols].
  induction (cols df) as [|[k0 s0] d IH]; cbn [List.filter dict_get fst].
  - destruct (String.eqb c k); reflexivity.
  - destruct (String.eqb_spec k0 c) as [->|Hne]; cbn [negb dict_get].
    + rewrite IH. destruct (String.eqb c k); reflexivity.
    + rewrite IH. destruct (String.eqb_spec k0 k) as [->|]; [|reflexivity].
      destruct (String.eqb_spec c k); [congruence|reflexivity].
Qed.

(** C2: for every table (in particular every non-empty one) the reshaper
    returns a document in which the 'timestamps' sequence and the sequence
    of every metric column have as many elements as the table has rows;
    the timestamps are the formatted dates of the rows in row order, and the
    values of a metric column are its cells in row order. *)
Theorem C2_sequences_parallel (df : DataFrame) (n : nat)
    (zone : option tzinfo) (vals : list Z) :
  aligned n df ->
  record_dates df = Some (zone, vals) ->
  exists out ts,
    UpdateData.process_historical_metrics df = Ok out /\
    dict_get "timestamps" out = Some ts /\
    length ts = n /\
    ts = formatted zone vals /\
    forall c, c ∈ columns df -> UpdateData.is_metric c = true ->
      exists seq, dict_get c out = Some seq /\
        length seq = length ts /\ length seq = n /\
        (c <> "timestamps" -> forall i, seq !! i = cell df c i).
Proof.
  intros Hal Hd.
  destruct (historical_metrics_spec df zone vals Hd) as [out [Hout Hspec]].
  assert (Hlen : length (formatted zone vals) = n).
  { unfold formatted. rewrite length_map.
    exact (record_dates_length df n zone vals Hal Hd). }
  exists out, (formatted zone vals).
  split; [exact Hout|]. split; [rewrite Hspec; reflexivity|].
  split; [exact Hlen|]. split; [reflexivity|].
  intros c Hc Hm. rewrite Hspec, Hm.
  destruct (getitem_columns df c Hc) as [s [_ Hs]].
  destruct (String.eqb_spec "timestamps" c) as [<-|Hne].
  - exists (formatted zone vals). repeat split; try assumption. congruence.
  - exists (tolist s). rewrite Hs. split; [reflexivity|].
    rewrite Hlen, length_tolist, (aligned_lookup n df c s Hal Hs).
    repeat split. intros _ i. unfold cell. rewrite Hs. reflexivity.
Qed.

Lemma C2_sequences_parallel_witness :
  exists out ts,
    UpdateData.process_historical_metrics scenario_desc = Ok out /\
    dict_get "timestamps" out = Some ts /\
    length ts = 3%nat /\
    ts = formatted (Some Asia_Shanghai)
           [datetime 2024 1 2 0 0 0; datetime 2024 1 1 12 0 0;
            datetime 2024 1 1 0 0 0] /\
    forall c, c ∈ columns scenario_desc -> UpdateData.is_metric c = true ->
      exists seq, dict_get c out = Some seq /\
        length seq = length ts /\ length seq = 3%nat /\
        (c <> "timestamps" -> forall i, seq !! i = cell scenario_desc c i).
Proof.
  apply (C2_sequences_parallel scenario_desc 3).
  - repeat constructor.
  - reflexivity.
Defined.

(** C10: when the table has a metric column named 'timestamps', the
    reshaper returns normally and the key 'timestamps' holds the formatted
    record dates; the document is, key by key, the one obtained from the
    table without that column, and on a table with rows the value under
    'timestamps' is not the list of the column's cells. *)
Theorem C10_timestamps_column_lost (df : DataFrame) (n : nat)
    (zone : option tzinfo) (vals : list Z) (s : Series) :
  aligned n df ->
  record_dates df = Some (zone, vals) ->
  dict_get "timestamps" (cols df) = Some s ->
  exists out out',
    UpdateData.process_historical_metrics df = Ok out /\
    dict_get "timestamps" out = Some (formatted zone vals) /\
    (n <> 0%nat -> dict_get "timestamps" out <> Some (tolist s)) /\
    UpdateData.process_historical_metrics (drop_column "timestamps" df) = Ok out' /\
    forall k, dict_get k out = dict_get k out'.
Proof.
  intros Hal Hd Hs.
  destruct (historical_metrics_spec df zone vals Hd) as [out [Hout Hspec]].
  assert (Hd' : record_dates (drop_column "timestamps" df) = Some (zone, vals)).
  { unfold record_dates in *. rewrite dict_get_drop. exact Hd. }
  destruct (historical_metrics_spec _ zone vals Hd') as [out' [Hout' Hspec']].
  exists out, out'. split; [exact Hout|].
  split; [rewrite Hspec; reflexivity|].
  split; [|split; [exact Hout'|]].
  - intros Hn. rewrite Hspec. cbn [String.eqb Ascii.eqb Bool.eqb].
    intros Heq. injection Heq as Heq.
    pose proof (record_dates_length df n zone vals Hal Hd) as Hlv.
    destruct vals as [|v vals]; [simpl in Hlv; congruence|].
    destruct s as [[|q qs]|z [|u us]]; discriminate.
  - intros k. rewrite Hspec, Hspec', dict_get_drop.
    destruct (String.eqb "timestamps" k); reflexivity.
Qed.

Lemma C10_timestamps_column_lost_witness :
  exists out out',
    UpdateData.process_historical_metrics clash = Ok out /\
    dict_get "timestamps" out =
      Some (formatted (Some Asia_Shanghai)
              [datetime 2024 1 2 0 0 0; datetime 2024 1 1 0 0 0]) /\
    (2%nat <> 0%nat -> dict_get "timestamps" out <> Some (tolist (Numeric [7; 8]%Q))) /\
    UpdateData.process_historical_metrics (drop_column "timestamps" clash) = Ok out' /\
    forall k, dict_get k out = dict_get k out'.
Proof.
  apply (C10_timestamps_column_lost clash 2).
  - repeat constructor.
  - reflexivity.
  - reflexivity.
Defined.

(** ** The calendar *)

(** The two calendar conversions agree on the dates used below, a leap day
    and a day before the epoch. *)
Lemma calendar_examples :
  Forall (fun '(y, m, d) => civil_from_days (days_from_civil y m d) = (y, m, d))
    [ (2024, 1, 1); (2024, 1, 2); (2024, 2, 29); (2024, 3, 1);
      (2000, 2, 29); (1970, 1, 1); (1969, 12, 31); (1900, 3, 1) ] /\
  datetime 1970 1 1 0 0 0 = 0 /\
  datetime 2024 1 1 0 0 0 = 1704067200 /\
  strftime (mkTimestamp (datetime 2000 2 29 13 5 9) None) = "2000-02-29 13:05:09" /\
  strftime (mkTimestamp (-1) (Some UTC)) = "1969-12-31 23:59:59".
Proof. repeat split; repeat constructor. Qed.

(** ** The end-to-end scenario *)

(** C5: on the three-row table (2024-01-01 00:00:00, 2024-01-01 12:00:00,
    2024-01-02 00:00:00 UTC; value 10, 20, 30), normalization followed by a
    descending sort and the latest-record extractor gives a record with
    value 30 and record_date "2024-01-02 08:00:00". *)
Theorem C5_scenario_latest :
  exists out,
    scenario_latest = Ok out /\
    dict_get "value" out = Some (PyNum 30) /\
    dict_get "record_date" out = Some (PyStr "2024-01-02 08:00:00").
Proof.
  eexists. split; [vm_compute; reflexivity|]. split; reflexivity.
Qed.

(** The job orders the rows in the query and normalizes afterwards; the
    table it works on is the same. *)
Lemma scenario_orders_agree :
  (let? df := UpdateData.convert_to_china_timezone scenario in sort_values_desc df)
  = Ok scenario_desc /\
  (let? df := sort_values_desc scenario in UpdateData.convert_to_china_timezone df)
  = Ok scenario_desc.
Proof. split; vm_compute; reflexivity. Qed.

(** ** The normalizer *)

Lemma map_fixed {A} (f : A -> A) (l : list A) :
  (forall x, f x = x) -> map f l = l.
Proof.
  intros Hf. induction l as [|x l IH]; simpl; [reflexivity|].
  rewrite Hf, IH. reflexivity.
Qed.

Lemma record_dates_getitem (df : DataFrame) (zone : option tzinfo) (vals : list Z) :
  record_dates df = Some (zone, vals) <->
  getitem df "record_date" = Ok (Datetime zone vals).
Proof.
  unfold record_dates, getitem.
  destruct (dict_get "record_date" (cols df)) as [[|z v]|]; split; intros H;
    try discriminate; congruence.
Qed.

Lemma record_dates_setitem (df : DataFrame) (s : Series) :
  dict_get "record_date" (cols (setitem df "record_date" s)) = Some s.
Proof. unfold setitem; cbn [cols]. apply dict_get_set_eq. Qed.

(** On naive dates the normalizer succeeds and only attaches the zone. *)
Lemma convert_naive (df : DataFrame) (vals : list Z) :
  record_dates df = Some (None, vals) ->
  UpdateData.convert_to_china_timezone df =
    Ok (setitem df "record_date" (Datetime (Some Asia_Shanghai) vals)).
Proof.
  intros Hd. apply record_dates_getitem in Hd.
  unfold UpdateData.convert_to_china_timezone. rewrite Hd.
  cbn [rbind to_datetime tz_localize tz_convert].
  do 3 f_equal. cbn [utcoffset].
  apply map_fixed. intros w. lia.
Qed.

(** On dates that carry a zone the normalizer raises. *)
Lemma convert_aware (df : DataFrame) (z : tzinfo) (vals : list Z) :
  record_dates df = Some (Some z, vals) ->
  UpdateData.convert_to_china_timezone df = Raise TypeError.
Proof.
  intros Hd. apply record_dates_getitem in Hd.
  unfold UpdateData.convert_to_china_timezone. rewrite Hd. reflexivity.
Qed.

(** C3, as the code has it: on a table of timezone-naive UTC timestamps one
    application of the normalizer shifts every wall clock by exactly eight
    hours and keeps the instants and the other columns; a second
    application to the converted table raises TypeError, so no table
    shifted by sixteen hours is produced. *)
Theorem C3_normalizer_once (df : DataFrame) (vals : list Z) :
  record_dates df = Some (None, vals) ->
  normalizes_once df /\
  (forall df1, UpdateData.convert_to_china_timezone df = Ok df1 ->
     UpdateData.convert_to_china_timezone df1 = Raise TypeError) /\
  ~ double_shifts df.
Proof.
  intros Hd. pose proof (convert_naive df vals Hd) as Hc.
  set (df1 := setitem df "record_date" (Datetime (Some Asia_Shanghai) vals)) in *.
  assert (Hd1 : record_dates df1 = Some (Some Asia_Shanghai, vals)).
  { unfold record_dates, df1. rewrite record_dates_setitem. reflexivity. }
  assert (Hsecond : forall d, UpdateData.convert_to_china_timezone df = Ok d ->
            UpdateData.convert_to_china_timezone d = Raise TypeError).
  { intros d Hdd. rewrite Hc in Hdd. injection Hdd as <-.
    exact (convert_aware df1 _ _ Hd1). }
  split; [|split; [exact Hsecond|]].
  - exists df1. split; [exact Hc|]. split; [|split; [|split]].
    + exists vals. unfold wall_clocks. rewrite Hd, Hd1. split.
      * f_equal. apply map_fixed. reflexivity.
      * reflexivity.
    + unfold instants. rewrite Hd, Hd1. reflexivity.
    + exists Asia_Shanghai, vals. exact Hd1.
    + intros c Hne. unfold getitem, df1, setitem; cbn [cols].
      rewrite dict_get_set_ne by congruence. reflexivity.
  - intros [d1 [d2 [H1 [H2 _]]]]. rewrite (Hsecond d1 H1) in H2. discriminate.
Qed.

Lemma C3_normalizer_once_witness :
  normalizes_once scenario /\
  (forall df1, UpdateData.convert_to_china_timezone scenario = Ok df1 ->
     UpdateData.convert_to_china_timezone df1 = Raise TypeError) /\
  ~ double_shifts scenario.
Proof.
  apply (C3_normalizer_once scenario
           [datetime 2024 1 1 0 0 0; datetime 2024 1 1 12 0 0;
            datetime 2024 1 2 0 0 0]).
  reflexivity.
Defined.

(** C3 as stated fails: the scenario table is timezone-naive, and applying
    the normalizer twice does not give a table shifted by sixteen hours; the
    second application raises. *)
Lemma C3_double_shift_counterexample :
  record_dates scenario =
    Some (None, [datetime 2024 1 1 0 0 0; datetime 2024 1 1 12 0 0;
                 datetime 2024 1 2 0 0 0]) /\
  (exists df1, UpdateData.convert_to_china_timezone scenario = Ok df1 /\
     UpdateData.convert_to_china_timezone df1 = Raise TypeError) /\
  ~ (normalizes_once scenario /\ double_shifts scenario).
Proof.
  split; [reflexivity|]. split.
  - eexists. split; [vm_compute; reflexivity|]. vm_compute. reflexivity.
  - intros [_ [d1 [d2 [H1 [H2 _]]]]].
    vm_compute in H1. injection H1 as <-.
    vm_compute in H2. discriminate.
Qed.

(** ** Rounding to binary64 *)





































(** ** The summary aggregator *)









Lemma padd_comm (p q : Z * Z) : padd p q = padd q p.
Proof. unfold padd. f_equal; lia. Qed.









Lemma half_lengths (n : nat) :
  (128 < n)%nat ->
  (0 < n / 2 - (n / 2) mod 8 < n)%nat.
Proof.
  intros Hn.
  pose proof (Nat.div_mod_eq n 2). pose proof (Nat.mod_upper_bound n 2).
  pose proof (Nat.mod_upper_bound (n / 2) 8). lia.
Qed.

(** Enough fuel: any amount from the length of the array on gives the
    same sum. *)
Lemma pairwise_sum_fuel (fuel : nat) :
  forall fuel' xs,
    (length xs <= fuel)%nat -> (length xs <= fuel')%nat ->
    pairwise_sum fuel xs = pairwise_sum fuel' xs.
Proof.
  induction fuel as [|fuel IH]; intros fuel' xs H1 H2.
  - destruct xs; [|cbn in H1; lia]. destruct fuel'; reflexivity.
  - destruct fuel' as [|fuel']; cbn [pairwise_sum].
    + destruct xs; [reflexivity | cbn in H2; lia].
    + destruct (length xs <? 8)%nat eqn:H8; [reflexivity|].
      destruct (length xs <=? 128)%nat eqn:H128; [reflexivity|].
      apply Nat.leb_gt in H128. pose proof (half_lengths _ H128) as Hh.
      rewrite (IH fuel' (take _ xs)), (IH fuel' (drop _ xs));
        rewrite ?length_take, ?length_drop; try lia.
      reflexivity.
Qed.








Lemma first_row_get (cs : list (string * Series)) :
  forall row, first_row cs = Ok row ->
  forall k, dict_get k row = dict_get k cs ≫= first_cell.
Proof.
  induction cs as [|[c s] cs IH]; intros row Hrow k; cbn [first_row] in Hrow.
  - injection Hrow as <-. reflexivity.
  - destruct (first_cell s) as [v|] eqn:Hv; [|discriminate].
    destruct (first_row cs) as [d|e]; [|discriminate].
    injection Hrow as <-. cbn [dict_get].
    destruct (String.eqb c k); [symmetry; exact Hv|]. apply IH. reflexivity.
Qed.

Lemma first_row_total (cs : list (string * Series)) (n : nat) :
  Forall (fun c => series_len (snd c) = S n) cs ->
  exists row, first_row cs = Ok row.
Proof.
  induction 1 as [|[c s] cs Hs _ [row IH]]; cbn [first_row]; [eauto|].
  cbn [snd] in Hs. rewrite IH.
  destruct s as [[|q qs]|z [|v vs]]; try discriminate; cbn; eauto.
Qed.

Lemma iloc0_total (df : DataFrame) (n : nat) (c : string) (s : Series) :
  aligned (S n) df -> dict_get c (cols df) = Some s ->
  exists row, iloc0 df = Ok row.
Proof.
  intros Hal Hs. unfold iloc0, len. unfold aligned in Hal.
  destruct (cols df) as [|[c0 s0] cs] eqn:Hcols; [discriminate|].
  inversion Hal as [|? ? H0 _]. cbn [snd] in H0. rewrite H0.
  exact (first_row_total _ n Hal).
Qed.

Lemma iloc0_get (df : DataFrame) (row : dict pyval) (k : string) :
  iloc0 df = Ok row -> dict_get k row = dict_get k (cols df) ≫= first_cell.
Proof.
  unfold iloc0. destruct (len df); [discriminate|]. intros H.
  exact (first_row_get _ row H k).
Qed.



Lemma summary_loop_total (df : DataFrame) (cs : list string) :
  (forall c, c ∈ cs -> UpdateData.is_metric c = true ->
     exists st, UpdateData.column_stats df c = Ok st) ->
  forall acc, exists out,
    UpdateData.summary_loop df cs acc = Ok out /\
    forall k, (k ∈ cs /\ UpdateData.is_metric k = true) \/ is_Some (dict_get k acc) ->
      is_Some (dict_get k out).
Proof.
  induction cs as [|c cs IH]; intros Hcs acc; cbn [UpdateData.summary_loop].
  - exists acc. split; [reflexivity|]. intros k [[Hin _]|H]; [inversion Hin|exact H].
  - assert (Hcs' : forall c', c' ∈ cs -> UpdateData.is_metric c' = true ->
              exists st, UpdateData.column_stats df c' = Ok st)
      by (intros c' Hc'; apply Hcs; right; exact Hc').
    destruct (UpdateData.is_metric c) eqn:Hm.
    + destruct (Hcs c) as [st Hst]; [left|exact Hm|]. rewrite Hst. cbn [rbind].
      destruct (IH Hcs' (dict_set c st acc)) as [out [Hout Hk]].
      exists out. split; [exact Hout|]. intros k Hor. apply Hk.
      destruct (decide (k = c)) as [->|Hne].
      * right. rewrite dict_get_set_eq. eauto.
      * rewrite dict_get_set_ne by congruence.
        destruct Hor as [[Hin Hmk]|H]; [left|right; exact H].
        split; [|exact Hmk]. apply elem_of_cons in Hin as [?|?]; [contradiction|assumption].
    + destruct (IH Hcs' acc) as [out [Hout Hk]].
      exists out. split; [exact Hout|]. intros k Hor. apply Hk.
      destruct Hor as [[Hin Hmk]|H]; [left|right; exact H].
      split; [|exact Hmk]. apply elem_of_cons in Hin as [->|?]; [congruence|assumption].
Qed.

(** The aggregator returns on every table with rows whose metric columns
    are numeric. *)
Lemma process_summary_total (df : DataFrame) (n : nat)
    (zone : option tzinfo) (vals : list Z) :
  aligned (S n) df ->
  record_dates df = Some (zone, vals) ->
  (forall c s, dict_get c (cols df) = Some s -> UpdateData.is_metric c = true ->
     exists qs, s = Numeric qs) ->
  exists out,
    UpdateData.process_summary df = Ok out /\
    total_records out = S n /\
    forall c, c ∈ columns df -> UpdateData.is_metric c = true ->
      is_Some (dict_get c (metrics_summary out)).
Proof.
  intros Hal Hd Hnum. unfold UpdateData.process_summary.
  pose proof Hd as Hg. apply record_dates_getitem in Hg. rewrite Hg. cbn [rbind].
  apply getitem_Ok in Hg.
  pose proof (aligned_lookup _ _ _ _ Hal Hg) as Hlen. cbn [series_len] in Hlen.
  destruct vals as [|d ds]; [discriminate|]. cbn [dt_max rbind].
  destruct (summary_loop_total df (columns df)) with (acc := @nil (string * ColumnStats))
    as [ms [Hms Hkeys]].
  { intros c Hc Hm. destruct (getitem_columns df c Hc) as [s [Hgs Hs]].
    destruct (Hnum c s Hs Hm) as [qs ->].
    pose proof (aligned_lookup _ _ _ _ Hal Hs) as Hl. cbn [series_len] in Hl.
    destruct qs as [|q qs]; [discriminate|].
    destruct (iloc0_total df n c _ Hal Hs) as [row Hrow].
    unfold UpdateData.column_stats. rewrite Hgs. cbn [rbind]. rewrite Hrow. cbn [rbind].
    rewrite (iloc0_get df row c Hrow), Hs. cbn. eauto. }
  rewrite Hms. cbn [rbind]. eexists. split; [reflexivity|]. cbn [total_records metrics_summary].
  split.
  - unfold len. unfold aligned in Hal.
    destruct (cols df) as [|[c0 s0] cs]; [discriminate|].
    inversion Hal as [|? ? H0 _]. exact H0.
  - intros c Hc Hm. apply Hkeys. left. split; assumption.
Qed.

Lemma sorted_desc_head (d : Z) (ds : list Z) :
  Sorted Z.ge (d :: ds) -> Forall (fun u => u <= d) (d :: ds).
Proof.
  intros Hs. apply Sorted_StronglySorted in Hs.
  - apply StronglySorted_inv in Hs as [_ Hall].
    constructor; [lia|]. eapply Forall_impl; [exact Hall|]. simpl; intros; lia.
  - intros x y z; lia.
Qed.





(** The scenario of the specification: max 30, min 10, avg 20, current 30
    on the descending table. *)
Lemma scenario_summary :
  exists out st,
    UpdateData.process_summary scenario_desc = Ok out /\
    last_update out = "2024-01-02 08:00:00" /\
    total_records out = 3%nat /\
    dict_get "value" (metrics_summary out) = Some st /\
    stat_max st = Finite 30 /\ stat_min st = Finite 10 /\
    stat_avg st = Finite 20 /\ stat_current st = Finite 30.
Proof.
  do 2 eexists. split; [vm_compute; reflexivity|].
  repeat split; reflexivity.
Qed.

(** [fl] and the mean against the binary64 arithmetic of the kernel: the
    number nearest to 0.1, a tie, and the mean of three cells of 0.1,
    which is 0.10000000000000002.  Ten cells of 0.1 add up to 1.0 in
    blocks, and to 0.9999999999999999 one after the other. *)
Lemma float_examples :
  fl (1 # 10) = Finite tenth /\
  num_sum (replicate 10 tenth) = Finite 1 /\
  fsum_from (Finite 0) (replicate 10 (Finite tenth))
  = Finite (9007199254740991 # 9007199254740992) /\
  fl 9007199254740993 = Finite 9007199254740992 /\
  fl 9007199254740995 = Finite 9007199254740996 /\
  (let two := PrimFloat.two in
   let three := PrimFloat.add two PrimFloat.one in
   let ten := PrimFloat.add (PrimFloat.mul (PrimFloat.mul two two) two) two in
   let t := PrimFloat.div PrimFloat.one ten in
   of_prim_float t = Finite tenth /\
   of_prim_float
     (PrimFloat.div
        (PrimFloat.add (PrimFloat.add (PrimFloat.add PrimFloat.zero t) t) t)
        three)
   = num_mean tenth [tenth; tenth]) /\
  num_mean tenth [tenth; tenth] = Finite (7205759403792795 # 72057594037927936).
Proof. repeat split; vm_compute; reflexivity. Qed.


(** ** The windowed-cache builder *)

Lemma select_map {A B} (f : A -> B) (mask : list bool) :
  forall xs, select mask (map f xs) = map f (select mask xs).
Proof.
  induction mask as [|b mask IH]; intros [|x xs]; cbn [select map]; try reflexivity.
  destruct b; cbn [map]; rewrite IH; reflexivity.
Qed.

Lemma select_none {A} (mask : list bool) :
  Forall (fun b => b = false) mask -> forall xs : list A, select mask xs = [].
Proof.
  induction 1 as [|b mask -> _ IH]; intros [|x xs]; cbn [select]; auto.
Qed.

Lemma select_all {A} (mask : list bool) :
  Forall (fun b => b = true) mask ->
  forall xs : list A, (length xs <= length mask)%nat -> select mask xs = xs.
Proof.
  induction 1 as [|b mask -> _ IH]; intros [|x xs] Hlen; cbn [select]; auto.
  - cbn [length] in Hlen. lia.
  - f_equal. apply IH. cbn [length] in Hlen. lia.
Qed.

Lemma tolist_select (mask : list bool) (s : Series) :
  tolist (series_select mask s) = select mask (tolist s).
Proof. destruct s; cbn [series_select tolist]; rewrite select_map; reflexivity. Qed.

Lemma df_select_get (mask : list bool) (df : DataFrame) (k : string) :
  dict_get k (cols (df_select mask df)) = series_select mask <$> dict_get k (cols df).
Proof. unfold df_select; cbn [cols]. apply dict_get_map. Qed.

Lemma df_select_columns (mask : list bool) (df : DataFrame) :
  columns (df_select mask df) = columns df.
Proof.
  unfold columns, df_select; cbn [cols].
  induction (cols df) as [|[c s] cs IH]; cbn [map fst]; [reflexivity|].
  f_equal. exact IH.
Qed.

Lemma df_select_dates (mask : list bool) (df : DataFrame)
    (zone : option tzinfo) (vals : list Z) :
  record_dates df = Some (zone, vals) ->
  record_dates (df_select mask df) = Some (zone, select mask vals).
Proof.
  unfold record_dates. rewrite df_select_get.
  destruct (dict_get "record_date" (cols df)) as [[|z v]|]; try discriminate.
  intros H. injection H as -> ->. reflexivity.
Qed.

Lemma df_select_all (mask : list bool) (df : DataFrame) (n : nat) :
  aligned n df -> length mask = n -> Forall (fun b => b = true) mask ->
  df_select mask df = df.
Proof.
  intros Hal Hlen Hall. destruct df as [cs]. unfold df_select, aligned in *.
  cbn [cols] in *. f_equal.
  induction Hal as [|[c s] cs Hs _ IH]; cbn [map]; [reflexivity|].
  rewrite IH. f_equal. f_equal. cbn [snd fst] in *.
  destruct s as [qs|z ds]; cbn [series_select series_len] in *;
    f_equal; apply select_all; auto; lia.
Qed.

(** On a normalized table the window is the reshaper on the selected
    rows. *)
Lemma window_normalized (df : DataFrame) (now : Timestamp) (delta : Z)
    (z z' : tzinfo) (vals : list Z) :
  record_dates df = Some (Some z, vals) -> tz now = Some z' ->
  UpdateData.window now delta df =
  UpdateData.process_historical_metrics (df_select (since (value now - delta) vals) df).
Proof.
  intros Hd Hz. apply record_dates_getitem in Hd.
  unfold UpdateData.window. rewrite Hd. cbn [rbind].
  unfold series_ge, sub_timedelta. cbn [tz value]. rewrite Hz. reflexivity.
Qed.

Lemma process_cached_data_run (df : DataFrame) (w : World) :
  UpdateData.process_cached_data df w =
  (let now := mkTimestamp (clock w) (Some Asia_Shanghai) in
   let? hour_24_data := UpdateData.window now (hours 24) df in
   let? day_30_data := UpdateData.window now (days 30) df in
   Ok (hour_24_data, day_30_data), w).
Proof.
  unfold UpdateData.process_cached_data, bind, Timestamp_now, lift, ret.
  cbv zeta.
  destruct (UpdateData.window _ (hours 24) df); cbn [rbind]; [|reflexivity].
  destruct (UpdateData.window _ (days 30) df); reflexivity.
Qed.

(** C4, as the code has it: on a normalized table whose rows all lie
    strictly before "now", a window of duration 0 gives a document with the
    key 'timestamps' and a key for every metric column, all of them empty;
    and when every row lies at or after now - duration the window gives
    exactly what the reshaper gives on the whole table. *)
Theorem C4_window_extremes (df : DataFrame) (n : nat) (now : Timestamp)
    (z z' : tzinfo) (vals : list Z) :
  aligned n df ->
  record_dates df = Some (Some z, vals) ->
  tz now = Some z' ->
  (Forall (fun v => v < value now) vals ->
     exists out, UpdateData.window now 0 df = Ok out /\
       has_metric_keys df out /\ all_empty out) /\
  (forall delta, Forall (fun v => value now - delta <= v) vals ->
     UpdateData.window now delta df = UpdateData.process_historical_metrics df /\
     exists out, UpdateData.window now delta df = Ok out).
Proof.
  intros Hal Hd Hz. split.
  - intros Hbefore. rewrite (window_normalized df now 0 z z' vals Hd Hz).
    set (mask := since (value now - 0) vals).
    assert (Hmask : Forall (fun b => b = false) mask).
    { unfold mask, since. apply Forall_map.
      eapply Forall_impl; [exact Hbefore|]. cbn beta. intros v Hv.
      apply Z.leb_gt. lia. }
    pose proof (df_select_dates mask df _ _ Hd) as Hd'.
    rewrite (select_none mask Hmask) in Hd'.
    destruct (historical_metrics_spec _ _ _ Hd') as [out [Hout Hspec]].
    exists out. split; [exact Hout|]. split; [split|].
    + rewrite Hspec. cbn. eauto.
    + intros c Hc Hm. rewrite Hspec, Hm, df_select_get.
      destruct (getitem_columns df c Hc) as [s [_ ->]].
      destruct (String.eqb "timestamps" c); cbn; eauto.
    + intros k seq. rewrite Hspec, df_select_get.
      destruct (String.eqb "timestamps" k); [cbn; congruence|].
      destruct (UpdateData.is_metric k); [|discriminate].
      destruct (dict_get k (cols df)) as [s|]; [|discriminate].
      cbn [fmap option_fmap option_map]. rewrite tolist_select, (select_none mask Hmask).
      congruence.
  - intros delta Hwithin. rewrite (window_normalized df now delta z z' vals Hd Hz).
    rewrite (df_select_all _ df n Hal).
    + split; [reflexivity|].
      destruct (historical_metrics_spec _ _ _ Hd) as [out [Hout _]]. eauto.
    + unfold since. rewrite length_map.
      exact (record_dates_length df n _ vals Hal Hd).
    + unfold since. apply Forall_map.
      eapply Forall_impl; [exact Hwithin|]. cbn beta. intros v Hv.
      apply Z.leb_le. exact Hv.
Qed.

Lemma C4_window_extremes_witness :
  let now := mkTimestamp (datetime 2024 1 2 6 0 0) (Some Asia_Shanghai) in
  (exists out, UpdateData.window now 0 scenario_desc = Ok out /\
     has_metric_keys scenario_desc out /\ all_empty out) /\
  UpdateData.window now (days 30) scenario_desc =
    UpdateData.process_historical_metrics scenario_desc.
Proof.
  intros now.
  destruct (C4_window_extremes scenario_desc 3 now Asia_Shanghai Asia_Shanghai
              [datetime 2024 1 2 0 0 0; datetime 2024 1 1 12 0 0;
               datetime 2024 1 1 0 0 0]) as [Hzero Hfull].
  - repeat constructor.
  - reflexivity.
  - reflexivity.
  - split.
    + apply Hzero. repeat constructor.
    + apply (Hfull (days 30)). repeat constructor; vm_compute; discriminate.
Defined.

(** C4 as stated fails: with "now" equal to the instant of the latest row
    of the scenario, a window of duration 0 still selects that row. *)
Lemma C4_zero_window_counterexample :
  let now := mkTimestamp (datetime 2024 1 2 0 0 0) (Some Asia_Shanghai) in
  exists out,
    UpdateData.window now 0 scenario_desc = Ok out /\
    dict_get "value" out = Some [PyNum 30] /\
    dict_get "timestamps" out = Some [PyStr "2024-01-02 08:00:00"] /\
    ~ all_empty out.
Proof.
  intros now. eexists. split; [vm_compute; reflexivity|].
  split; [reflexivity|]. split; [reflexivity|].
  intros Hempty. specialize (Hempty "value" _ eq_refl). discriminate.
Qed.

Lemma since_prefix {A} (a b : Z) (ds : list Z) :
  b <= a -> Sorted Z.ge ds ->
  forall xs : list A,
    select (since a ds) xs `prefix_of` select (since b ds) xs.
Proof.
  intros Hba Hs. apply Sorted_StronglySorted in Hs; [|intros x y z; lia].
  induction Hs as [|d ds _ IH Hall]; intros xs; cbn [since map select].
  - apply prefix_nil.
  - destruct xs as [|x xs]; [apply prefix_nil|].
    destruct (Z.leb_spec a d) as [Had|Had].
    + rewrite (proj2 (Z.leb_le b d)) by lia. apply prefix_cons, IH.
    + rewrite (select_none (map (fun v => a <=? v) ds)); [apply prefix_nil|].
      apply Forall_map. eapply Forall_impl; [exact Hall|]. cbn beta.
      intros v Hv. apply Z.leb_gt. lia.
Qed.

Lemma since_subset (a b : Z) (ds : list Z) (i : nat) :
  b <= a -> since a ds !! i = Some true -> since b ds !! i = Some true.
Proof.
  intros Hba. unfold since. rewrite !list_lookup_fmap.
  destruct (ds !! i) as [d|]; cbn; [|discriminate].
  intros H. injection H as H. apply Z.leb_le in H.
  f_equal. apply Z.leb_le. lia.
Qed.

(** C9: on a normalized table sorted descending by timestamp the
    windowed-cache builder returns its two documents; every row selected
    for the 24-hour window is selected for the 30-day window, and under
    every key (each metric column and 'timestamps') the hour-24 sequence is
    a prefix of the day-30 sequence. *)
Theorem C9_hour_window_prefix (df : DataFrame) (w : World)
    (z : tzinfo) (vals : list Z) :
  record_dates df = Some (Some z, vals) ->
  sorted_desc df ->
  exists hour_24_data day_30_data,
    UpdateData.process_cached_data df w = (Ok (hour_24_data, day_30_data), w) /\
    (forall i, since (clock w - hours 24) vals !! i = Some true ->
               since (clock w - days 30) vals !! i = Some true) /\
    UpdateData.process_historical_metrics
      (df_select (since (clock w - hours 24) vals) df) = Ok hour_24_data /\
    UpdateData.process_historical_metrics
      (df_select (since (clock w - days 30) vals) df) = Ok day_30_data /\
    forall k s24, dict_get k hour_24_data = Some s24 ->
      exists s30, dict_get k day_30_data = Some s30 /\ s24 `prefix_of` s30.
Proof.
  intros Hd Hsorted. pose proof (Hsorted _ _ Hd) as Hs.
  assert (Hle : clock w - days 30 <= clock w - hours 24) by (unfold days, hours; lia).
  set (now := mkTimestamp (clock w) (Some Asia_Shanghai)).
  pose proof (window_normalized df now (hours 24) z Asia_Shanghai vals Hd eq_refl) as H24.
  pose proof (window_normalized df now (days 30) z Asia_Shanghai vals Hd eq_refl) as H30.
  cbn [value now] in H24, H30.
  destruct (historical_metrics_spec _ _ _
              (df_select_dates (since (clock w - hours 24) vals) df _ _ Hd))
    as [h [Hh Hspec24]].
  destruct (historical_metrics_spec _ _ _
              (df_select_dates (since (clock w - days 30) vals) df _ _ Hd))
    as [d [Hdd Hspec30]].
  exists h, d. split; [|split; [|split; [exact Hh|split; [exact Hdd|]]]].
  - rewrite process_cached_data_run. cbv zeta. fold now.
    rewrite H24, Hh. cbn [rbind]. rewrite H30, Hdd. reflexivity.
  - intros i. apply since_subset. exact Hle.
  - intros k s24. rewrite Hspec24, Hspec30, !df_select_get.
    destruct (String.eqb "timestamps" k).
    + intros H. injection H as <-. eexists. split; [reflexivity|].
      unfold formatted. rewrite <- !select_map. apply since_prefix; assumption.
    + destruct (UpdateData.is_metric k); [|discriminate].
      destruct (dict_get k (cols df)) as [s|]; [|discriminate].
      cbn [fmap option_fmap option_map]. intros H. injection H as <-.
      eexists. split; [reflexivity|].
      rewrite !tolist_select. apply since_prefix; assumption.
Qed.

Lemma C9_hour_window_prefix_witness :
  let w := fresh_world (datetime 2024 1 2 6 0 0) true (Some scenario_desc) in
  exists hour_24_data day_30_data,
    UpdateData.process_cached_data scenario_desc w
      = (Ok (hour_24_data, day_30_data), w) /\
    dict_get "value" hour_24_data = Some [PyNum 30; PyNum 20] /\
    dict_get "value" day_30_data = Some [PyNum 30; PyNum 20; PyNum 10] /\
    forall k s24, dict_get k hour_24_data = Some s24 ->
      exists s30, dict_get k day_30_data = Some s30 /\ s24 `prefix_of` s30.
Proof.
  intros w.
  destruct (C9_hour_window_prefix scenario_desc w Asia_Shanghai
              [datetime 2024 1 2 0 0 0; datetime 2024 1 1 12 0 0;
               datetime 2024 1 1 0 0 0])
    as [h [d [Hrun [_ [Hh [Hd Hprefix]]]]]].
  - reflexivity.
  - intros zone vals H. vm_compute in H. injection H as <- <-.
    repeat constructor; vm_compute; discriminate.
  - exists h, d. split; [exact Hrun|].
    vm_compute in Hh. injection Hh as <-.
    vm_compute in Hd. injection Hd as <-.
    split; [reflexivity|]. split; [reflexivity|]. exact Hprefix.
Defined.

(** ** Purity of the transformers *)

(** A computation that only reads. *)
Lemma bind_pure {A B} (m : M A) (k : A -> M B) (w : World) (r : result A) :
  m w = (r, w) ->
  bind m k w = match r with Ok a => k a w | Raise e => (Raise e, w) end.
Proof. intros H. unfold bind. rewrite H. destruct r; reflexivity. Qed.

Lemma lift_run {A} (r : result A) (w : World) : lift r w = (r, w).
Proof. reflexivity. Qed.

Section Reads.
Variables (r : ref) (df : DataFrame) (w : World).
Hypothesis Hr : heap w !! r = Some df.

Lemma frame_read_run : frame_read r w = (Ok df, w).
Proof. unfold frame_read. rewrite Hr. reflexivity. Qed.

Lemma frame_getitem_run (c : string) : frame_getitem r c w = (getitem df c, w).
Proof. unfold frame_getitem. rewrite (bind_pure _ _ _ _ frame_read_run). reflexivity. Qed.

Lemma frame_columns_run : frame_columns r w = (Ok (columns df), w).
Proof. unfold frame_columns. rewrite (bind_pure _ _ _ _ frame_read_run). reflexivity. Qed.

Lemma frame_len_run : frame_len r w = (Ok (len df), w).
Proof. unfold frame_len. rewrite (bind_pure _ _ _ _ frame_read_run). reflexivity. Qed.

Lemma frame_iloc0_run : frame_iloc0 r w = (iloc0 df, w).
Proof. unfold frame_iloc0. rewrite (bind_pure _ _ _ _ frame_read_run). reflexivity. Qed.

(** Through a reference the three transformers without a clock compute
    what they compute on the table value, and change nothing. *)
Lemma ref_process_latest_data :
  UpdateDataRef.process_latest_data r w = (UpdateData.process_latest_data df, w).
Proof.
  unfold UpdateDataRef.process_latest_data, UpdateData.process_latest_data.
  rewrite (bind_pure _ _ _ _ frame_iloc0_run).
  destruct (iloc0 df) as [row|e]; cbn [rbind]; [|reflexivity].
  destruct (dict_get "record_date" row) as [[q|t|s]|]; reflexivity.
Qed.

Lemma ref_metrics_loop (cs : list string) :
  forall acc,
    UpdateDataRef.metrics_loop r cs acc w = (UpdateData.metrics_loop df cs acc, w).
Proof.
  induction cs as [|c cs IH]; intros acc;
    cbn [UpdateDataRef.metrics_loop UpdateData.metrics_loop]; [reflexivity|].
  destruct (UpdateData.is_metric c); [|apply IH].
  rewrite (bind_pure _ _ _ _ (frame_getitem_run c)).
  destruct (getitem df c) as [s|e]; cbn [rbind]; [apply IH | reflexivity].
Qed.

Lemma ref_process_historical_metrics :
  UpdateDataRef.process_historical_metrics r w
  = (UpdateData.process_historical_metrics df, w).
Proof.
  unfold UpdateDataRef.process_historical_metrics,
    UpdateData.process_historical_metrics.
  rewrite (bind_pure _ _ _ _ frame_columns_run).
  rewrite (bind_pure _ _ _ _ (ref_metrics_loop (columns df) [])).
  destruct (UpdateData.metrics_loop df (columns df) []) as [metrics|e];
    cbn [rbind]; [|reflexivity].
  rewrite (bind_pure _ _ _ _ (frame_getitem_run "record_date")).
  destruct (getitem df "record_date") as [d|e]; cbn [rbind]; [|reflexivity].
  rewrite (bind_pure _ _ _ _ (lift_run (dt_strftime d) w)).
  destruct (dt_strftime d); reflexivity.
Qed.

Lemma ref_column_stats (c : string) :
  UpdateDataRef.column_stats r c w = (UpdateData.column_stats df c, w).
Proof.
  unfold UpdateDataRef.column_stats, UpdateData.column_stats.
  rewrite (bind_pure _ _ _ _ (frame_getitem_run c)).
  destruct (getitem df c) as [[[|v vs]|z ds]|e]; cbn [rbind]; try reflexivity.
  rewrite (bind_pure _ _ _ _ frame_iloc0_run).
  destruct (iloc0 df) as [row|e]; cbn [rbind]; [|reflexivity].
  destruct (dict_get c row) as [[q|t|s]|]; reflexivity.
Qed.

Lemma ref_summary_loop (cs : list string) :
  forall acc,
    UpdateDataRef.summary_loop r cs acc w = (UpdateData.summary_loop df cs acc, w).
Proof.
  induction cs as [|c cs IH]; intros acc;
    cbn [UpdateDataRef.summary_loop UpdateData.summary_loop]; [reflexivity|].
  destruct (UpdateData.is_metric c); [|apply IH].
  rewrite (bind_pure _ _ _ _ (ref_column_stats c)).
  destruct (UpdateData.column_stats df c) as [st|e]; cbn [rbind];
    [apply IH | reflexivity].
Qed.

Lemma ref_process_summary :
  UpdateDataRef.process_summary r w = (UpdateData.process_summary df, w).
Proof.
  unfold UpdateDataRef.process_summary, UpdateData.process_summary.
  rewrite (bind_pure _ _ _ _ (frame_getitem_run "record_date")).
  destruct (getitem df "record_date") as [[qs|zone vals]|e]; cbn [rbind];
    try reflexivity.
  destruct (dt_max zone vals) as [t|]; [|reflexivity].
  unfold bind at 1. cbn [ret].
  rewrite (bind_pure _ _ _ _ frame_len_run).
  rewrite (bind_pure _ _ _ _ frame_columns_run).
  rewrite (bind_pure _ _ _ _ (ref_summary_loop (columns df) [])).
  destruct (UpdateData.summary_loop df (columns df) []) as [ms|e];
    reflexivity.
Qed.

End Reads.

#[local] Instance tables_kept_refl : Reflexive tables_kept.
Proof. intros w r df H. exact H. Qed.

#[local] Instance tables_kept_trans : Transitive tables_kept.
Proof. intros w1 w2 w3 H12 H23 r df H. apply H23, H12, H. Qed.

#[local] Instance same_but_heap_refl : Reflexive same_but_heap.
Proof. intros []. reflexivity. Qed.

#[local] Instance same_but_heap_trans : Transitive same_but_heap.
Proof.
  intros w1 w2 w3 H12 H23. unfold same_but_heap in *.
  rewrite H23, H12. reflexivity.
Qed.

(** A new table object leaves the others alone. *)
Lemma frame_new_run (df : DataFrame) (w : World) :
  exists r w',
    frame_new df w = (Ok r, w') /\ heap w' !! r = Some df /\
    tables_kept w w' /\ same_but_heap w w'.
Proof.
  unfold frame_new. do 2 eexists. split; [reflexivity|].
  cbn [heap set_heap]. split; [apply lookup_insert_eq|]. split.
  - intros r0 df0 H0. cbn [heap set_heap]. rewrite lookup_insert_ne; [exact H0|].
    intros <-. apply (is_fresh (dom (heap w))).
    apply elem_of_dom. eauto.
  - unfold same_but_heap. cbn [heap set_heap]. reflexivity.
Qed.

(** One window: the table value decides the document; the only trace is
    the filtered table, a new object. *)
Lemma ref_window (now : Timestamp) (delta : Z) (r : ref) (df : DataFrame)
    (w : World) :
  heap w !! r = Some df ->
  exists w',
    UpdateDataRef.window now delta r w = (UpdateData.window now delta df, w') /\
    tables_kept w w' /\ same_but_heap w w'.
Proof.
  intros Hr. unfold UpdateDataRef.window, UpdateData.window.
  rewrite (bind_pure _ _ _ _ (frame_getitem_run r df w Hr "record_date")).
  destruct (getitem df "record_date") as [d|e]; cbn [rbind];
    [|exists w; repeat split; reflexivity].
  rewrite (bind_pure _ _ _ _ (lift_run _ w)).
  destruct (series_ge d (sub_timedelta now delta)) as [mask|e]; cbn [rbind];
    [|exists w; repeat split; reflexivity].
  unfold frame_filter.
  unfold bind at 1. rewrite (bind_pure _ _ _ _ (frame_read_run r df w Hr)).
  destruct (frame_new_run (df_select mask df) w) as (r1 & w1 & Hnew & Hr1 & Hk & Hs).
  rewrite Hnew. exists w1.
  rewrite (ref_process_historical_metrics r1 _ w1 Hr1). auto.
Qed.

Lemma ref_process_cached_data (r : ref) (df : DataFrame) (w : World) :
  heap w !! r = Some df ->
  exists w',
    UpdateDataRef.process_cached_data r w
    = (fst (UpdateData.process_cached_data df w), w') /\
    tables_kept w w' /\ same_but_heap w w'.
Proof.
  intros Hr. rewrite process_cached_data_run. cbv zeta. cbn [fst].
  unfold UpdateDataRef.process_cached_data.
  unfold bind at 1. unfold Timestamp_now at 1.
  set (now := mkTimestamp (clock w) (Some Asia_Shanghai)).
  destruct (ref_window now (hours 24) r df w Hr) as (w1 & H1 & Hk1 & Hs1).
  unfold bind at 1. rewrite H1.
  destruct (UpdateData.window now (hours 24) df) as [h|e]; cbn [rbind];
    [|exists w1; auto].
  destruct (ref_window now (days 30) r df w1 (Hk1 _ _ Hr)) as (w2 & H2 & Hk2 & Hs2).
  unfold bind at 1. rewrite H2.
  exists w2. split; [|split; etransitivity; eassumption].
  destruct (UpdateData.window now (days 30) df) as [d|e]; reflexivity.
Qed.

(** Each transformer on a reference: the documents of the transformer on
    the table value, every table of the store kept, nothing else
    changed. *)
Lemma run_transformer_run (t : transformer) (r : ref) (df : DataFrame) (w : World) :
  heap w !! r = Some df ->
  exists w',
    run_transformer t r w = (fst (run_on_value t df w), w') /\
    tables_kept w w' /\ same_but_heap w w'.
Proof.
  intros Hr. destruct t; unfold run_transformer, run_on_value.
  - rewrite (bind_pure _ _ _ _ (ref_process_latest_data r df w Hr)).
    rewrite (bind_pure _ _ _ _ (lift_run _ w)).
    exists w. split; [|split; reflexivity].
    destruct (UpdateData.process_latest_data df); reflexivity.
  - rewrite (bind_pure _ _ _ _ (ref_process_historical_metrics r df w Hr)).
    rewrite (bind_pure _ _ _ _ (lift_run _ w)).
    exists w. split; [|split; reflexivity].
    destruct (UpdateData.process_historical_metrics df); reflexivity.
  - rewrite (bind_pure _ _ _ _ (ref_process_summary r df w Hr)).
    rewrite (bind_pure _ _ _ _ (lift_run _ w)).
    exists w. split; [|split; reflexivity].
    destruct (UpdateData.process_summary df); reflexivity.
  - destruct (ref_process_cached_data r df w Hr) as (w' & Hrun & Hk & Hs).
    exists w'. split; [|auto].
    unfold bind at 1. rewrite Hrun.
    unfold bind at 1. rewrite process_cached_data_run. cbv zeta. cbn [fst].
    destruct (let? _ := _ in _) as [[h d]|e]; reflexivity.
Qed.

Lemma run_on_value_clock (t : transformer) (df : DataFrame) (w w' : World) :
  (t = WindowedCache -> clock w' = clock w) ->
  fst (run_on_value t df w') = fst (run_on_value t df w).
Proof.
  intros Hclock. destruct t; unfold run_on_value, bind.
  - unfold lift, ret. destruct (UpdateData.process_latest_data df); reflexivity.
  - unfold lift, ret. destruct (UpdateData.process_historical_metrics df); reflexivity.
  - unfold lift, ret. destruct (UpdateData.process_summary df); reflexivity.
  - rewrite !process_cached_data_run, (Hclock eq_refl). cbv zeta.
    destruct (let? _ := _ in _) as [[h d]|e]; reflexivity.
Qed.

(** The normalizer, by contrast, changes the table it is handed: after the
    call the reference holds the normalized table. *)
Lemma convert_in_place (r : ref) (df df' : DataFrame) (w : World) :
  heap w !! r = Some df ->
  UpdateData.convert_to_china_timezone df = Ok df' ->
  UpdateDataRef.convert_to_china_timezone r w
  = (Ok r, set_heap (<[r := df']> (heap w)) w).
Proof.
  intros Hr. unfold UpdateDataRef.convert_to_china_timezone,
    UpdateData.convert_to_china_timezone. cbv zeta.
  rewrite (bind_pure _ _ _ _ (frame_getitem_run r df w Hr "record_date")).
  destruct (getitem df "record_date") as [s|e]; cbn [rbind]; [|discriminate].
  rewrite (bind_pure _ _ _ _ (lift_run _ w)).
  destruct (to_datetime s) as [s1|e]; cbn [rbind]; [|discriminate].
  rewrite (bind_pure _ _ _ _ (lift_run _ w)).
  destruct (tz_localize UTC s1) as [s2|e]; cbn [rbind]; [|discriminate].
  rewrite (bind_pure _ _ _ _ (lift_run _ w)).
  destruct (tz_convert Asia_Shanghai s2) as [s3|e]; cbn [rbind]; [|discriminate].
  intros H. injection H as <-.
  unfold bind, frame_setitem. rewrite Hr. reflexivity.
Qed.

(** C8, as the code has it.  Applied to a reference to a table, a
    transformer leaves every table object of the process as it was, the
    table it is handed included, and changes nothing else: not the clock,
    the database, the connection, the files, the directories or the
    output.  Its documents are those it computes from the table value;
    two applications to equal tables, through any references and in any
    two worlds, give equal documents, for the windowed-cache builder when
    the two worlds show the same time. *)
Theorem C8_transformers_pure (t : transformer) (r : ref) (df : DataFrame)
    (w : World) :
  heap w !! r = Some df ->
  tables_kept w (snd (run_transformer t r w)) /\
  same_but_heap w (snd (run_transformer t r w)) /\
  fst (run_transformer t r w) = fst (run_on_value t df w) /\
  forall w' r',
    heap w' !! r' = Some df ->
    (t = WindowedCache -> clock w' = clock w) ->
    fst (run_transformer t r' w') = fst (run_transformer t r w).
Proof.
  intros Hr. destruct (run_transformer_run t r df w Hr) as (w1 & Hrun & Hk & Hs).
  rewrite Hrun. cbn [fst snd]. split; [exact Hk|]. split; [exact Hs|].
  split; [reflexivity|]. intros w' r' Hr' Hclock.
  destruct (run_transformer_run t r' df w' Hr') as (w2 & Hrun' & _ & _).
  rewrite Hrun'. cbn [fst]. apply run_on_value_clock, Hclock.
Qed.

Lemma C8_transformers_pure_witness :
  let w := with_table 0%nat scenario_desc
             (fresh_world (datetime 2024 1 2 6 0 0) true None) in
  let w' := with_table 5%nat scenario_desc
              (with_table 0%nat scenario_asc
                 (fresh_world (datetime 2024 1 2 6 0 0) false (Some scenario))) in
  tables_kept w (snd (run_transformer WindowedCache 0%nat w)) /\
  same_but_heap w (snd (run_transformer WindowedCache 0%nat w)) /\
  fst (run_transformer WindowedCache 5%nat w')
  = fst (run_transformer WindowedCache 0%nat w).
Proof.
  intros w w'.
  assert (Hr : heap w !! 0%nat = Some scenario_desc) by (vm_compute; reflexivity).
  assert (Hr' : heap w' !! 5%nat = Some scenario_desc) by (vm_compute; reflexivity).
  destruct (C8_transformers_pure WindowedCache 0%nat scenario_desc w Hr)
    as (Hk & Hs & _ & Hdet).
  split; [exact Hk|]. split; [exact Hs|].
  apply (Hdet w' 5%nat Hr'). intros _. reflexivity.
Defined.

(** C8 as stated fails for the windowed-cache builder: applied to the same
    table at two moments it gives different documents. *)
Lemma C8_two_moments_counterexample :
  let w1 := with_table 0%nat scenario_desc
              (fresh_world (datetime 2024 1 2 6 0 0) true None) in
  let w2 := with_table 0%nat scenario_desc
              (fresh_world (datetime 2024 3 1 0 0 0) true None) in
  fst (run_transformer WindowedCache 0%nat w1)
  <> fst (run_transformer WindowedCache 0%nat w2).
Proof.
  intros w1 w2 H.
  assert (Hr1 : heap w1 !! 0%nat = Some scenario_desc) by (vm_compute; reflexivity).
  assert (Hr2 : heap w2 !! 0%nat = Some scenario_desc) by (vm_compute; reflexivity).
  destruct (run_transformer_run WindowedCache 0%nat scenario_desc w1 Hr1)
    as (w1' & H1 & _).
  destruct (run_transformer_run WindowedCache 0%nat scenario_desc w2 Hr2)
    as (w2' & H2 & _).
  rewrite H1, H2 in H. cbn [fst] in H. vm_compute in H. clear - H. discriminate.
Qed.

(** ** The connection *)

Lemma keeps_ret {A} (a : A) : keeps_connection (ret a).
Proof. intros w. reflexivity. Qed.

Lemma keeps_raise {A} (e : exn) : keeps_connection (@raise A e).
Proof. intros w. reflexivity. Qed.

Lemma keeps_lift {A} (r : result A) : keeps_connection (lift r).
Proof. intros w. reflexivity. Qed.

Lemma keeps_bind {A B} (m : M A) (k : A -> M B) :
  keeps_connection m -> (forall a, keeps_connection (k a)) ->
  keeps_connection (bind m k).
Proof.
  intros Hm Hk w. unfold bind. specialize (Hm w).
  destruct (m w) as [[a|e] w1]; cbn [snd] in *; [|exact Hm].
  rewrite Hk. exact Hm.
Qed.

Lemma keeps_try_except {A} (m : M A) (h : exn -> M A) :
  keeps_connection m -> (forall e, keeps_connection (h e)) ->
  keeps_connection (try_except m h).
Proof.
  intros Hm Hh w. unfold try_except. specialize (Hm w).
  destruct (m w) as [[a|e] w1]; cbn [snd] in *; [exact Hm|].
  rewrite Hh. exact Hm.
Qed.

Lemma keeps_print (m : message) : keeps_connection (print m).
Proof. intros w. reflexivity. Qed.

Lemma keeps_makedirs (p : path) : keeps_connection (makedirs p).
Proof. intros w. unfold makedirs. destruct (io_fault w p); reflexivity. Qed.

Lemma keeps_open_dump (p : path) (text : JsonText) :
  keeps_connection (open_dump p text).
Proof.
  intros w. unfold open_dump.
  repeat match goal with
         | |- context [if ?b then _ else _] => destruct b
         end; reflexivity.
Qed.

Lemma keeps_process_cached_data (df : DataFrame) :
  keeps_connection (UpdateData.process_cached_data df).
Proof. intros w. rewrite process_cached_data_run. reflexivity. Qed.

Create HintDb conn discriminated.
#[local] Hint Resolve keeps_ret keeps_raise keeps_lift keeps_print keeps_makedirs
  keeps_open_dump keeps_process_cached_data : conn.
#[local] Hint Extern 2 (keeps_connection (bind _ _)) =>
  apply keeps_bind; [|intros ?] : conn.
#[local] Hint Extern 2 (keeps_connection (UpdateData.save_json _ _)) =>
  unfold UpdateData.save_json : conn.
#[local] Hint Extern 3 (keeps_connection (match ?x with (_, _) => _ end)) =>
  destruct x : conn.

(** [fetch_data] closes the connection it acquired, whether the query and
    the normalizer succeed or raise. *)
Lemma fetch_data_closes (w : World) :
  connection (snd (UpdateData.fetch_data w)) =
  if db_reachable w then Some ConnClosed else connection w.
Proof.
  unfold UpdateData.fetch_data, bind, UpdateData.connect_to_database.
  destruct (db_reachable w); [|reflexivity].
  unfold try_finally, connection_close.
  destruct (read_sql SelectAll _) as [[df|e] w1]; [|reflexivity].
  unfold lift. reflexivity.
Qed.

(** After the extraction nothing in [main] touches the connection: not the
    transformers, not the writes, not the handler. *)
Lemma main_after_fetch (w : World) :
  connection (snd (UpdateData.main w))
  = connection (snd (UpdateData.fetch_data w)).
Proof.
  unfold UpdateData.main, try_except.
  match goal with
  | |- context [bind UpdateData.fetch_data ?k] =>
      assert (Hk : forall df, keeps_connection (k df))
        by (intros df; auto 20 with conn);
      set (rest := k) in *
  end.
  assert (Hh : forall e, keeps_connection
            (let* _ := print (MsgError e) in @raise unit e))
    by (intros e; auto with conn).
  unfold bind at 1.
  destruct (UpdateData.fetch_data w) as [[df|e] w1]; cbn [snd].
  - specialize (Hk df w1).
    destruct (rest df w1) as [[u|e] w2]; cbn [snd] in *.
    + exact Hk.
    + rewrite Hh. exact Hk.
  - apply Hh.
Qed.

(** X22: in update_data.py the connection is closed at the end of every
    run that acquired it: success, failed query, failed transformation,
    failed write. *)
Lemma update_data_closes (w : World) :
  connection (snd (UpdateData.main w)) =
  if db_reachable w then Some ConnClosed else connection w.
Proof.
  rewrite main_after_fetch. apply fetch_data_closes.
Qed.




(** ** The writer *)

Lemma run_bind_ok {A B} (m : M A) (k : A -> M B) (w w1 : World) (a : A) :
  m w = (Ok a, w1) -> bind m k w = k a w1.
Proof. intros H. unfold bind. rewrite H. reflexivity. Qed.

Lemma run_bind_raise {A B} (m : M A) (k : A -> M B) (w w1 : World) (e : exn) :
  m w = (Raise e, w1) -> bind m k w = (Raise e, w1).
Proof. intros H. unfold bind. rewrite H. reflexivity. Qed.

Lemma makedirs_ok (p : path) (w : World) :
  io_fault w p = false ->
  makedirs p w = (Ok tt, set_dirs (dirs w ∪ ancestors p (length p)) w).
Proof. intros H. unfold makedirs. rewrite H. reflexivity. Qed.

Lemma open_dump_ok (p : path) (text : JsonText) (w : World) :
  dir_exists w (parent p) = true -> p ∉ dirs w -> io_fault w p = false ->
  serializable text = true ->
  open_dump p text w = (Ok tt, set_files (<[p := Text text]> (files w)) w).
Proof.
  intros Hdir Hp Hio Hser. unfold open_dump.
  rewrite Hdir, Hio, Hser, bool_decide_eq_false_2 by exact Hp. reflexivity.
Qed.

(** A value that [json.dump] refuses leaves the file incomplete. *)
Lemma open_dump_refused (p : path) (text : JsonText) (w : World) :
  dir_exists w (parent p) = true -> p ∉ dirs w -> io_fault w p = false ->
  serializable text = false ->
  open_dump p text w = (Raise TypeError, set_files (<[p := Partial]> (files w)) w).
Proof.
  intros Hdir Hp Hio Hser. unfold open_dump.
  rewrite Hdir, Hio, Hser, bool_decide_eq_false_2 by exact Hp. reflexivity.
Qed.

(** After the two [makedirs] of [main] every destination has its
    directory, and none of them is itself one of the created directories. *)
Lemma update_dirs_ready (w : World) :
  let w3 := set_dirs
    (dirs w ∪ ancestors ["data"; "historical"; "archived"] 3
            ∪ ancestors ["data"; "cache"] 2) w in
  Forall (fun p => dir_exists w3 (parent p) = true) update_targets /\
  Forall (fun d => d ∈ dirs w3) update_dirs /\
  ((forall p, p ∈ update_targets -> p ∉ dirs w) ->
   Forall (fun p => p ∉ dirs w3) update_targets).
Proof.
  intros w3. unfold w3, update_targets, update_dirs, dir_exists.
  cbn [dirs set_dirs ancestors firstn parent removelast].
  split; [|split].
  - repeat constructor; apply bool_decide_eq_true_2; right; set_solver.
  - repeat constructor; set_solver.
  - intros Hfree.
    repeat constructor;
      (intros Hin; apply elem_of_union in Hin as [Hin|Hin];
       [apply elem_of_union in Hin as [Hin|Hin];
        [revert Hin; apply Hfree; unfold update_targets;
         rewrite list_elem_of_In; cbn [In]; tauto|]|];
       set_unfold in Hin; intuition discriminate).
Qed.

(** C7, as the code has it.  [save_json] is [open(filename, 'w')] and
    [json.dump]: it creates no directory, and raises FileNotFoundError,
    changing nothing, when the directory of the destination is missing.
    The directories of the five destinations of update_data.py are created
    by the two [os.makedirs] of [main] before the first write: from any
    working directory in which no destination is itself a directory, and
    without I/O faults, after those two calls the write of a structure
    that [json.dump] accepts returns and the destination holds the JSON
    text of the structure, dumped with ensure_ascii=False and indent=2. *)
Theorem C7_save_json_after_makedirs (data : document) (p : path) (w : World) :
  p ∈ update_targets ->
  dumpable data = true ->
  (forall q, io_fault w q = false) ->
  (forall q, q ∈ update_targets -> q ∉ dirs w) ->
  exists w1,
    (let* _ := makedirs ["data"; "historical"; "archived"] in
     makedirs ["data"; "cache"]) w = (Ok tt, w1) /\
    files w1 = files w /\
    UpdateData.save_json data p w1 =
      (Ok tt, set_files (<[p := Text (mkJsonText false 2 false data)]> (files w1)) w1) /\
    (forall w0, dirs (snd (UpdateData.save_json data p w0)) = dirs w0) /\
    (forall w0, dir_exists w0 (parent p) = false ->
       UpdateData.save_json data p w0 = (Raise FileNotFoundError, w0)).
Proof.
  intros Hp Hdump Hio Hfree.
  destruct (update_dirs_ready w) as (Hdirs & _ & Hnot). specialize (Hnot Hfree).
  rewrite Forall_forall in Hdirs, Hnot.
  eexists. split.
  { rewrite (run_bind_ok _ _ _ _ _
               (makedirs_ok ["data"; "historical"; "archived"] w (Hio _))).
    cbv beta. apply makedirs_ok. apply Hio. }
  split; [reflexivity|]. split; [|split].
  - unfold UpdateData.save_json. apply open_dump_ok.
    + apply (Hdirs p Hp).
    + apply (Hnot p Hp).
    + apply Hio.
    + unfold serializable. cbn [default_str body orb]. exact Hdump.
  - intros w0. unfold UpdateData.save_json, open_dump.
    repeat match goal with
           | |- context [if ?b then _ else _] => destruct b
           end; reflexivity.
  - intros w0 Hmiss. unfold UpdateData.save_json, open_dump. rewrite Hmiss.
    reflexivity.
Qed.

Lemma C7_save_json_after_makedirs_witness :
  let w := fresh_world 0 true None in
  let p := ["data"; "cache"; "hour-24.json"] in
  let data := DocMetrics [("timestamps", [PyStr "2024-01-02 08:00:00"])] in
  UpdateData.save_json data p w = (Raise FileNotFoundError, w) /\
  exists w1,
    (let* _ := makedirs ["data"; "historical"; "archived"] in
     makedirs ["data"; "cache"]) w = (Ok tt, w1) /\
    files (snd (UpdateData.save_json data p w1)) !! p
    = Some (Text (mkJsonText false 2 false data)).
Proof.
  intros w p data.
  destruct (C7_save_json_after_makedirs data p w) as (w1 & Hprep & _ & Hsave & _ & Hmiss).
  - unfold update_targets, p. rewrite list_elem_of_In. cbn [In]. tauto.
  - reflexivity.
  - reflexivity.
  - intros q _ Hq. cbn in Hq. set_solver.
  - split; [apply Hmiss; reflexivity|].
    exists w1. split; [exact Hprep|]. rewrite Hsave. cbn [snd files set_files].
    apply lookup_insert_eq.
Defined.

(** C7 as stated fails: not every structure is written.  On a table with a
    metric column of dates the latest record still holds a Timestamp when
    [main] hands it to [save_json]; [json.dump], called without
    [default=], raises TypeError, the run ends there and data/latest.json,
    whose directory exists, is left incomplete. *)
Lemma C7_unserializable_counterexample :
  let w := fresh_world (datetime 2024 1 2 6 0 0) true (Some dated_table) in
  let p := ["data"; "latest.json"] in
  exists df latest,
    UpdateData.convert_to_china_timezone dated_table = Ok df /\
    UpdateData.process_latest_data df = Ok latest /\
    dict_get "checked_at" latest
    = Some (PyTimestamp (mkTimestamp (datetime 2024 1 2 1 0 0) None)) /\
    fst (UpdateData.main w) = Raise TypeError /\
    dir_exists (snd (UpdateData.main w)) (parent p) = true /\
    files (snd (UpdateData.main w)) !! p = Some Partial /\
    stdout (snd (UpdateData.main w)) = [MsgError TypeError].
Proof.
  intros w p. do 2 eexists.
  split; [vm_compute; reflexivity|]. split; [vm_compute; reflexivity|].
  split; [reflexivity|]. split; [vm_compute; reflexivity|].
  split; [vm_compute; reflexivity|]. split; vm_compute; reflexivity.
Qed.

(** A run of update_data.py from an empty working directory returns and
    leaves the five documents. *)
Lemma update_data_fresh_run :
  let w := fresh_world (datetime 2024 1 2 6 0 0) true (Some scenario_table) in
  fst (UpdateData.main w) = Ok tt /\
  closed_after (snd (UpdateData.main w)) /\
  stdout (snd (UpdateData.main w)) = [MsgSuccess] /\
  Forall (fun p => exists t, files (snd (UpdateData.main w)) !! p = Some (Text t))
    update_targets.
Proof.
  intros w. split; [vm_compute; reflexivity|]. split; [vm_compute; reflexivity|].
  split; [vm_compute; reflexivity|].
  repeat constructor; vm_compute; eauto.
Qed.

(** * Further properties of the scripts *)

(** ** Shape of the normalized table *)

Lemma keys_dict_set {V} (k : string) (v : V) (d : dict V) :
  keys (dict_set k v d) =
  if bool_decide (k ∈ keys d) then keys d else (keys d ++ [k])%list.
Proof.
  induction d as [|[k0 v0] d IH]; cbn [dict_set keys map fst].
  - rewrite bool_decide_eq_false_2; [reflexivity|]. intros H; inversion H.
  - destruct (String.eqb_spec k0 k) as [->|Hne]; cbn [map fst].
    + rewrite bool_decide_eq_true_2 by left. reflexivity.
    + fold (keys d). fold (keys (dict_set k v d)). rewrite IH.
      destruct (decide (k ∈ keys d)) as [Hin|Hin].
      * rewrite !bool_decide_eq_true_2; [reflexivity|right; exact Hin|exact Hin].
      * rewrite !bool_decide_eq_false_2; [reflexivity| |exact Hin].
        intros H. apply elem_of_cons in H as [?|?]; [congruence|contradiction].
Qed.

Lemma Forall_dict_set {V} (P : string * V -> Prop) (k : string) (v : V) (d : dict V) :
  (forall k', P (k', v)) -> Forall P d -> Forall P (dict_set k v d).
Proof.
  intros Hv. induction 1 as [|[k0 v0] d H0 Hd IH]; cbn [dict_set].
  - constructor; [apply Hv|constructor].
  - destruct (String.eqb k0 k); constructor; auto.
Qed.

Lemma len_setitem (df : DataFrame) (c : string) (s s0 : Series) :
  dict_get c (cols df) = Some s0 -> series_len s = series_len s0 ->
  len (setitem df c s) = len df.
Proof.
  unfold len, setitem; cbn [cols].
  destruct (cols df) as [|[k0 v0] d]; cbn [dict_get dict_set]; [discriminate|].
  destruct (String.eqb k0 c); [|reflexivity].
  intros H Hlen. injection H as ->. exact Hlen.
Qed.

(** Shape of the table the normalizer returns on naive dates. *)
Lemma convert_naive_shape (df : DataFrame) (vals : list Z) :
  record_dates df = Some (None, vals) ->
  let df' := setitem df "record_date" (Datetime (Some Asia_Shanghai) vals) in
  columns df' = columns df /\
  len df' = len df /\
  (forall n, aligned n df -> aligned n df') /\
  record_dates df' = Some (Some Asia_Shanghai, vals) /\
  (forall c, c <> "record_date" -> dict_get c (cols df') = dict_get c (cols df)).
Proof.
  intros Hd df'. pose proof Hd as Hlk. apply record_dates_lookup in Hlk.
  split; [|split; [|split; [|split]]].
  - unfold columns, df', setitem; cbn [cols]. fold (keys (cols df)).
    fold (keys (dict_set "record_date" (Datetime (Some Asia_Shanghai) vals) (cols df))).
    rewrite keys_dict_set, bool_decide_eq_true_2; [reflexivity|].
    apply dict_get_keys. eauto.
  - apply (len_setitem df _ _ _ Hlk). reflexivity.
  - intros n Hal. unfold aligned, df', setitem; cbn [cols].
    apply Forall_dict_set; [|exact Hal]. intros k'. cbn [snd series_len].
    exact (aligned_lookup n df _ _ Hal Hlk).
  - unfold record_dates, df'. rewrite record_dates_setitem. reflexivity.
  - intros c Hc. unfold df', setitem; cbn [cols].
    apply dict_get_set_ne. congruence.
Qed.

(** X1: on a table of timezone-naive dates the normalizer returns a table
    with the same column labels in the same order, the same number of rows
    and the same column lengths, and the rows stay in descending order of
    [record_date] when they were. *)
Theorem X1_normalizer_keeps_shape (df : DataFrame) (vals : list Z) :
  record_dates df = Some (None, vals) ->
  exists df',
    UpdateData.convert_to_china_timezone df = Ok df' /\
    columns df' = columns df /\
    len df' = len df /\
    (forall n, aligned n df -> aligned n df') /\
    (sorted_desc df -> sorted_desc df').
Proof.
  intros Hd. pose proof (convert_naive df vals Hd) as Hc.
  destruct (convert_naive_shape df vals Hd) as [Hcols [Hlen [Hal [Hd' _]]]].
  eexists. split; [exact Hc|]. split; [exact Hcols|]. split; [exact Hlen|].
  split; [exact Hal|].
  intros Hs zone' vals' Hd''. rewrite Hd' in Hd''. injection Hd'' as <- <-.
  exact (Hs None vals Hd).
Qed.

Lemma X1_normalizer_keeps_shape_witness :
  exists df',
    UpdateData.convert_to_china_timezone scenario_table = Ok df' /\
    columns df' = ["ID"; "record_date"; "value"] /\
    len df' = 3%nat /\
    (forall n, aligned n scenario_table -> aligned n df') /\
    (sorted_desc scenario_table -> sorted_desc df').
Proof.
  apply (X1_normalizer_keeps_shape scenario_table
           [datetime 2024 1 2 0 0 0; datetime 2024 1 1 12 0 0;
            datetime 2024 1 1 0 0 0]).
  reflexivity.
Defined.

(** ** The latest-record extractor *)

Lemma first_row_keys (cs : list (string * Series)) (row : dict pyval) :
  first_row cs = Ok row -> keys row = keys cs.
Proof.
  revert row. induction cs as [|[c s] cs IH]; intros row; cbn [first_row].
  - intros H. injection H as <-. reflexivity.
  - destruct (first_cell s); [|discriminate].
    destruct (first_row cs) as [d|e]; cbn [rbind]; [|discriminate].
    intros H. injection H as <-. cbn [keys map fst]. f_equal. apply IH. reflexivity.
Qed.

Lemma first_cell_lookup (s : Series) : first_cell s = tolist s !! 0%nat.
Proof. unfold first_cell. apply head_lookup. Qed.

(** X2: on a table with at least one row the latest-record extractor
    returns a record with the labels of the table in their order; under
    'record_date' it holds the formatted date of the first row, under every
    other label the cell of the first row. *)
Theorem X2_latest_record_is_first_row (df : DataFrame) (n : nat)
    (zone : option tzinfo) (vals : list Z) :
  aligned (S n) df ->
  record_dates df = Some (zone, vals) ->
  exists out d,
    UpdateData.process_latest_data df = Ok out /\
    keys out = columns df /\
    vals !! 0%nat = Some d /\
    dict_get "record_date" out = Some (PyStr (strftime (mkTimestamp d zone))) /\
    forall c, c <> "record_date" -> dict_get c out = cell df c 0.
Proof.
  intros Hal Hd.
  pose proof (record_dates_length df _ _ _ Hal Hd) as Hlen.
  destruct vals as [|d ds]; [discriminate|].
  apply record_dates_lookup in Hd.
  destruct (iloc0_total df n _ _ Hal Hd) as [row Hrow].
  pose proof (iloc0_get df row "record_date" Hrow) as Hrd.
  rewrite Hd in Hrd. cbn in Hrd.
  unfold UpdateData.process_latest_data. rewrite Hrow. cbn [rbind]. rewrite Hrd.
  eexists; exists d. split; [reflexivity|]. split; [|split; [reflexivity|split]].
  - rewrite keys_dict_set, bool_decide_eq_true_2.
    + unfold iloc0 in Hrow. destruct (len df); [discriminate|].
      exact (first_row_keys _ _ Hrow).
    + apply dict_get_keys. eauto.
  - apply dict_get_set_eq.
  - intros c Hc. rewrite dict_get_set_ne by congruence.
    rewrite (iloc0_get df row c Hrow). unfold cell.
    destruct (dict_get c (cols df)) as [s|]; [|reflexivity].
    apply first_cell_lookup.
Qed.

Lemma X2_latest_record_is_first_row_witness :
  exists out d,
    UpdateData.process_latest_data scenario_desc = Ok out /\
    keys out = columns scenario_desc /\
    [datetime 2024 1 2 0 0 0; datetime 2024 1 1 12 0 0; datetime 2024 1 1 0 0 0]
      !! 0%nat = Some d /\
    dict_get "record_date" out
      = Some (PyStr (strftime (mkTimestamp d (Some Asia_Shanghai)))) /\
    forall c, c <> "record_date" -> dict_get c out = cell scenario_desc c 0.
Proof.
  apply (X2_latest_record_is_first_row scenario_desc 2).
  - repeat constructor.
  - reflexivity.
Defined.

(** ** A table without rows *)

Lemma len_aligned (df : DataFrame) (n : nat) (c : string) (s : Series) :
  aligned n df -> dict_get c (cols df) = Some s -> len df = n.
Proof.
  unfold len, aligned. destruct (cols df) as [|[c0 s0] cs]; [discriminate|].
  intros Hal _. inversion Hal as [|? ? H0 _]. exact H0.
Qed.

(** X3: on a normalized table without rows the latest-record extractor
    raises IndexError and the summary aggregator raises ValueError, while
    the reshaper and both windows of the cache builder return documents
    that have all their keys and only empty sequences. *)
Theorem X3_table_without_rows (df : DataFrame) (z : tzinfo) (vals : list Z)
    (w : World) :
  aligned 0 df ->
  record_dates df = Some (Some z, vals) ->
  UpdateData.process_latest_data df = Raise IndexError /\
  UpdateData.process_summary df = Raise ValueError /\
  (exists out, UpdateData.process_historical_metrics df = Ok out /\
     has_metric_keys df out /\ all_empty out) /\
  (exists out, fst (UpdateData.process_cached_data df w) = Ok (out, out) /\
     UpdateData.process_historical_metrics df = Ok out).
Proof.
  intros Hal Hd.
  pose proof (record_dates_length df _ _ _ Hal Hd) as Hlen.
  destruct vals as [|d ds]; [|discriminate].
  pose proof Hd as Hlk. apply record_dates_lookup in Hlk.
  destruct (historical_metrics_spec df _ _ Hd) as [out [Hout Hspec]].
  split; [|split; [|split]].
  - unfold UpdateData.process_latest_data, iloc0.
    rewrite (len_aligned df 0 _ _ Hal Hlk). reflexivity.
  - unfold UpdateData.process_summary, getitem. rewrite Hlk. reflexivity.
  - exists out. split; [exact Hout|]. split; [split|].
    + rewrite Hspec. cbn. eauto.
    + intros c Hc Hm. rewrite Hspec, Hm.
      destruct (getitem_columns df c Hc) as [s [_ ->]].
      destruct (String.eqb "timestamps" c); cbn; eauto.
    + intros k seq. rewrite Hspec.
      destruct (String.eqb "timestamps" k); [cbn; congruence|].
      destruct (UpdateData.is_metric k); [|discriminate].
      destruct (dict_get k (cols df)) as [s|] eqn:Hk; [|discriminate].
      cbn [fmap option_fmap option_map]. intros H. injection H as <-.
      pose proof (aligned_lookup 0 df k s Hal Hk) as Hs.
      rewrite <- length_tolist in Hs. destruct (tolist s); [reflexivity|discriminate].
  - exists out. split; [|exact Hout].
    rewrite process_cached_data_run. cbv zeta. cbn [fst].
    set (now := mkTimestamp (clock w) (Some Asia_Shanghai)).
    rewrite (window_normalized df now (hours 24) z Asia_Shanghai [] Hd eq_refl).
    rewrite (window_normalized df now (days 30) z Asia_Shanghai [] Hd eq_refl).
    cbn [since map].
    rewrite (df_select_all [] df 0 Hal eq_refl (List.Forall_nil _)), Hout.
    reflexivity.
Qed.

Lemma X3_table_without_rows_witness :
  let df := mkDataFrame
    [ ("ID", Numeric []); ("record_date", Datetime (Some Asia_Shanghai) []);
      ("value", Numeric []) ] in
  let w := fresh_world (datetime 2024 1 2 6 0 0) true None in
  UpdateData.process_latest_data df = Raise IndexError /\
  UpdateData.process_summary df = Raise ValueError /\
  (exists out, UpdateData.process_historical_metrics df = Ok out /\
     has_metric_keys df out /\ all_empty out) /\
  (exists out, fst (UpdateData.process_cached_data df w) = Ok (out, out) /\
     UpdateData.process_historical_metrics df = Ok out).
Proof.
  intros df w. apply (X3_table_without_rows df Asia_Shanghai []).
  - repeat constructor.
  - reflexivity.
Defined.

(** ** Keys and failures of the reshaper *)

Lemma metrics_loop_keys (df : DataFrame) (cs : list string) :
  forall acc out,
    NoDup cs -> (forall c, c ∈ cs -> c ∉ keys acc) ->
    UpdateData.metrics_loop df cs acc = Ok out ->
    keys out = (keys acc ++ List.filter UpdateData.is_metric cs)%list.
Proof.
  induction cs as [|c cs IH]; intros acc out Hnd Hfresh;
    cbn [UpdateData.metrics_loop List.filter].
  - intros H. injection H as <-. rewrite app_nil_r. reflexivity.
  - apply NoDup_cons in Hnd as [Hc Hnd].
    destruct (UpdateData.is_metric c).
    + destruct (getitem df c) as [s|e]; cbn [rbind]; [|discriminate].
      intros Hout. rewrite (IH _ _ Hnd) with (2 := Hout).
      * rewrite keys_dict_set, bool_decide_eq_false_2 by (apply Hfresh; left).
        rewrite <- app_assoc. reflexivity.
      * intros c' Hc'. rewrite keys_dict_set, bool_decide_eq_false_2
          by (apply Hfresh; left).
        rewrite elem_of_app, list_elem_of_singleton. intros [H| ->]; [|contradiction].
        revert H. apply Hfresh. right. exact Hc'.
    + intros Hout. apply (IH _ _ Hnd); [|exact Hout].
      intros c' Hc'. apply Hfresh. right. exact Hc'.
Qed.

(** X4: on a table with distinct labels the keys of the reshaped document
    are the metric columns in the order of the table, followed by
    'timestamps' unless a column of that name already took its place; 'ID'
    and 'record_date' are never keys. *)
Theorem X4_reshaper_keys (df : DataFrame) (out : dict (list pyval)) :
  NoDup (columns df) ->
  UpdateData.process_historical_metrics df = Ok out ->
  keys out =
    (List.filter UpdateData.is_metric (columns df) ++
     (if bool_decide ("timestamps" ∈ columns df) then [] else ["timestamps"]))%list /\
  dict_get "ID" out = None /\
  dict_get "record_date" out = None.
Proof.
  intros Hnd. unfold UpdateData.process_historical_metrics.
  destruct (UpdateData.metrics_loop df (columns df) []) as [m|e] eqn:Hm;
    cbn [rbind]; [|discriminate].
  destruct (getitem df "record_date") as [d|e]; cbn [rbind]; [|discriminate].
  destruct (dt_strftime d) as [ts|e]; cbn [rbind]; [|discriminate].
  intros H. injection H as <-.
  assert (Hfresh : forall c, c ∈ columns df -> c ∉ keys (@nil (string * list pyval)))
    by (intros c _; apply not_elem_of_nil).
  pose proof (metrics_loop_keys df _ _ _ Hnd Hfresh Hm) as Hk.
  cbn [keys map app] in Hk.
  destruct (metrics_loop_spec df (columns df) [] (fun c H => H)) as [m' [Hm' Hspec]].
  rewrite Hm in Hm'. injection Hm' as <-.
  split; [|split].
  - rewrite keys_dict_set, Hk.
    replace (bool_decide ("timestamps" ∈ List.filter UpdateData.is_metric (columns df)))
      with (bool_decide ("timestamps" ∈ columns df)).
    + destruct (bool_decide _); [rewrite app_nil_r|]; reflexivity.
    + apply bool_decide_ext. rewrite !list_elem_of_In, filter_In.
      split; [intros H; split; [exact H|reflexivity]|intros [H _]; exact H].
  - rewrite dict_get_set_ne by discriminate. rewrite Hspec.
    change (UpdateData.is_metric "ID") with false. rewrite andb_false_r. reflexivity.
  - rewrite dict_get_set_ne by discriminate. rewrite Hspec.
    change (UpdateData.is_metric "record_date") with false.
    rewrite andb_false_r. reflexivity.
Qed.

Lemma X4_reshaper_keys_witness :
  exists out,
    UpdateData.process_historical_metrics clash = Ok out /\
    keys out = ["timestamps"; "value"] /\
    dict_get "ID" out = None /\
    dict_get "record_date" out = None.
Proof.
  eexists. split; [vm_compute; reflexivity|].
  apply (X4_reshaper_keys clash).
  - apply (bool_decide_unpack _). vm_compute. exact I.
  - vm_compute. reflexivity.
Defined.

(** X5: on a table without a 'record_date' column the normalizer, the
    reshaper, the summary aggregator and the cache builder raise KeyError,
    and so does the latest-record extractor when the table has rows. *)
Theorem X5_missing_record_date (df : DataFrame) (w : World) :
  dict_get "record_date" (cols df) = None ->
  UpdateData.convert_to_china_timezone df = Raise KeyError /\
  UpdateData.process_historical_metrics df = Raise KeyError /\
  UpdateData.process_summary df = Raise KeyError /\
  fst (UpdateData.process_cached_data df w) = Raise KeyError /\
  (forall n, aligned (S n) df -> columns df <> [] ->
     UpdateData.process_latest_data df = Raise KeyError).
Proof.
  intros Hnone.
  assert (Hg : getitem df "record_date" = Raise KeyError)
    by (unfold getitem; rewrite Hnone; reflexivity).
  split; [|split; [|split; [|split]]].
  - unfold UpdateData.convert_to_china_timezone. rewrite Hg. reflexivity.
  - unfold UpdateData.process_historical_metrics.
    destruct (metrics_loop_spec df (columns df) [] (fun c H => H)) as [m [-> _]].
    cbn [rbind]. rewrite Hg. reflexivity.
  - unfold UpdateData.process_summary. rewrite Hg. reflexivity.
  - rewrite process_cached_data_run. cbv zeta. unfold UpdateData.window.
    rewrite Hg. reflexivity.
  - intros n Hal Hcols. unfold UpdateData.process_latest_data.
    destruct (cols df) as [|[c s] cs] eqn:Hc; [unfold columns in Hcols; rewrite Hc in Hcols; contradiction|].
    assert (Hcs : dict_get c (cols df) = Some s)
      by (rewrite Hc; cbn [dict_get]; rewrite String.eqb_refl; reflexivity).
    destruct (iloc0_total df n c s Hal Hcs) as [row Hrow].
    rewrite Hrow. cbn [rbind].
    rewrite (iloc0_get df row "record_date" Hrow), Hc, Hnone. reflexivity.
Qed.

Lemma X5_missing_record_date_witness :
  let w := fresh_world (datetime 2024 1 2 6 0 0) true None in
  UpdateData.convert_to_china_timezone undated = Raise KeyError /\
  UpdateData.process_historical_metrics undated = Raise KeyError /\
  UpdateData.process_summary undated = Raise KeyError /\
  fst (UpdateData.process_cached_data undated w) = Raise KeyError /\
  UpdateData.process_latest_data undated = Raise KeyError.
Proof.
  intros w.
  destruct (X5_missing_record_date undated w eq_refl) as [H1 [H2 [H3 [H4 H5]]]].
  split; [exact H1|]. split; [exact H2|]. split; [exact H3|]. split; [exact H4|].
  apply (H5 1%nat); [repeat constructor|discriminate].
Defined.

(** ** More on the summary aggregator *)

Lemma fold_max_spec (vs : list Z) :
  forall a, let m := fold_left Z.max vs a in
    (m = a \/ m ∈ vs) /\ a <= m /\ Forall (fun u => u <= m) vs.
Proof.
  induction vs as [|v vs IH]; intros a; cbn [fold_left]; cbv zeta.
  - split; [left; reflexivity|]. split; [lia|constructor].
  - destruct (IH (Z.max a v)) as [Hin [Hle Hall]]. cbv zeta in *.
    split; [|split; [lia|constructor; [lia|exact Hall]]].
    destruct Hin as [Heq|Hin]; [|right; right; exact Hin].
    rewrite Heq.
    destruct (Z.max_spec a v) as [[_ Hm]|[_ Hm]]; rewrite Hm.
    + right. left.
    + left. reflexivity.
Qed.

Lemma fold_max_head (d : Z) (ds : list Z) :
  Forall (fun u => u <= d) ds -> fold_left Z.max ds d = d.
Proof.
  induction 1 as [|v vs Hv _ IH]; cbn [fold_left]; [reflexivity|].
  rewrite Z.max_l by lia. exact IH.
Qed.

(** X6: whenever the aggregator returns, 'total_records' is the number of
    rows and 'last_update' is the formatted greatest date of the table; on
    a table sorted descending it is the very string the latest-record
    extractor puts under 'record_date'. *)
Theorem X6_last_update (df : DataFrame) (out : Summary)
    (zone : option tzinfo) (vals : list Z) :
  UpdateData.process_summary df = Ok out ->
  record_dates df = Some (zone, vals) ->
  total_records out = len df /\
  (exists t, t ∈ vals /\ Forall (fun u => u <= t) vals /\
     last_update out = strftime (mkTimestamp t zone)) /\
  (sorted_desc df ->
     forall latest, UpdateData.process_latest_data df = Ok latest ->
       dict_get "record_date" latest = Some (PyStr (last_update out))).
Proof.
  intros Hout Hd. pose proof Hd as Hlk. apply record_dates_lookup in Hlk.
  unfold UpdateData.process_summary, getitem in Hout. rewrite Hlk in Hout.
  cbn [rbind] in Hout.
  destruct vals as [|d ds]; [discriminate|]. cbn [dt_max rbind] in Hout.
  destruct (UpdateData.summary_loop df (columns df) []) as [ms|e];
    cbn [rbind] in Hout; [|discriminate].
  injection Hout as <-. cbn [total_records last_update].
  destruct (fold_max_spec ds d) as [Hin [Hle Hall]]. cbv zeta in *.
  split; [reflexivity|]. split.
  - exists (fold_left Z.max ds d). split; [|split; [|reflexivity]].
    + destruct Hin as [->|Hin]; [left|right; exact Hin].
    + constructor; assumption.
  - intros Hsorted latest Hlatest.
    pose proof (sorted_desc_head d ds (Hsorted _ _ Hd)) as Hhead.
    inversion Hhead as [|? ? _ Htail].
    rewrite (fold_max_head d ds Htail).
    unfold UpdateData.process_latest_data in Hlatest.
    destruct (iloc0 df) as [row|e] eqn:Hrow; cbn [rbind] in Hlatest; [|discriminate].
    pose proof (iloc0_get df row "record_date" Hrow) as Hrd.
    rewrite Hlk in Hrd. cbn in Hrd. rewrite Hrd in Hlatest.
    injection Hlatest as <-. apply dict_get_set_eq.
Qed.

Lemma X6_last_update_witness :
  exists out latest,
    UpdateData.process_summary scenario_desc = Ok out /\
    UpdateData.process_latest_data scenario_desc = Ok latest /\
    total_records out = 3%nat /\
    last_update out = "2024-01-02 08:00:00" /\
    dict_get "record_date" latest = Some (PyStr (last_update out)).
Proof.
  do 2 eexists. split; [vm_compute; reflexivity|]. split; [vm_compute; reflexivity|].
  destruct (X6_last_update scenario_desc _ (Some Asia_Shanghai)
              [datetime 2024 1 2 0 0 0; datetime 2024 1 1 12 0 0;
               datetime 2024 1 1 0 0 0] eq_refl eq_refl) as [Htotal [_ Hlatest]].
  split; [exact Htotal|]. split; [reflexivity|].
  apply Hlatest; [|reflexivity].
  intros zone vals H. vm_compute in H. injection H as <- <-.
  repeat constructor; vm_compute; discriminate.
Defined.

Lemma summary_loop_keys (df : DataFrame) (cs : list string) :
  forall acc out, UpdateData.summary_loop df cs acc = Ok out ->
  forall k, is_Some (dict_get k out) ->
    is_Some (dict_get k acc) \/ (k ∈ cs /\ UpdateData.is_metric k = true).
Proof.
  induction cs as [|c cs IH]; intros acc out Hout k Hk;
    cbn [UpdateData.summary_loop] in Hout.
  - injection Hout as <-. left. exact Hk.
  - destruct (UpdateData.is_metric c) eqn:Hm.
    + destruct (UpdateData.column_stats df c) as [st|e]; cbn [rbind] in Hout;
        [|discriminate].
      destruct (IH _ _ Hout k Hk) as [Hacc|[Hin Hmk]].
      * rewrite dict_get_set in Hacc.
        destruct (String.eqb_spec c k) as [->|_]; [right; split; [left|exact Hm]|left; exact Hacc].
      * right. split; [right; exact Hin|exact Hmk].
    + destruct (IH _ _ Hout k Hk) as [Hacc|[Hin Hmk]]; [left; exact Hacc|].
      right. split; [right; exact Hin|exact Hmk].
Qed.

(** What the aggregator makes of one column of a table with rows. *)
Lemma column_stats_cases (df : DataFrame) (n : nat) (c : string) (s : Series) :
  aligned (S n) df -> dict_get c (cols df) = Some s ->
  match s with
  | Numeric _ => exists st, UpdateData.column_stats df c = Ok st
  | Datetime _ _ => UpdateData.column_stats df c = Raise TypeError
  end.
Proof.
  intros Hal Hs. unfold UpdateData.column_stats, getitem. rewrite Hs. cbn [rbind].
  destruct s as [qs|z ds]; [|reflexivity].
  pose proof (aligned_lookup _ _ _ _ Hal Hs) as Hl. cbn [series_len] in Hl.
  destruct qs as [|q qs]; [discriminate|].
  destruct (iloc0_total df n c _ Hal Hs) as [row Hrow]. rewrite Hrow. cbn [rbind].
  rewrite (iloc0_get df row c Hrow), Hs. cbn. eauto.
Qed.

(** X7: on a table with rows whose metric columns are all numeric the
    aggregator returns, and the keys of 'metrics_summary' are exactly the
    metric columns: no entry for 'ID' or 'record_date', one for every other
    column. *)
Theorem X7_summary_entries (df : DataFrame) (n : nat)
    (zone : option tzinfo) (vals : list Z) :
  aligned (S n) df ->
  record_dates df = Some (zone, vals) ->
  (forall c s, dict_get c (cols df) = Some s -> UpdateData.is_metric c = true ->
     exists qs, s = Numeric qs) ->
  exists out,
    UpdateData.process_summary df = Ok out /\
    total_records out = S n /\
    forall c, is_Some (dict_get c (metrics_summary out)) <->
              (c ∈ columns df /\ UpdateData.is_metric c = true).
Proof.
  intros Hal Hd Hnum.
  destruct (process_summary_total df n zone vals Hal Hd Hnum) as [out [Hout [Ht Hk]]].
  exists out. split; [exact Hout|]. split; [exact Ht|].
  intros c. split; [|intros [Hc Hm]; exact (Hk c Hc Hm)].
  intros Hc. unfold UpdateData.process_summary in Hout.
  destruct (getitem df "record_date") as [d|e]; cbn [rbind] in Hout; [|discriminate].
  destruct (match d with Numeric _ => _ | Datetime _ _ => _ end) as [l|e];
    cbn [rbind] in Hout; [|discriminate].
  destruct (UpdateData.summary_loop df (columns df) []) as [ms|e] eqn:Hms;
    cbn [rbind] in Hout; [|discriminate].
  injection Hout as <-. cbn [metrics_summary] in Hc.
  destruct (summary_loop_keys df _ _ _ Hms c Hc) as [[? H]|H]; [discriminate|exact H].
Qed.

Lemma X7_summary_entries_witness :
  exists out,
    UpdateData.process_summary scenario_desc = Ok out /\
    total_records out = 3%nat /\
    forall c, is_Some (dict_get c (metrics_summary out)) <->
              (c ∈ columns scenario_desc /\ UpdateData.is_metric c = true).
Proof.
  apply (X7_summary_entries scenario_desc 2 (Some Asia_Shanghai)
           [datetime 2024 1 2 0 0 0; datetime 2024 1 1 12 0 0;
            datetime 2024 1 1 0 0 0]).
  - repeat constructor.
  - reflexivity.
  - intros c s Hs Hm. unfold scenario_desc in Hs; cbn [cols dict_get] in Hs.
    destruct (String.eqb "ID" c); [injection Hs as <-; eauto|].
    destruct (String.eqb_spec "record_date" c) as [<-|_]; [discriminate|].
    destruct (String.eqb "value" c); [injection Hs as <-; eauto|discriminate].
Defined.

Lemma summary_loop_raises (df : DataFrame) (e : exn) (cs : list string) :
  (forall c, c ∈ cs -> UpdateData.is_metric c = true ->
     (exists st, UpdateData.column_stats df c = Ok st) \/
     UpdateData.column_stats df c = Raise e) ->
  (exists c, c ∈ cs /\ UpdateData.is_metric c = true /\
     UpdateData.column_stats df c = Raise e) ->
  forall acc, UpdateData.summary_loop df cs acc = Raise e.
Proof.
  induction cs as [|c cs IH]; intros Hall [c0 [Hin [Hm0 Hr0]]] acc.
  - inversion Hin.
  - cbn [UpdateData.summary_loop].
    assert (Hall' : forall c', c' ∈ cs -> UpdateData.is_metric c' = true ->
              (exists st, UpdateData.column_stats df c' = Ok st) \/
              UpdateData.column_stats df c' = Raise e)
      by (intros c' Hc'; apply Hall; right; exact Hc').
    destruct (UpdateData.is_metric c) eqn:Hm.
    + destruct (Hall c) as [[st Hst]|Hr]; [left|exact Hm| |].
      * rewrite Hst. cbn [rbind]. apply IH; [exact Hall'|].
        apply elem_of_cons in Hin as [->|Hin]; [congruence|eauto].
      * rewrite Hr. reflexivity.
    + apply IH; [exact Hall'|].
      apply elem_of_cons in Hin as [->|Hin]; [congruence|eauto].
Qed.

(** X8: when a table with rows has a metric column that holds dates, the
    summary aggregator raises TypeError, whereas the reshaper still returns
    a document with that column in it. *)
Theorem X8_dated_metric_column (df : DataFrame) (n : nat)
    (zone : option tzinfo) (vals : list Z)
    (c : string) (zone' : option tzinfo) (ds : list Z) :
  aligned (S n) df ->
  record_dates df = Some (zone, vals) ->
  UpdateData.is_metric c = true ->
  dict_get c (cols df) = Some (Datetime zone' ds) ->
  UpdateData.process_summary df = Raise TypeError /\
  exists out, UpdateData.process_historical_metrics df = Ok out /\
    (c <> "timestamps" -> dict_get c out = Some (tolist (Datetime zone' ds))).
Proof.
  intros Hal Hd Hm Hc. split.
  - pose proof (record_dates_length df _ _ _ Hal Hd) as Hlen.
    apply record_dates_lookup in Hd.
    unfold UpdateData.process_summary, getitem. rewrite Hd. cbn [rbind].
    destruct vals as [|d0 ds0]; [discriminate|]. cbn [dt_max rbind].
    rewrite (summary_loop_raises df TypeError (columns df)); [reflexivity| |].
    + intros c' Hc' Hm'. destruct (getitem_columns df c' Hc') as [s [_ Hs]].
      pose proof (column_stats_cases df n c' s Hal Hs) as Hcases.
      destruct s; [left|right]; exact Hcases.
    + exists c. split; [apply dict_get_keys; eauto|]. split; [exact Hm|].
      exact (column_stats_cases df n c _ Hal Hc).
  - destruct (historical_metrics_spec df _ _ Hd) as [out [Hout Hspec]].
    exists out. split; [exact Hout|]. intros Hne. rewrite Hspec, Hm, Hc.
    destruct (String.eqb_spec "timestamps" c); [congruence|reflexivity].
Qed.

Lemma X8_dated_metric_column_witness :
  UpdateData.process_summary dated_metric = Raise TypeError /\
  exists out, UpdateData.process_historical_metrics dated_metric = Ok out /\
    ("checked_at" <> "timestamps" ->
     dict_get "checked_at" out =
       Some (tolist (Datetime None [datetime 2024 1 2 1 0 0; datetime 2024 1 1 1 0 0]))).
Proof.
  apply (X8_dated_metric_column dated_metric 1 (Some Asia_Shanghai)
           [datetime 2024 1 2 0 0 0; datetime 2024 1 1 0 0 0]).
  - repeat constructor.
  - reflexivity.
  - reflexivity.
  - reflexivity.
Defined.

(** ** More on the windowed-cache builder *)

(** X9: the cache builder compares the dates with a timezone-aware "now";
    on a table whose dates were not normalized it raises TypeError and
    builds neither document. *)
Theorem X9_cache_needs_normalized (df : DataFrame) (vals : list Z) (w : World) :
  record_dates df = Some (None, vals) ->
  UpdateData.process_cached_data df w = (Raise TypeError, w).
Proof.
  intros Hd. apply record_dates_getitem in Hd.
  rewrite process_cached_data_run. cbv zeta.
  unfold UpdateData.window. rewrite Hd. reflexivity.
Qed.

Lemma X9_cache_needs_normalized_witness :
  let w := fresh_world (datetime 2024 1 2 6 0 0) true None in
  UpdateData.process_cached_data scenario_table w = (Raise TypeError, w).
Proof.
  intros w.
  apply (X9_cache_needs_normalized scenario_table
           [datetime 2024 1 2 0 0 0; datetime 2024 1 1 12 0 0;
            datetime 2024 1 1 0 0 0]).
  reflexivity.
Defined.

Lemma length_select {A} (f : Z -> bool) (ds : list Z) :
  forall xs : list A, length xs = length ds ->
    length (select (map f ds) xs) = length (List.filter f ds).
Proof.
  induction ds as [|d ds IH]; intros [|x xs] Hlen; cbn [map select List.filter];
    try reflexivity; try discriminate.
  cbn [length] in Hlen. destruct (f d); cbn [length]; rewrite IH by lia; reflexivity.
Qed.

(** X10: on a normalized table every sequence of a window document, the
    timestamps included, has as many elements as the table has rows dated
    at or after now - duration. *)
Theorem X10_window_lengths (df : DataFrame) (n : nat) (now : Timestamp)
    (delta : Z) (z z' : tzinfo) (vals : list Z) :
  aligned n df ->
  record_dates df = Some (Some z, vals) ->
  tz now = Some z' ->
  exists out,
    UpdateData.window now delta df = Ok out /\
    has_metric_keys df out /\
    forall k seq, dict_get k out = Some seq ->
      length seq = length (List.filter (fun v => value now - delta <=? v) vals).
Proof.
  intros Hal Hd Hz. rewrite (window_normalized df now delta z z' vals Hd Hz).
  set (mask := since (value now - delta) vals).
  destruct (historical_metrics_spec _ _ _ (df_select_dates mask df _ _ Hd))
    as [out [Hout Hspec]].
  pose proof (record_dates_length df n _ _ Hal Hd) as Hlen.
  exists out. split; [exact Hout|]. split; [split|].
  - rewrite Hspec. cbn. eauto.
  - intros c Hc Hm. rewrite Hspec, Hm, df_select_get.
    destruct (getitem_columns df c Hc) as [s [_ ->]].
    destruct (String.eqb "timestamps" c); cbn; eauto.
  - intros k seq. rewrite Hspec, df_select_get.
    destruct (String.eqb "timestamps" k).
    + intros H. injection H as <-. unfold formatted, mask, since.
      rewrite length_map. apply length_select. reflexivity.
    + destruct (UpdateData.is_metric k); [|discriminate].
      destruct (dict_get k (cols df)) as [s|] eqn:Hk; [|discriminate].
      cbn [fmap option_fmap option_map]. intros H. injection H as <-.
      rewrite tolist_select. unfold mask, since. apply length_select.
      rewrite length_tolist, (aligned_lookup n df k s Hal Hk). lia.
Qed.

Lemma X10_window_lengths_witness :
  let now := mkTimestamp (datetime 2024 1 2 6 0 0) (Some Asia_Shanghai) in
  exists out,
    UpdateData.window now (hours 24) scenario_desc = Ok out /\
    has_metric_keys scenario_desc out /\
    forall k seq, dict_get k out = Some seq -> length seq = 2%nat.
Proof.
  intros now.
  apply (X10_window_lengths scenario_desc 3 now (hours 24)
           Asia_Shanghai Asia_Shanghai
           [datetime 2024 1 2 0 0 0; datetime 2024 1 1 12 0 0;
            datetime 2024 1 1 0 0 0]).
  - repeat constructor.
  - reflexivity.
  - reflexivity.
Defined.

(** ** Frames of the effectful code *)

Section Respects.
Context (R : World -> World -> Prop) `{!Reflexive R} `{!Transitive R}.

Lemma respects_ret {A} (a : A) : respects R (ret a).
Proof. intros w. reflexivity. Qed.

Lemma respects_raise {A} (e : exn) : respects R (@raise A e).
Proof. intros w. reflexivity. Qed.

Lemma respects_lift {A} (r : result A) : respects R (lift r).
Proof. intros w. reflexivity. Qed.

Lemma respects_bind {A B} (m : M A) (k : A -> M B) :
  respects R m -> (forall a, respects R (k a)) -> respects R (bind m k).
Proof.
  intros Hm Hk w. unfold bind. specialize (Hm w).
  destruct (m w) as [[a|e] w1]; cbn [snd] in *; [|exact Hm].
  etransitivity; [exact Hm|apply Hk].
Qed.

Lemma respects_try_except {A} (m : M A) (h : exn -> M A) :
  respects R m -> (forall e, respects R (h e)) -> respects R (try_except m h).
Proof.
  intros Hm Hh w. unfold try_except. specialize (Hm w).
  destruct (m w) as [[a|e] w1]; cbn [snd] in *; [exact Hm|].
  etransitivity; [exact Hm|apply Hh].
Qed.

Lemma respects_try_finally {A} (m : M A) (fin : M unit) :
  respects R m -> respects R fin -> respects R (try_finally m fin).
Proof.
  intros Hm Hf w. unfold try_finally. specialize (Hm w).
  destruct (m w) as [r w1]; cbn [snd] in *. specialize (Hf w1).
  destruct (fin w1) as [[u|e] w2]; cbn [snd] in *; etransitivity; eassumption.
Qed.

End Respects.

#[local] Instance same_stdout_refl : Reflexive same_stdout.
Proof. intros w. reflexivity. Qed.

#[local] Instance same_stdout_trans : Transitive same_stdout.
Proof. unfold same_stdout. intros w1 w2 w3 H1 H2. congruence. Qed.

#[local] Instance same_fs_refl : Reflexive same_fs.
Proof. intros w. split; reflexivity. Qed.

#[local] Instance same_fs_trans : Transitive same_fs.
Proof. unfold same_fs. intros w1 w2 w3 [? ?] [? ?]. split; congruence. Qed.

#[local] Instance fs_frame_refl (t : list path) : Reflexive (fs_frame t).
Proof. intros w. split; [reflexivity|]. split; auto. Qed.

#[local] Instance fs_frame_trans (t : list path) : Transitive (fs_frame t).
Proof.
  intros w1 w2 w3 [Hd1 [Hf1 Hs1]] [Hd2 [Hf2 Hs2]]. split; [|split].
  - etransitivity; eassumption.
  - intros p Hp. rewrite Hf2, Hf1 by exact Hp. reflexivity.
  - auto.
Qed.

(** Steps that only touch the connection or only read the world. *)
Lemma connect_inert (R : World -> World -> Prop) :
  (forall w c, R w (set_connection c w)) -> (forall w, R w w) ->
  respects R UpdateData.connect_to_database /\
  respects R CollectData.get_database_connection /\
  respects R connection_close /\
  (forall q, respects R (read_sql q)) /\
  (forall z, respects R (Timestamp_now z)) /\
  respects R CollectData.datetime_now /\
  (forall df, respects R (UpdateData.process_cached_data df)).
Proof.
  intros Hc Hr. repeat split.
  - intros w. unfold UpdateData.connect_to_database.
    destruct (db_reachable w); [apply Hc|apply Hr].
  - intros w. unfold CollectData.get_database_connection.
    destruct (db_env w); apply Hr.
  - intros w. apply Hc.
  - intros q w. unfold read_sql.
    destruct (connection w) as [[|]|]; destruct (db_table w) as [df|];
      try destruct (dict_get "record_date" (cols df)); apply Hr.
  - intros z w. apply Hr.
  - intros w. apply Hr.
  - intros df w. rewrite process_cached_data_run. apply Hr.
Qed.

Lemma fetch_data_respects (R : World -> World -> Prop)
    `{!Reflexive R} `{!Transitive R} :
  (forall w c, R w (set_connection c w)) -> respects R UpdateData.fetch_data.
Proof.
  intros Hc.
  destruct (connect_inert R Hc (fun w => reflexivity w)) as [H1 [_ [H3 [H4 _]]]].
  unfold UpdateData.fetch_data.
  apply respects_bind; auto. intros _.
  apply respects_try_finally; auto.
  apply respects_bind; auto.
Qed.

Lemma same_stdout_steps :
  (forall p, respects same_stdout (makedirs p)) /\
  (forall p text, respects same_stdout (open_dump p text)).
Proof.
  split.
  - intros p w. unfold makedirs. destruct (io_fault w p); reflexivity.
  - intros p text w. unfold open_dump.
    repeat match goal with
           | |- context [if ?b then _ else _] => destruct b
           end; reflexivity.
Qed.

Lemma fs_frame_steps (t : list path) :
  (forall p, respects (fs_frame t) (makedirs p)) /\
  (forall p text, p ∈ t -> respects (fs_frame t) (open_dump p text)) /\
  (forall m, respects (fs_frame t) (print m)).
Proof.
  split; [|split].
  - intros p w. unfold makedirs. destruct (io_fault w p); [reflexivity|].
    split; [cbn; set_solver|]. split; auto.
  - intros p text Hp w. unfold open_dump.
    repeat match goal with
           | |- context [if ?b then _ else _] => destruct b
           end; try reflexivity;
      (split; [reflexivity|]; cbn [snd files set_files]; split;
       [ intros q Hq; apply lookup_insert_ne; intros ->; contradiction
       | intros q Hq; destruct (decide (p = q)) as [->|Hne];
         [ rewrite lookup_insert_eq; eauto
         | rewrite lookup_insert_ne by exact Hne; exact Hq ] ]).
  - intros m w. split; [reflexivity|]. split; auto.
Qed.

Ltac frame_step :=
  lazymatch goal with
  | |- respects _ (bind _ _) => apply respects_bind; [exact _ | | intros ?]
  | |- respects _ (lift _) => apply respects_lift; exact _
  | |- respects _ (ret _) => apply respects_ret; exact _
  | |- respects _ (raise _) => apply respects_raise; exact _
  | |- respects _ (UpdateData.save_json _ _) => unfold UpdateData.save_json
  | |- respects _ (match ?x with (_, _) => _ end) => destruct x
  end.

(** Every relation kept by the steps of [main] is kept by [main]. *)
Lemma update_main_respects (R : World -> World -> Prop)
    `{!Reflexive R} `{!Transitive R} :
  (forall w c, R w (set_connection c w)) ->
  (forall p, respects R (makedirs p)) ->
  (forall p text, p ∈ update_targets -> respects R (open_dump p text)) ->
  (forall m, respects R (print m)) ->
  respects R UpdateData.main.
Proof.
  intros Hc Hmk Hopen Hprint.
  pose proof (fetch_data_respects R Hc) as Hfetch.
  destruct (connect_inert R Hc (fun w => reflexivity w)) as [_ [_ [_ [_ [_ [_ Hcache]]]]]].
  unfold UpdateData.main. apply respects_try_except; [exact _| |].
  - repeat frame_step;
      first [ exact Hfetch | apply Hmk | apply Hcache | apply Hprint
            | apply Hopen; unfold update_targets; set_solver ].
  - intros e. repeat frame_step. apply Hprint.
Qed.

Lemma collect_main_respects (R : World -> World -> Prop)
    `{!Reflexive R} `{!Transitive R} :
  (forall w c, R w (set_connection c w)) ->
  (forall p text, p ∈ collect_targets -> respects R (open_dump p text)) ->
  respects R CollectData.main.
Proof.
  intros Hc Hopen.
  destruct (connect_inert R Hc (fun w => reflexivity w))
    as [_ [Hconn [Hclose [Hsql [_ [Hnow _]]]]]].
  unfold CollectData.main.
  repeat frame_step;
    first [ exact Hconn | exact Hclose | apply Hsql | exact Hnow
          | apply Hopen; unfold collect_targets; set_solver ].
Qed.

(** ** Extraction *)

(** What a call of [fetch_data] returns and leaves behind. *)
Lemma fetch_data_run (w : World) :
  UpdateData.fetch_data w =
  if db_reachable w then
    (match db_table w with
     | Some df =>
         match dict_get "record_date" (cols df) with
         | Some _ => UpdateData.convert_to_china_timezone df
         | None => Raise DatabaseError
         end
     | None => Raise DatabaseError
     end, set_connection (Some ConnClosed) w)
  else (Raise Exception, w).
Proof.
  unfold UpdateData.fetch_data, bind, UpdateData.connect_to_database.
  destruct (db_reachable w); [|reflexivity].
  unfold try_finally, read_sql, lift, connection_close. cbn [connection set_connection db_table].
  destruct (db_table w) as [df|]; [|reflexivity].
  destruct (dict_get "record_date" (cols df)); reflexivity.
Qed.

(** X11: [fetch_data] either cannot connect, and then raises a plain
    Exception and leaves the world as it was, or it connects, and then it
    returns the normalized table or raises what the query or the normalizer
    raised; in both of these cases the connection is closed and nothing
    else in the world has changed. *)
Theorem X11_fetch_data_outcome (w : World) :
  (db_reachable w = false -> UpdateData.fetch_data w = (Raise Exception, w)) /\
  (db_reachable w = true ->
     closed_after (snd (UpdateData.fetch_data w)) /\
     same_fs w (snd (UpdateData.fetch_data w)) /\
     same_stdout w (snd (UpdateData.fetch_data w)) /\
     fst (UpdateData.fetch_data w) =
       match db_table w with
       | Some df =>
           match dict_get "record_date" (cols df) with
           | Some _ => UpdateData.convert_to_china_timezone df
           | None => Raise DatabaseError
           end
       | None => Raise DatabaseError
       end).
Proof.
  rewrite fetch_data_run. split; intros ->; [reflexivity|].
  repeat split.
Qed.

Lemma X11_fetch_data_outcome_witness :
  let w := fresh_world (datetime 2024 1 2 6 0 0) true (Some scenario_desc) in
  let w' := fresh_world (datetime 2024 1 2 6 0 0) false (Some scenario_desc) in
  UpdateData.fetch_data w' = (Raise Exception, w') /\
  closed_after (snd (UpdateData.fetch_data w)) /\
  fst (UpdateData.fetch_data w) = Raise TypeError.
Proof.
  intros w w'. split.
  - apply (X11_fetch_data_outcome w'). reflexivity.
  - destruct (X11_fetch_data_outcome w) as [_ H].
    destruct (H eq_refl) as [Hclosed [_ [_ Hres]]].
    split; [exact Hclosed|]. rewrite Hres. reflexivity.
Defined.

(** ** Outcome of a run of update_data.py *)

Lemma announces_bind {A B} (m : M A) (k : A -> M B) :
  respects same_stdout m -> (forall a, announces (k a)) -> announces (bind m k).
Proof.
  intros Hm Hk w. unfold bind. specialize (Hm w). unfold same_stdout in Hm.
  destruct (m w) as [[a|e] w1]; cbn [snd] in Hm; [|exact Hm].
  specialize (Hk a w1). destruct (k a w1) as [[b|e] w2]; congruence.
Qed.

Ltac announce_step :=
  lazymatch goal with
  | |- announces (bind _ _) => apply announces_bind; [|intros ?]
  | |- announces (match ?x with (_, _) => _ end) => destruct x
  | |- respects _ (UpdateData.save_json _ _) => unfold UpdateData.save_json
  end.

(** X12: every run of update_data.py adds exactly one line to standard
    output: the success message when it returns, the message of the
    exception it re-raises otherwise. *)
Theorem X12_main_reports_once (w : World) :
  stdout (snd (UpdateData.main w)) =
  (stdout w ++ [verdict (fst (UpdateData.main w))])%list.
Proof.
  unfold UpdateData.main, try_except.
  match goal with
  | |- context [match ?b w with _ => _ end] =>
      assert (Hbody : announces b); [|specialize (Hbody w); destruct (b w) as [[u|e] w1]]
  end.
  - pose proof (fetch_data_respects same_stdout (fun w c => eq_refl)) as Hfetch.
    destruct (connect_inert same_stdout (fun w c => eq_refl) (fun w => eq_refl))
      as [_ [_ [_ [_ [_ [_ Hcache]]]]]].
    destruct same_stdout_steps as [Hmk Hopen].
    repeat announce_step;
      first [ exact Hfetch | apply Hmk | apply Hopen | apply Hcache
            | apply respects_lift; exact _ | idtac ].
    intros w'. reflexivity.
  - exact Hbody.
  - cbn. rewrite Hbody. reflexivity.
Qed.

(** X13: a run of update_data.py, whether it returns or raises, removes no
    directory and no file, and leaves every file other than its five
    destinations as it was. *)
Theorem X13_main_touches_only_targets (w : World) :
  fs_frame update_targets w (snd (UpdateData.main w)).
Proof.
  destruct (fs_frame_steps update_targets) as [Hmk [Hopen Hprint]].
  apply (update_main_respects (fs_frame update_targets)); try assumption.
  intros w' c. split; [reflexivity|]. split; auto.
Qed.

(** X14: when extraction fails (no connection, failed query, a table the
    normalizer refuses) the run re-raises that exception, prints its
    message, and creates or writes nothing. *)
Theorem X14_failed_extraction (w : World) (e : exn) :
  fst (UpdateData.fetch_data w) = Raise e ->
  fst (UpdateData.main w) = Raise e /\
  same_fs w (snd (UpdateData.main w)) /\
  stdout (snd (UpdateData.main w)) = (stdout w ++ [MsgError e])%list.
Proof.
  intros Hfail.
  pose proof (fetch_data_respects same_fs (fun w c => conj eq_refl eq_refl) w) as Hfs.
  pose proof (fetch_data_respects same_stdout (fun w c => eq_refl) w) as Hout.
  destruct (UpdateData.fetch_data w) as [[df|e'] w1] eqn:Hfetch;
    cbn [fst snd] in *; [discriminate|].
  injection Hfail as ->.
  assert (Hmain : UpdateData.main w =
            (Raise e, set_stdout (stdout w1 ++ [MsgError e]) w1)).
  { unfold UpdateData.main, try_except. unfold bind at 1. rewrite Hfetch.
    reflexivity. }
  rewrite Hmain. cbn [fst snd stdout set_stdout].
  unfold same_stdout in Hout. rewrite Hout.
  split; [reflexivity|]. split; [exact Hfs|reflexivity].
Qed.

Lemma X14_failed_extraction_witness :
  let w := fresh_world (datetime 2024 1 2 6 0 0) false (Some scenario_table) in
  fst (UpdateData.main w) = Raise Exception /\
  same_fs w (snd (UpdateData.main w)) /\
  stdout (snd (UpdateData.main w)) = [MsgError Exception].
Proof.
  intros w. apply (X14_failed_extraction w Exception). reflexivity.
Defined.

(** ** Whole runs of update_data.py *)

Lemma process_latest_data_total (df : DataFrame) (n : nat)
    (zone : option tzinfo) (vals : list Z) :
  aligned (S n) df -> record_dates df = Some (zone, vals) ->
  exists out, UpdateData.process_latest_data df = Ok out.
Proof.
  intros Hal Hd.
  pose proof (record_dates_length df _ _ _ Hal Hd) as Hlen.
  destruct vals as [|d ds]; [discriminate|].
  apply record_dates_lookup in Hd.
  destruct (iloc0_total df n _ _ Hal Hd) as [row Hrow].
  pose proof (iloc0_get df row "record_date" Hrow) as Hrd.
  rewrite Hd in Hrd. cbn in Hrd.
  unfold UpdateData.process_latest_data. rewrite Hrow. cbn [rbind]. rewrite Hrd.
  eauto.
Qed.

Lemma process_cached_data_total (df : DataFrame) (z : tzinfo) (vals : list Z)
    (w : World) :
  record_dates df = Some (Some z, vals) ->
  exists h d, forall w', clock w' = clock w ->
    UpdateData.process_cached_data df w' = (Ok (h, d), w').
Proof.
  intros Hd.
  set (now := mkTimestamp (clock w) (Some Asia_Shanghai)).
  pose proof (window_normalized df now (hours 24) z Asia_Shanghai vals Hd eq_refl) as H24.
  pose proof (window_normalized df now (days 30) z Asia_Shanghai vals Hd eq_refl) as H30.
  destruct (historical_metrics_spec _ _ _
              (df_select_dates (since (value now - hours 24) vals) df _ _ Hd))
    as [h [Hh _]].
  destruct (historical_metrics_spec _ _ _
              (df_select_dates (since (value now - days 30) vals) df _ _ Hd))
    as [d [Hdd _]].
  exists h, d. intros w' Hclock.
  rewrite process_cached_data_run, Hclock. cbv zeta. fold now.
  rewrite H24, Hh. cbn [rbind]. rewrite H30, Hdd. reflexivity.
Qed.

(** The first steps of a run whose extraction succeeds on a table of
    naive dates: the normalized table, a closed connection and the
    directories. *)
Lemma update_main_prefix (w : World) (df : DataFrame) (vals : list Z)
    (k : DataFrame -> M unit) :
  db_reachable w = true -> db_table w = Some df ->
  record_dates df = Some (None, vals) ->
  io_fault w ["data"; "historical"; "archived"] = false ->
  io_fault w ["data"; "cache"] = false ->
  let df' := setitem df "record_date" (Datetime (Some Asia_Shanghai) vals) in
  let w3 := set_dirs
    (dirs w ∪ ancestors ["data"; "historical"; "archived"] 3
            ∪ ancestors ["data"; "cache"] 2)
    (set_connection (Some ConnClosed) w) in
  (let* df := UpdateData.fetch_data in
   let* _ := makedirs ["data"; "historical"; "archived"] in
   let* _ := makedirs ["data"; "cache"] in
   k df) w = k df' w3.
Proof.
  intros Hreach Htab Hd Hio1 Hio2 df' w3.
  assert (Hfetch : UpdateData.fetch_data w =
            (Ok df', set_connection (Some ConnClosed) w)).
  { rewrite fetch_data_run, Hreach, Htab, (convert_naive df vals Hd).
    rewrite (proj1 (record_dates_lookup df _ _) Hd). reflexivity. }
  rewrite (run_bind_ok _ _ _ _ _ Hfetch). cbv beta.
  set (w1 := set_connection (Some ConnClosed) w).
  rewrite (run_bind_ok _ _ _ _ _
             (makedirs_ok ["data"; "historical"; "archived"] w1 Hio1)). cbv beta.
  set (w2 := set_dirs _ w1).
  rewrite (run_bind_ok _ _ _ _ _ (makedirs_ok ["data"; "cache"] w2 Hio2)). cbv beta.
  reflexivity.
Qed.

(** X15: when the table has no rows, a run of update_data.py connects,
    closes the connection, creates its directories and then raises
    IndexError from the latest-record extractor: no file is written and
    the error is reported. *)
Theorem X15_run_on_empty_table (w : World) (df : DataFrame) (vals : list Z) :
  db_reachable w = true -> db_table w = Some df ->
  aligned 0 df -> record_dates df = Some (None, vals) ->
  io_fault w ["data"; "historical"; "archived"] = false ->
  io_fault w ["data"; "cache"] = false ->
  fst (UpdateData.main w) = Raise IndexError /\
  closed_after (snd (UpdateData.main w)) /\
  files (snd (UpdateData.main w)) = files w /\
  Forall (fun d => d ∈ dirs (snd (UpdateData.main w))) update_dirs /\
  stdout (snd (UpdateData.main w)) = (stdout w ++ [MsgError IndexError])%list.
Proof.
  intros Hreach Htab Hal Hd Hio1 Hio2.
  destruct (convert_naive_shape df vals Hd) as [_ [Hlen [Hal' [Hd' _]]]].
  cbv zeta in *.
  set (df' := setitem df "record_date" (Datetime (Some Asia_Shanghai) vals)) in *.
  assert (Hlatest : UpdateData.process_latest_data df' = Raise IndexError).
  { apply record_dates_lookup in Hd'.
    unfold UpdateData.process_latest_data, iloc0.
    rewrite (len_aligned df' 0 _ _ (Hal' _ Hal) Hd'). reflexivity. }
  destruct (update_dirs_ready (set_connection (Some ConnClosed) w)) as [_ [Hdirs _]].
  cbv zeta in Hdirs. cbn [dirs set_connection] in Hdirs.
  assert (Hmain : UpdateData.main w =
            (Raise IndexError,
             set_stdout (stdout w ++ [MsgError IndexError])
               (set_dirs
                  (dirs w ∪ ancestors ["data"; "historical"; "archived"] 3
                          ∪ ancestors ["data"; "cache"] 2)
                  (set_connection (Some ConnClosed) w)))).
  { unfold UpdateData.main, try_except.
    rewrite (update_main_prefix w df vals _ Hreach Htab Hd Hio1 Hio2). cbv zeta.
    fold df'. unfold bind at 1, lift. rewrite Hlatest. reflexivity. }
  rewrite Hmain. cbn [fst snd files dirs stdout set_stdout set_dirs set_connection].
  split; [reflexivity|]. split; [reflexivity|]. split; [reflexivity|].
  split; [exact Hdirs|reflexivity].
Qed.

Lemma X15_run_on_empty_table_witness :
  let w := fresh_world (datetime 2024 1 2 6 0 0) true (Some empty_table) in
  fst (UpdateData.main w) = Raise IndexError /\
  closed_after (snd (UpdateData.main w)) /\
  files (snd (UpdateData.main w)) = ∅ /\
  Forall (fun d => d ∈ dirs (snd (UpdateData.main w))) update_dirs /\
  stdout (snd (UpdateData.main w)) = [MsgError IndexError].
Proof.
  intros w. apply (X15_run_on_empty_table w empty_table []); try reflexivity.
  repeat constructor.
Defined.

Lemma lift_ok {A} (r : result A) (a : A) (w : World) :
  r = Ok a -> lift r w = (Ok a, w).
Proof. intros ->. reflexivity. Qed.

(** What [json.dump] accepts among the documents of a table whose columns
    other than 'record_date' are numeric. *)
Lemma dict_all_spec {V} (f : V -> bool) (d : dict V) :
  dict_all f d = true <-> forall k v, dict_get k d = Some v -> f v = true.
Proof.
  unfold dict_all. rewrite forallb_forall. split.
  - intros H k v Hk. specialize (H k). rewrite Hk in H. apply H.
    apply list_elem_of_In, dict_get_keys. eauto.
  - intros H k _. destruct (dict_get k d) as [v|] eqn:Hk; [eauto|reflexivity].
Qed.

Lemma latest_dumpable (df : DataFrame) (latest : dict pyval) :
  (forall c s, dict_get c (cols df) = Some s -> c <> "record_date" ->
     exists qs, s = Numeric qs) ->
  UpdateData.process_latest_data df = Ok latest ->
  dumpable (DocRecord latest) = true.
Proof.
  intros Hnum. unfold UpdateData.process_latest_data.
  destruct (iloc0 df) as [row|e] eqn:Hrow; cbn [rbind]; [|discriminate].
  destruct (dict_get "record_date" row) as [[q|t|s0]|]; try discriminate.
  intros H. injection H as <-. cbn [dumpable]. apply dict_all_spec.
  intros k v Hk. rewrite dict_get_set in Hk.
  destruct (String.eqb_spec "record_date" k) as [<-|Hne].
  - injection Hk as <-. reflexivity.
  - rewrite (iloc0_get df row k Hrow) in Hk.
    destruct (dict_get k (cols df)) as [s|] eqn:Hs; cbn in Hk; [|discriminate].
    destruct (Hnum k s Hs) as [qs ->]; [congruence|].
    destruct qs as [|q qs]; cbn in Hk; [discriminate|].
    injection Hk as <-. reflexivity.
Qed.

Lemma metrics_dumpable (df : DataFrame) (zone : option tzinfo) (vals : list Z)
    (out : dict (list pyval)) :
  record_dates df = Some (zone, vals) ->
  (forall c s, dict_get c (cols df) = Some s -> c <> "record_date" ->
     exists qs, s = Numeric qs) ->
  UpdateData.process_historical_metrics df = Ok out ->
  dumpable (DocMetrics out) = true.
Proof.
  intros Hd Hnum Hout.
  destruct (historical_metrics_spec df zone vals Hd) as [out' [Hout' Hspec]].
  rewrite Hout in Hout'. injection Hout' as <-.
  cbn [dumpable]. apply dict_all_spec. intros k vs Hk. rewrite Hspec in Hk.
  destruct (String.eqb "timestamps" k).
  - injection Hk as <-. unfold formatted. apply forallb_forall.
    intros x Hx. apply in_map_iff in Hx as [v [<- _]]. reflexivity.
  - destruct (UpdateData.is_metric k) eqn:Hm; [|discriminate].
    destruct (dict_get k (cols df)) as [s|] eqn:Hs; cbn in Hk; [|discriminate].
    injection Hk as <-.
    destruct (Hnum k s Hs) as [qs ->]; [intros ->; discriminate Hm|].
    cbn [tolist]. apply forallb_forall.
    intros x Hx. apply in_map_iff in Hx as [v [<- _]]. reflexivity.
Qed.

Lemma window_dumpable (df : DataFrame) (now : Timestamp) (delta : Z)
    (z z' : tzinfo) (vals : list Z) (out : dict (list pyval)) :
  record_dates df = Some (Some z, vals) -> tz now = Some z' ->
  (forall c s, dict_get c (cols df) = Some s -> c <> "record_date" ->
     exists qs, s = Numeric qs) ->
  UpdateData.window now delta df = Ok out ->
  dumpable (DocMetrics out) = true.
Proof.
  intros Hd Hz Hnum. rewrite (window_normalized df now delta z z' vals Hd Hz).
  apply (metrics_dumpable _ _ _ _ (df_select_dates _ df _ _ Hd)).
  intros c s Hs Hne. rewrite df_select_get in Hs.
  destruct (dict_get c (cols df)) as [s0|] eqn:Hs0; [|discriminate].
  injection Hs as <-. destruct (Hnum c s0 Hs0 Hne) as [qs ->].
  eexists. reflexivity.
Qed.

Lemma cached_dumpable (df : DataFrame) (z : tzinfo) (vals : list Z) (w : World)
    (h d : dict (list pyval)) :
  record_dates df = Some (Some z, vals) ->
  (forall c s, dict_get c (cols df) = Some s -> c <> "record_date" ->
     exists qs, s = Numeric qs) ->
  fst (UpdateData.process_cached_data df w) = Ok (h, d) ->
  dumpable (DocMetrics h) = true /\ dumpable (DocMetrics d) = true.
Proof.
  intros Hd Hnum. rewrite process_cached_data_run. cbv zeta. cbn [fst].
  set (now := mkTimestamp (clock w) (Some Asia_Shanghai)).
  destruct (UpdateData.window now (hours 24) df) as [h0|e] eqn:H24;
    cbn [rbind]; [|discriminate].
  destruct (UpdateData.window now (days 30) df) as [d0|e] eqn:H30;
    cbn [rbind]; [|discriminate].
  intros H. injection H as <- <-. split.
  - exact (window_dumpable df now _ z _ vals _ Hd eq_refl Hnum H24).
  - exact (window_dumpable df now _ z _ vals _ Hd eq_refl Hnum H30).
Qed.

(** X16: a run of update_data.py on a reachable database whose table has
    rows, naive dates and otherwise numeric columns, with no I/O fault and
    no directory in the place of a destination, returns; the connection is
    closed, the success message is printed, and each of the five
    destinations holds the document its transformer computes from the
    normalized table, dumped with ensure_ascii=False and indent=2. *)
Theorem X16_successful_run (w : World) (df : DataFrame) (n : nat) (vals : list Z) :
  db_reachable w = true -> db_table w = Some df ->
  aligned (S n) df -> record_dates df = Some (None, vals) ->
  (forall c s, dict_get c (cols df) = Some s -> c <> "record_date" ->
     exists qs, s = Numeric qs) ->
  (forall p, io_fault w p = false) ->
  (forall p, p ∈ update_targets -> p ∉ dirs w) ->
  exists df' latest metrics summary hour24 day30,
    UpdateData.convert_to_china_timezone df = Ok df' /\
    UpdateData.process_latest_data df' = Ok latest /\
    UpdateData.process_historical_metrics df' = Ok metrics /\
    UpdateData.process_summary df' = Ok summary /\
    fst (UpdateData.process_cached_data df' w) = Ok (hour24, day30) /\
    fst (UpdateData.main w) = Ok tt /\
    closed_after (snd (UpdateData.main w)) /\
    stdout (snd (UpdateData.main w)) = (stdout w ++ [MsgSuccess])%list /\
    files (snd (UpdateData.main w)) !! ["data"; "latest.json"]
      = Some (Text (mkJsonText false 2 false (DocRecord latest))) /\
    files (snd (UpdateData.main w)) !! ["data"; "historical"; "metrics.json"]
      = Some (Text (mkJsonText false 2 false (DocMetrics metrics))) /\
    files (snd (UpdateData.main w)) !! ["data"; "historical"; "summary.json"]
      = Some (Text (mkJsonText false 2 false (DocSummary summary))) /\
    files (snd (UpdateData.main w)) !! ["data"; "cache"; "hour-24.json"]
      = Some (Text (mkJsonText false 2 false (DocMetrics hour24))) /\
    files (snd (UpdateData.main w)) !! ["data"; "cache"; "day-30.json"]
      = Some (Text (mkJsonText false 2 false (DocMetrics day30))).
Proof.
  intros Hreach Htab Hal Hd Hnum Hio Hfree.
  destruct (convert_naive_shape df vals Hd) as [_ [_ [Hal' [Hd' Hother]]]].
  cbv zeta in *.
  set (df' := setitem df "record_date" (Datetime (Some Asia_Shanghai) vals)) in *.
  specialize (Hal' _ Hal).
  destruct (process_latest_data_total df' n _ _ Hal' Hd') as [latest Hlatest].
  destruct (historical_metrics_spec df' _ _ Hd') as [metrics [Hmetrics _]].
  destruct (process_summary_total df' n _ _ Hal' Hd') as [summary [Hsummary _]].
  { intros c s Hs Hm. assert (Hne : c <> "record_date") by (intros ->; discriminate).
    apply (Hnum c s); [|exact Hne]. rewrite <- Hother; [exact Hs|exact Hne]. }
  destruct (process_cached_data_total df' _ _ w Hd') as [h [d Hcached]].
  assert (Hnum' : forall c s, dict_get c (cols df') = Some s ->
            c <> "record_date" -> exists qs, s = Numeric qs).
  { intros c s Hs Hne. apply (Hnum c s); [|exact Hne].
    rewrite <- Hother; [exact Hs|exact Hne]. }
  assert (Hcw : fst (UpdateData.process_cached_data df' w) = Ok (h, d))
    by (rewrite (Hcached w eq_refl); reflexivity).
  pose proof (latest_dumpable df' latest Hnum' Hlatest) as Hs1.
  pose proof (metrics_dumpable df' _ _ metrics Hd' Hnum' Hmetrics) as Hs2.
  destruct (cached_dumpable df' _ _ w h d Hd' Hnum' Hcw) as [Hs4 Hs5].
  exists df', latest, metrics, summary, h, d.
  split; [exact (convert_naive df vals Hd)|]. split; [exact Hlatest|].
  split; [exact Hmetrics|]. split; [exact Hsummary|].
  split; [exact Hcw|].
  destruct (update_dirs_ready (set_connection (Some ConnClosed) w))
    as [Hparents [_ Hno]].
  cbv zeta in Hparents, Hno. specialize (Hno Hfree).
  set (w3 := set_dirs _ (set_connection (Some ConnClosed) w)) in *.
  unfold update_targets in Hparents, Hno.
  inversion Hparents as [|? ? Hp1 Hparents2]; subst.
  inversion Hparents2 as [|? ? Hp2 Hparents3]; subst.
  inversion Hparents3 as [|? ? Hp3 Hparents4]; subst.
  inversion Hparents4 as [|? ? Hp4 Hparents5]; subst.
  inversion Hparents5 as [|? ? Hp5 _]; subst.
  inversion Hno as [|? ? Hn1 Hno2]; subst.
  inversion Hno2 as [|? ? Hn2 Hno3]; subst.
  inversion Hno3 as [|? ? Hn3 Hno4]; subst.
  inversion Hno4 as [|? ? Hn4 Hno5]; subst.
  inversion Hno5 as [|? ? Hn5 _]; subst.
  set (t1 := mkJsonText false 2 false (DocRecord latest)).
  set (t2 := mkJsonText false 2 false (DocMetrics metrics)).
  set (t3 := mkJsonText false 2 false (DocSummary summary)).
  set (t4 := mkJsonText false 2 false (DocMetrics h)).
  set (t5 := mkJsonText false 2 false (DocMetrics d)).
  set (w4 := set_files (<[["data"; "latest.json"] := Text t1]> (files w3)) w3).
  set (w5 := set_files (<[["data"; "historical"; "metrics.json"] := Text t2]> (files w4)) w4).
  set (w6 := set_files (<[["data"; "historical"; "summary.json"] := Text t3]> (files w5)) w5).
  set (w7 := set_files (<[["data"; "cache"; "hour-24.json"] := Text t4]> (files w6)) w6).
  set (w8 := set_files (<[["data"; "cache"; "day-30.json"] := Text t5]> (files w7)) w7).
  assert (Hmain : UpdateData.main w =
            (Ok tt, set_stdout (stdout w8 ++ [MsgSuccess]) w8)).
  { unfold UpdateData.main, try_except.
    rewrite (update_main_prefix w df vals _ Hreach Htab Hd (Hio _) (Hio _)).
    cbv zeta. fold df' w3. unfold UpdateData.save_json.
    rewrite (run_bind_ok _ _ _ _ _ (lift_ok _ _ w3 Hlatest)). cbv beta.
    rewrite (run_bind_ok _ _ _ _ _
               (open_dump_ok ["data"; "latest.json"] t1 w3 Hp1 Hn1 (Hio _) Hs1)).
    cbv beta. fold w4.
    rewrite (run_bind_ok _ _ _ _ _ (lift_ok _ _ w4 Hmetrics)). cbv beta.
    rewrite (run_bind_ok _ _ _ _ _
               (open_dump_ok ["data"; "historical"; "metrics.json"] t2 w4
                  Hp2 Hn2 (Hio _) Hs2)).
    cbv beta. fold w5.
    rewrite (run_bind_ok _ _ _ _ _ (lift_ok _ _ w5 Hsummary)). cbv beta.
    rewrite (run_bind_ok _ _ _ _ _
               (open_dump_ok ["data"; "historical"; "summary.json"] t3 w5
                  Hp3 Hn3 (Hio _) eq_refl)).
    cbv beta. fold w6.
    rewrite (run_bind_ok _ _ _ _ _ (Hcached w6 eq_refl)). cbv beta iota.
    rewrite (run_bind_ok _ _ _ _ _
               (open_dump_ok ["data"; "cache"; "hour-24.json"] t4 w6
                  Hp4 Hn4 (Hio _) Hs4)).
    cbv beta. fold w7.
    rewrite (run_bind_ok _ _ _ _ _
               (open_dump_ok ["data"; "cache"; "day-30.json"] t5 w7
                  Hp5 Hn5 (Hio _) Hs5)).
    cbv beta. fold w8. reflexivity. }
  rewrite Hmain. cbn [fst snd]. split; [reflexivity|]. split; [reflexivity|].
  split; [reflexivity|].
  cbn [files set_stdout]. unfold w8, w7, w6, w5, w4; cbn [files set_files].
  repeat split; simplify_map_eq; reflexivity.
Qed.

Lemma X16_successful_run_witness :
  let w := fresh_world (datetime 2024 1 2 6 0 0) true (Some scenario_table) in
  exists latest day30,
    fst (UpdateData.main w) = Ok tt /\
    closed_after (snd (UpdateData.main w)) /\
    files (snd (UpdateData.main w)) !! ["data"; "latest.json"]
      = Some (Text (mkJsonText false 2 false (DocRecord latest))) /\
    dict_get "record_date" latest = Some (PyStr "2024-01-02 08:00:00") /\
    files (snd (UpdateData.main w)) !! ["data"; "cache"; "day-30.json"]
      = Some (Text (mkJsonText false 2 false (DocMetrics day30))) /\
    dict_get "value" day30 = Some [PyNum 30; PyNum 20; PyNum 10].
Proof.
  intros w.
  destruct (X16_successful_run w scenario_table 2
              [datetime 2024 1 2 0 0 0; datetime 2024 1 1 12 0 0;
               datetime 2024 1 1 0 0 0])
    as (df' & latest & metrics & summary & h & d & Hconv & Hlatest & _ & _ &
        Hcached & Hok & Hclosed & _ & Hf1 & _ & _ & _ & Hf5);
    try reflexivity.
  - repeat constructor.
  - intros c s Hs Hm. unfold scenario_table in Hs; cbn [cols dict_get] in Hs.
    destruct (String.eqb "ID" c); [injection Hs as <-; eauto|].
    destruct (String.eqb_spec "record_date" c) as [<-|_]; [contradiction|].
    destruct (String.eqb "value" c); [injection Hs as <-; eauto|discriminate].
  - intros p _. apply not_elem_of_empty.
  - exists latest, d. split; [exact Hok|]. split; [exact Hclosed|].
    split; [exact Hf1|]. vm_compute in Hconv. injection Hconv as <-.
    vm_compute in Hlatest. injection Hlatest as <-.
    vm_compute in Hcached. injection Hcached as <- <-.
    split; [reflexivity|]. split; [exact Hf5|reflexivity].
Defined.

(** ** Runs of collect_data.py *)

#[local] Instance quiet_refl : Reflexive quiet.
Proof. intros w. split; reflexivity. Qed.

#[local] Instance quiet_trans : Transitive quiet.
Proof. unfold quiet. intros w1 w2 w3 [? ?] [? ?]. split; congruence. Qed.

Lemma first_row_limit1 (cs : list (string * Series)) :
  first_row (map (fun c => (fst c, series_select [true] (snd c))) cs) = first_row cs.
Proof.
  induction cs as [|[c s] cs IH]; cbn [map first_row fst snd]; [reflexivity|].
  rewrite IH. destruct s as [[|q qs]|z [|v vs]]; reflexivity.
Qed.

Lemma iloc0_limit1 (df : DataFrame) : iloc0 (limit1 df) = iloc0 df.
Proof.
  unfold iloc0, limit1, len; cbn [cols]. rewrite first_row_limit1.
  destruct (cols df) as [|[c s] cs]; cbn [map fst snd]; [reflexivity|].
  destruct s as [[|q qs]|z [|v vs]]; reflexivity.
Qed.


(** X18: a run of collect_data.py, whether it returns or raises, creates
    no directory, prints nothing, removes no file and leaves every file
    other than [data/latest.json] and [data/metadata.json] as it was. *)
Theorem X18_collect_frame (w : World) :
  quiet w (snd (CollectData.main w)) /\
  fs_frame collect_targets w (snd (CollectData.main w)).
Proof.
  split.
  - apply (collect_main_respects quiet).
    + intros w' c. split; reflexivity.
    + intros p text _ w'. unfold open_dump.
      repeat match goal with
             | |- context [if ?b then _ else _] => destruct b
             end; split; reflexivity.
  - destruct (fs_frame_steps collect_targets) as [_ [Hopen _]].
    apply (collect_main_respects (fs_frame collect_targets)); [|exact Hopen].
    intros w' c. split; [reflexivity|]. split; auto.
Qed.

(** ** The normalizer on a table object *)

(** X19: the normalizer works in place.  Called on a reference to a table
    of naive dates it returns the reference it was given, and the table
    object itself has the converted 'record_date' column afterwards: no
    copy is made, no other table object is touched and nothing else in the
    world changes. *)
Theorem X19_normalizer_in_place (r : ref) (df : DataFrame) (vals : list Z)
    (w : World) :
  heap w !! r = Some df ->
  record_dates df = Some (None, vals) ->
  fst (UpdateDataRef.convert_to_china_timezone r w) = Ok r /\
  heap (snd (UpdateDataRef.convert_to_china_timezone r w)) !! r
  = Some (setitem df "record_date" (Datetime (Some Asia_Shanghai) vals)) /\
  (forall r0, r0 <> r ->
     heap (snd (UpdateDataRef.convert_to_china_timezone r w)) !! r0
     = heap w !! r0) /\
  same_but_heap w (snd (UpdateDataRef.convert_to_china_timezone r w)).
Proof.
  intros Hr Hd.
  rewrite (convert_in_place r df _ w Hr (convert_naive df vals Hd)).
  cbn [fst snd heap set_heap]. split; [reflexivity|].
  split; [apply lookup_insert_eq|]. split.
  - intros r0 Hne. apply lookup_insert_ne. congruence.
  - unfold same_but_heap. reflexivity.
Qed.

Lemma X19_normalizer_in_place_witness :
  let w := with_table 0%nat scenario_table
             (fresh_world (datetime 2024 1 2 6 0 0) true None) in
  fst (UpdateDataRef.convert_to_china_timezone 0%nat w) = Ok 0%nat /\
  heap (snd (UpdateDataRef.convert_to_china_timezone 0%nat w)) !! 0%nat
  = Some scenario_desc.
Proof.
  intros w.
  assert (Hr : heap w !! 0%nat = Some scenario_table) by (vm_compute; reflexivity).
  destruct (X19_normalizer_in_place 0%nat scenario_table _ w Hr eq_refl)
    as (Hres & Hobj & _).
  split; [exact Hres | exact Hobj].
Defined.

(** ** Runs that stop halfway *)

(** X20: the five documents are written one after the other, so a run
    whose third write fails on an I/O fault raises OSError after
    [data/latest.json] and [data/historical/metrics.json] have been
    replaced, and leaves both cache files as they were.  What is left of
    [data/historical/summary.json] depends on when the fault strikes: at
    open, the file is as it was before the run; during the write, it has
    been truncated by then and is left incomplete. *)
Theorem X20_run_stops_at_third_write (w : World) (df : DataFrame) (n : nat)
    (vals : list Z) :
  db_reachable w = true -> db_table w = Some df ->
  aligned (S n) df -> record_dates df = Some (None, vals) ->
  (forall c s, dict_get c (cols df) = Some s -> c <> "record_date" ->
     exists qs, s = Numeric qs) ->
  io_fault w ["data"; "historical"; "summary.json"] = true ->
  (forall p, p <> ["data"; "historical"; "summary.json"] -> io_fault w p = false) ->
  (forall p, p ∈ update_targets -> p ∉ dirs w) ->
  exists df' latest metrics,
    UpdateData.convert_to_china_timezone df = Ok df' /\
    UpdateData.process_latest_data df' = Ok latest /\
    UpdateData.process_historical_metrics df' = Ok metrics /\
    fst (UpdateData.main w) = Raise OSError /\
    closed_after (snd (UpdateData.main w)) /\
    stdout (snd (UpdateData.main w)) = (stdout w ++ [MsgError OSError])%list /\
    files (snd (UpdateData.main w)) !! ["data"; "latest.json"]
      = Some (Text (mkJsonText false 2 false (DocRecord latest))) /\
    files (snd (UpdateData.main w)) !! ["data"; "historical"; "metrics.json"]
      = Some (Text (mkJsonText false 2 false (DocMetrics metrics))) /\
    files (snd (UpdateData.main w)) !! ["data"; "historical"; "summary.json"]
      = (if fault_late w ["data"; "historical"; "summary.json"]
         then Some Partial
         else files w !! ["data"; "historical"; "summary.json"]) /\
    Forall (fun p => files (snd (UpdateData.main w)) !! p = files w !! p)
      [ ["data"; "cache"; "hour-24.json"];
        ["data"; "cache"; "day-30.json"] ].
Proof.
  intros Hreach Htab Hal Hd Hnum Hfault Hio Hfree.
  destruct (convert_naive_shape df vals Hd) as [_ [_ [Hal' [Hd' Hother]]]].
  cbv zeta in *.
  set (df' := setitem df "record_date" (Datetime (Some Asia_Shanghai) vals)) in *.
  specialize (Hal' _ Hal).
  assert (Hnum' : forall c s, dict_get c (cols df') = Some s ->
            c <> "record_date" -> exists qs, s = Numeric qs).
  { intros c s Hs Hne. apply (Hnum c s); [|exact Hne].
    rewrite <- Hother; [exact Hs|exact Hne]. }
  destruct (process_latest_data_total df' n _ _ Hal' Hd') as [latest Hlatest].
  destruct (historical_metrics_spec df' _ _ Hd') as [metrics [Hmetrics _]].
  destruct (process_summary_total df' n _ _ Hal' Hd') as [summary [Hsummary _]].
  { intros c s Hs Hm. apply (Hnum' c s Hs). intros ->. discriminate. }
  pose proof (latest_dumpable df' latest Hnum' Hlatest) as Hs1.
  pose proof (metrics_dumpable df' _ _ metrics Hd' Hnum' Hmetrics) as Hs2.
  exists df', latest, metrics.
  split; [exact (convert_naive df vals Hd)|]. split; [exact Hlatest|].
  split; [exact Hmetrics|].
  destruct (update_dirs_ready (set_connection (Some ConnClosed) w))
    as [Hparents [_ Hno]].
  cbv zeta in Hparents, Hno. specialize (Hno Hfree).
  set (w3 := set_dirs _ (set_connection (Some ConnClosed) w)) in *.
  unfold update_targets in Hparents, Hno.
  inversion Hparents as [|? ? Hp1 Hparents2]; subst.
  inversion Hparents2 as [|? ? Hp2 Hparents3]; subst.
  inversion Hparents3 as [|? ? Hp3 _]; subst.
  inversion Hno as [|? ? Hn1 Hno2]; subst.
  inversion Hno2 as [|? ? Hn2 Hno3]; subst.
  inversion Hno3 as [|? ? Hn3 _]; subst.
  set (t1 := mkJsonText false 2 false (DocRecord latest)).
  set (t2 := mkJsonText false 2 false (DocMetrics metrics)).
  set (t3 := mkJsonText false 2 false (DocSummary summary)).
  set (p3 := ["data"; "historical"; "summary.json"]) in *.
  set (w4 := set_files (<[["data"; "latest.json"] := Text t1]> (files w3)) w3).
  set (w5 := set_files (<[["data"; "historical"; "metrics.json"] := Text t2]> (files w4)) w4).
  set (w6 := if fault_late w p3
             then set_files (<[p3 := Partial]> (files w5)) w5 else w5).
  assert (Hthird : open_dump p3 t3 w5 = (Raise OSError, w6)).
  { unfold open_dump.
    change (dir_exists w5 (parent p3)) with (dir_exists w3 (parent p3)).
    rewrite Hp3. cbn [negb].
    change (dirs w5) with (dirs w3).
    rewrite bool_decide_eq_false_2 by exact Hn3.
    change (io_fault w5 p3) with (io_fault w p3).
    change (fault_late w5 p3) with (fault_late w p3).
    rewrite Hfault. unfold w6.
    destruct (fault_late w p3); reflexivity. }
  assert (Hio1 : io_fault w ["data"; "historical"; "archived"] = false)
    by (apply Hio; discriminate).
  assert (Hio2 : io_fault w ["data"; "cache"] = false)
    by (apply Hio; discriminate).
  assert (Hio3 : io_fault w ["data"; "latest.json"] = false)
    by (apply Hio; discriminate).
  assert (Hio4 : io_fault w ["data"; "historical"; "metrics.json"] = false)
    by (apply Hio; discriminate).
  assert (Hmain : UpdateData.main w =
            (Raise OSError, set_stdout (stdout w6 ++ [MsgError OSError]) w6)).
  { unfold UpdateData.main, try_except.
    rewrite (update_main_prefix w df vals _ Hreach Htab Hd Hio1 Hio2).
    cbv zeta. fold df' w3. unfold UpdateData.save_json.
    rewrite (run_bind_ok _ _ _ _ _ (lift_ok _ _ w3 Hlatest)). cbv beta.
    rewrite (run_bind_ok _ _ _ _ _
               (open_dump_ok ["data"; "latest.json"] t1 w3 Hp1 Hn1 Hio3 Hs1)).
    cbv beta. fold w4.
    rewrite (run_bind_ok _ _ _ _ _ (lift_ok _ _ w4 Hmetrics)). cbv beta.
    rewrite (run_bind_ok _ _ _ _ _
               (open_dump_ok ["data"; "historical"; "metrics.json"] t2 w4
                  Hp2 Hn2 Hio4 Hs2)).
    cbv beta. fold w5.
    rewrite (run_bind_ok _ _ _ _ _ (lift_ok _ _ w5 Hsummary)). cbv beta.
    fold t3 p3. rewrite (run_bind_raise _ _ _ _ _ Hthird). reflexivity. }
  rewrite Hmain. cbn [fst snd]. unfold w6, p3.
  destruct (fault_late w ["data"; "historical"; "summary.json"]);
    (split; [reflexivity|]; split; [reflexivity|]; split; [reflexivity|];
     cbn [files set_stdout]; unfold w5, w4; cbn [files set_files];
     split; [simplify_map_eq; reflexivity|];
     split; [simplify_map_eq; reflexivity|];
     split; [simplify_map_eq; reflexivity|];
     repeat constructor; simplify_map_eq; reflexivity).
Qed.

(** The scenario with a fault on the summary at open, and with a fault
    during its write. *)
Lemma X20_run_stops_at_third_write_witness :
  let fault := fun p => bool_decide (p = ["data"; "historical"; "summary.json"]) in
  let w := mkWorld (datetime 2024 1 2 6 0 0) true true (Some scenario_table)
             fault (fun _ => false) None ∅ ∅ [] ∅ in
  let w' := mkWorld (datetime 2024 1 2 6 0 0) true true (Some scenario_table)
              fault fault None ∅ ∅ [] ∅ in
  fst (UpdateData.main w) = Raise OSError /\
  is_Some (files (snd (UpdateData.main w)) !! ["data"; "latest.json"]) /\
  is_Some (files (snd (UpdateData.main w)) !! ["data"; "historical"; "metrics.json"]) /\
  files (snd (UpdateData.main w)) !! ["data"; "historical"; "summary.json"] = None /\
  files (snd (UpdateData.main w')) !! ["data"; "historical"; "summary.json"]
  = Some Partial.
Proof.
  intros fault w w'.
  assert (Hnum : forall c s, dict_get c (cols scenario_table) = Some s ->
            c <> "record_date" -> exists qs, s = Numeric qs).
  { intros c s Hs Hm. unfold scenario_table in Hs; cbn [cols dict_get] in Hs.
    destruct (String.eqb "ID" c); [injection Hs as <-; eauto|].
    destruct (String.eqb_spec "record_date" c) as [<-|_]; [contradiction|].
    destruct (String.eqb "value" c); [injection Hs as <-; eauto|discriminate]. }
  assert (Hal : aligned 3 scenario_table) by (repeat constructor).
  assert (Hio : forall p, p <> ["data"; "historical"; "summary.json"] -> fault p = false)
    by (intros p Hp; apply bool_decide_eq_false_2; exact Hp).
  assert (Hfree : forall p : path, p ∈ update_targets -> p ∉ (∅ : gset path))
    by (intros p _; apply not_elem_of_empty).
  destruct (X20_run_stops_at_third_write w scenario_table 2
              [datetime 2024 1 2 0 0 0; datetime 2024 1 1 12 0 0;
               datetime 2024 1 1 0 0 0] eq_refl eq_refl Hal eq_refl Hnum
              eq_refl Hio Hfree)
    as (df1 & latest & metrics & _ & _ & _ & Hres & _ & _ & Hf1 & Hf2 & Hf3 & _).
  destruct (X20_run_stops_at_third_write w' scenario_table 2
              [datetime 2024 1 2 0 0 0; datetime 2024 1 1 12 0 0;
               datetime 2024 1 1 0 0 0] eq_refl eq_refl Hal eq_refl Hnum
              eq_refl Hio Hfree)
    as (df2 & latest' & metrics' & _ & _ & _ & _ & _ & _ & _ & _ & Hf3' & _).
  split; [exact Hres|]. split; [rewrite Hf1; eauto|]. split; [rewrite Hf2; eauto|].
  split; [exact Hf3 | exact Hf3'].
Defined.

(** X21: on a table whose 'record_date' column holds numbers instead of
    dates, the reshaper and the summary aggregator raise AttributeError,
    the cache builder raises TypeError, and the latest-record extractor
    raises AttributeError once the table has a row. *)
Theorem X21_numeric_record_date (df : DataFrame) (qs : list Q) (w : World) :
  dict_get "record_date" (cols df) = Some (Numeric qs) ->
  UpdateData.process_historical_metrics df = Raise AttributeError /\
  UpdateData.process_summary df = Raise AttributeError /\
  fst (UpdateData.process_cached_data df w) = Raise TypeError /\
  (forall n, aligned (S n) df ->
     UpdateData.process_latest_data df = Raise AttributeError).
Proof.
  intros Hrd.
  assert (Hg : getitem df "record_date" = Ok (Numeric qs))
    by (unfold getitem; rewrite Hrd; reflexivity).
  split; [|split; [|split]].
  - unfold UpdateData.process_historical_metrics.
    destruct (metrics_loop_spec df (columns df) [] (fun c H => H)) as [m [-> _]].
    cbn [rbind]. rewrite Hg. reflexivity.
  - unfold UpdateData.process_summary. rewrite Hg. reflexivity.
  - rewrite process_cached_data_run. cbv zeta. unfold UpdateData.window.
    rewrite Hg. reflexivity.
  - intros n Hal. unfold UpdateData.process_latest_data.
    destruct (iloc0_total df n _ _ Hal Hrd) as [row Hrow].
    rewrite Hrow. cbn [rbind].
    rewrite (iloc0_get df row "record_date" Hrow), Hrd.
    pose proof (aligned_lookup _ _ _ _ Hal Hrd) as Hl. cbn [series_len] in Hl.
    destruct qs as [|q qs']; [discriminate|]. reflexivity.
Qed.

Lemma X21_numeric_record_date_witness :
  let df := mkDataFrame
    [ ("record_date", Numeric [2; 1]%Q); ("value", Numeric [30; 20]%Q) ] in
  let w := fresh_world 0 true None in
  UpdateData.process_historical_metrics df = Raise AttributeError /\
  UpdateData.process_summary df = Raise AttributeError /\
  fst (UpdateData.process_cached_data df w) = Raise TypeError /\
  UpdateData.process_latest_data df = Raise AttributeError.
Proof.
  intros df w.
  destruct (X21_numeric_record_date df [2; 1]%Q w eq_refl) as [H1 [H2 [H3 H4]]].
  split; [exact H1|]. split; [exact H2|]. split; [exact H3|].
  apply (H4 1%nat). repeat constructor.
Defined.

